(** * A shallow embedding of the channel tunnel (main.go)

    The program runs in one of two modes.  In [client] mode (the Gateway) it
    listens for application connections and for rendezvous connections of the
    peer; in [proxy] mode (the Relay) it dials the Gateway, serves [dial:]
    requests read off that control connection and opens one data connection
    per request.

    The embedding keeps the program's globals ([PAddr], [RAddr],
    [defaultDialer], [proxyConnID]) in one [state] record together with a
    model of the network: per connection the bytes still to be read, the set
    of closed connections, and a chronological trace of the I/O the program
    performed.  Every function of main.go that touches the network is a
    computation in the state monad [M]; Go's [(value, err)] results are kept
    as pairs or as a [result].  Code that runs in several goroutines at once
    (the calls of [Dial], the Gateway's handlers) is in addition cut into
    steps, which a schedule interleaves. *)

From Stdlib Require Import ZArith String Ascii List Lia DecimalString DecimalPos Sorted.
From stdpp Require Import base gmap strings list.

Open Scope string_scope.
Open Scope list_scope.

(** ** Go strings

    A Go string is a sequence of bytes; [len] counts bytes.  [string] over
    8-bit [ascii] is exactly that. *)

Definition LF_char : ascii := "010"%char.
Definition LF : string := String LF_char "".

(** [s[n:]]; the callers guard [n <= len(s)], where Go would panic. *)
Fixpoint str_drop (n : nat) (s : string) : string :=
  match n, s with
  | O, _ => s
  | S n', String _ s' => str_drop n' s'
  | S _, EmptyString => EmptyString
  end.

(** [s[:n]] *)
Fixpoint str_take (n : nat) (s : string) : string :=
  match n, s with
  | O, _ => EmptyString
  | S n', String c s' => String c (str_take n' s')
  | S _, EmptyString => EmptyString
  end.

(** [s[:len(s)-1]], the idiom main.go uses to strip the line terminator. *)
Definition chop (s : string) : string := str_take (String.length s - 1) s.

(** No byte of [s] is the line terminator. *)
Fixpoint no_LF (s : string) : bool :=
  match s with
  | EmptyString => true
  | String c s' => negb (Ascii.eqb c LF_char) && no_LF s'
  end.

(** ** Errors *)

Inductive error : Type :=
| EOF                 (* io.EOF: the stream ended before the delimiter *)
| ErrClosed           (* use of a closed connection *)
| ErrWrite            (* a write on the connection failed *)
| ErrSyntax           (* strconv.ErrSyntax *)
| ErrRange            (* strconv.ErrRange *)
| ErrCantGetConn      (* errors.New("can't get conn") *)
| ErrNilPointer.      (* a nil *bufio.Writer / *bufio.Reader was used *)

Inductive result (A : Type) : Type :=
| Ok (a : A)
| Err (e : error).
Arguments Ok {A} a.
Arguments Err {A} e.

(** ** strconv and fmt (library functions, modelled by their contract) *)

Module strconv.

Definition digit (c : ascii) : option Z :=
  let n := nat_of_ascii c in
  if (48 <=? n)%nat && (n <=? 57)%nat then Some (Z.of_nat (n - 48)) else None.

(** The accumulation loop [n = n*10 + int(ch)]. *)
Fixpoint digits (acc : Z) (s : string) : option Z :=
  match s with
  | EmptyString => Some acc
  | String c s' =>
      match digit c with
      | Some d => digits (acc * 10 + d) s'
      | None => None
      end
  end.

Definition minInt : Z := (- 2 ^ 63)%Z.
Definition maxInt : Z := (2 ^ 63 - 1)%Z.

(** [strconv.Atoi] on a 64-bit platform: an optional sign, then one or
    more decimal digits; [ErrSyntax] on anything else, [ErrRange] when the
    value does not fit an [int]. *)
Definition Atoi (s : string) : result Z :=
  match s with
  | EmptyString => Err ErrSyntax
  | String c rest =>
      let neg := Ascii.eqb c "-"%char in
      let body := if neg || Ascii.eqb c "+"%char then rest else s in
      match body with
      | EmptyString => Err ErrSyntax
      | _ =>
          match digits 0 body with
          | None => Err ErrSyntax
          | Some n =>
              let v := if neg then (- n)%Z else n in
              if (minInt <=? v)%Z && (v <=? maxInt)%Z then Ok v else Err ErrRange
          end
      end
  end.

End strconv.

Module fmt.

(** [fmt.Sprintf("%d", n)]: the decimal numeral, with a leading [-] for a
    negative number. *)
Definition Sprintd (n : Z) : string := NilZero.string_of_int (Z.to_int n).

End fmt.

(** ** int32 *)

Definition minInt32 : Z := (- 2 ^ 31)%Z.
Definition maxInt32 : Z := (2 ^ 31 - 1)%Z.

(** The conversion [int32(n)] and the result of int32 arithmetic: the value
    modulo 2^32, read as a signed number. *)
Definition int32 (n : Z) : Z := ((n + 2 ^ 31) mod 2 ^ 32 - 2 ^ 31)%Z.

(** ** The wire codec *)

(** [fmt.Sprintf("dial:%s\n", addr)], main.go line 224. *)
Definition dial_request (addr : string) : string := "dial:" +:+ addr +:+ LF.

(** The response line [fmt.Sprintf("%d\n", connID)], main.go line 129. *)
Definition id_line (connID : Z) : string := fmt.Sprintd connID +:+ LF.

(** The request check of [handleOneProxy], main.go lines 110-114: a line of
    at most 5 bytes is refused, otherwise the address is [line[5:]]. *)
Definition parse_request (line : string) : option string :=
  if (String.length line <=? 5)%nat then None else Some (str_drop 5 line).

(** What [bufio.Reader.ReadString('\n')] does to the bytes still to come:
    the bytes up to and including the first delimiter and the bytes after
    it, or, when there is no delimiter, everything that was left. *)
Fixpoint split_line (s : string) : string * option string :=
  match s with
  | EmptyString => (EmptyString, None)
  | String c s' =>
      if Ascii.eqb c LF_char then (String c EmptyString, Some s')
      else let '(l, r) := split_line s' in (String c l, r)
  end.

(** ** Connections, events and the program state *)

(** A [net.Conn] is named by a handle. *)
Abbreviation conn := nat (only parsing).

Inductive task : Type :=
| PipeRemote (rconn proxyConn : conn)
| CopyWithError (dst src : conn).

Inductive event : Type :=
| EvDial (addr : string) (res : option conn)
| EvRead (c : conn) (data : string) (err : option error)
| EvWrite (c : conn) (data : string) (ok : bool)
| EvClose (c : conn)
| EvAdd (v : Z)
| EvGo (t : task).

(** [bufio.Writer]: bytes wait in the buffer until [Flush]; an error of the
    underlying connection is kept and fails every later call.  (The buffer's
    capacity, which only decides how early bytes leave, is not modelled.) *)
Record Writer : Type := mkWriter {
  w_conn : conn;
  w_buf : string;
  w_err : option error
}.

(** [type Dialer struct]: the embedded [sync.Mutex] has no field here, since
    no code path locks it.  A nil [net.Conn], [*bufio.Writer] or
    [*bufio.Reader] is [None]; a reader is named by the connection it wraps.
    [conns] never stores a nil connection, so "key absent" and "value nil"
    coincide. *)
Record Dialer : Type := mkDialer {
  d_conn : option conn;
  d_writer : option Writer;
  d_reader : option conn;
  conns : gmap Z conn
}.

Record state : Type := mkState {
  (* globals of main.go *)
  PAddr : string;
  RAddr : string;
  defaultDialer : option Dialer;
  proxyConnID : Z;
  (* the network *)
  rx : gmap conn string;                         (* bytes still to be read *)
  closed : gset conn;                            (* closed by this process *)
  wfail : gset conn;                             (* connections whose writes fail *)
  next_conn : conn;                              (* next fresh handle *)
  dial_script : gmap string (list (option string));
      (* per address, the outcome of the successive [net.Dial]s: refused, or
         connected to a peer that will send these bytes *)
  trace : list event                             (* I/O so far, oldest first *)
}.

Definition set_defaultDialer (d : option Dialer) (s : state) : state :=
  mkState (PAddr s) (RAddr s) d (proxyConnID s) (rx s) (closed s) (wfail s)
          (next_conn s) (dial_script s) (trace s).
Definition set_proxyConnID (v : Z) (s : state) : state :=
  mkState (PAddr s) (RAddr s) (defaultDialer s) v (rx s) (closed s) (wfail s)
          (next_conn s) (dial_script s) (trace s).
Definition set_rx (m : gmap conn string) (s : state) : state :=
  mkState (PAddr s) (RAddr s) (defaultDialer s) (proxyConnID s) m (closed s) (wfail s)
          (next_conn s) (dial_script s) (trace s).
Definition set_closed (cs : gset conn) (s : state) : state :=
  mkState (PAddr s) (RAddr s) (defaultDialer s) (proxyConnID s) (rx s) cs (wfail s)
          (next_conn s) (dial_script s) (trace s).
Definition set_next_conn (n : conn) (s : state) : state :=
  mkState (PAddr s) (RAddr s) (defaultDialer s) (proxyConnID s) (rx s) (closed s) (wfail s)
          n (dial_script s) (trace s).
Definition set_dial_script (d : gmap string (list (option string))) (s : state) : state :=
  mkState (PAddr s) (RAddr s) (defaultDialer s) (proxyConnID s) (rx s) (closed s) (wfail s)
          (next_conn s) d (trace s).
Definition emit (e : event) (s : state) : state :=
  mkState (PAddr s) (RAddr s) (defaultDialer s) (proxyConnID s) (rx s) (closed s) (wfail s)
          (next_conn s) (dial_script s) (trace s ++ [e]).

(** ** The state monad *)

Definition M (A : Type) : Type := state -> A * state.

Definition ret {A} (a : A) : M A := fun s => (a, s).
Definition bind {A B} (m : M A) (k : A -> M B) : M B :=
  fun s => let '(a, s') := m s in k a s'.
Definition modify (f : state -> state) : M unit := fun s => (tt, f s).

Notation "'let*' x ':=' c 'in' k" := (bind c (fun x => k))
  (at level 10, x pattern, c at level 100, k at level 200).
Notation "c ';;' k" := (bind c (fun _ => k))
  (at level 100, k at level 200, right associativity).

(** ** The network and runtime primitives *)

Module net.

(** [net.Dial("tcp", addr)]: the next scripted outcome for [addr]; with
    nothing scripted the connection is refused. *)
Definition Dial (addr : string) : M (option conn) := fun s =>
  match dial_script s !! addr with
  | Some (Some bytes :: rest) =>
      let c := next_conn s in
      (Some c,
       emit (EvDial addr (Some c))
         (set_next_conn (S c)
            (set_rx (<[c := bytes]> (rx s))
               (set_dial_script (<[addr := rest]> (dial_script s)) s))))
  | Some (None :: rest) =>
      (None, emit (EvDial addr None)
               (set_dial_script (<[addr := rest]> (dial_script s)) s))
  | _ => (None, emit (EvDial addr None) s)
  end.

(** [conn.Write(data)]; [true] when the write succeeded. *)
Definition Write (c : conn) (data : string) : M bool := fun s =>
  if decide (c ∈ closed s ∨ c ∈ wfail s)
  then (false, emit (EvWrite c data false) s)
  else (true, emit (EvWrite c data true) s).

(** [conn.Close()] *)
Definition Close (c : conn) : M unit := fun s =>
  (tt, emit (EvClose c) (set_closed ({[c]} ∪ closed s) s)).

End net.

Module bufio.

Definition NewWriter (c : conn) : Writer := mkWriter c "" None.

(** A reader is named by its connection.  For the two readers that live
    as long as their connection (line 96 in [handleProxy], line 253 in the
    dialer) the bytes the reader has buffered and the bytes still in the
    socket are together the pending input [rx].  The readers of lines 132 and
    187 are dropped after one line: bytes that reached their buffer behind
    that line are lost to later reads of the connection.  How many those
    are depends on timing; the pending input of such a connection after the
    read is therefore left out of every statement below. *)
Definition NewReader (c : conn) : conn := c.

(** [r.ReadString('\n')] as it returns: the line with its terminator and
    no error when a whole line is pending; otherwise, the connection having
    ended, what was left together with [EOF].  The pending input of a
    connection is all its peer sends before it ends the connection.  (No
    deadline is ever set in main.go: towards a peer that stays silent without
    closing, the read does not return and neither does its caller.  A call
    that does not return has no result here; what is stated of a function
    below is stated of the calls that return.) *)
Definition ReadString (c : conn) : M (string * option error) := fun s =>
  if decide (c ∈ closed s) then
    (("", Some ErrClosed), emit (EvRead c "" (Some ErrClosed)) s)
  else
    match split_line (default "" (rx s !! c)) with
    | (line, Some rest) =>
        ((line, None), emit (EvRead c line None) (set_rx (<[c := rest]> (rx s)) s))
    | (part, None) =>
        ((part, Some EOF), emit (EvRead c part (Some EOF)) (set_rx (<[c := ""]> (rx s)) s))
    end.

Definition WriteString (w : Writer) (str : string) : Writer * option error :=
  match w_err w with
  | Some e => (w, Some e)
  | None => (mkWriter (w_conn w) (w_buf w +:+ str) None, None)
  end.

Definition Flush (w : Writer) : M (Writer * option error) :=
  match w_err w with
  | Some e => ret (w, Some e)
  | None =>
      match w_buf w with
      | EmptyString => ret (w, None)
      | buf =>
          let* ok := net.Write (w_conn w) buf in
          if ok : bool then ret (mkWriter (w_conn w) "" None, None)
          else ret (mkWriter (w_conn w) buf (Some ErrWrite), Some ErrWrite)
      end
  end.

End bufio.

Module atomic.

(** [atomic.AddInt32(&proxyConnID, delta)]: one indivisible step that
    stores the sum, wrapped to 32 bits, and returns it. *)
Definition AddInt32_proxyConnID (delta : Z) : M Z := fun s =>
  let v := int32 (proxyConnID s + delta) in
  (v, emit (EvAdd v) (set_proxyConnID v s)).

End atomic.

(** [go f(...)]: the goroutine is recorded, not run. *)
Definition go (t : task) : M unit := modify (emit (EvGo t)).

(** ** main.go: the Relay *)

(** [closeConn], lines 88-91 (the log line has no effect). *)
Definition closeConn (c : conn) : M unit := net.Close c.

(** [handleOneProxy], lines 103-144.  [r] and [w] wrap the control
    connection; the writer is returned since the call may change it. *)
Definition handleOneProxy (r : conn) (w : Writer) : M Writer :=
  let* (line, err) := bufio.ReadString r in
  match err with
  | Some _ => ret w
  | None =>
  match parse_request line with
  | None => ret w
  | Some raddr =>
  let* paddr := (fun s => (PAddr s, s)) in
  let* dialed := net.Dial paddr in
  match dialed with
  | None => ret w
  | Some proxyConn =>
  let* dialed := net.Dial raddr in
  match dialed with
  | None => ret w
  | Some rconn =>
  let* connID := atomic.AddInt32_proxyConnID 1 in
  let rsp := id_line connID in
  let* _ := net.Write proxyConn rsp in
  let preader := bufio.NewReader proxyConn in
  let* (_, err) := bufio.ReadString preader in
  match err with
  | Some _ => ret w
  | None =>
  let (w, _) := bufio.WriteString w rsp in
  let* (w, _) := bufio.Flush w in
  go (PipeRemote rconn proxyConn) ;;
  ret w
  end end end end end.

(** [io.Copy(dst, src)], as used by [copyWithError], lines 153-158: what
    [src] still delivers is written to [dst], until [src] ends. *)
Definition copyWithError (dst src : conn) : M unit := fun s =>
  if decide (src ∈ closed s) then (tt, emit (EvRead src "" (Some ErrClosed)) s)
  else
    let data := default "" (rx s !! src) in
    let s1 := emit (EvRead src data (Some EOF)) (set_rx (<[src := ""]> (rx s)) s) in
    match data with
    | EmptyString => (tt, s1)
    | _ => (tt, snd (net.Write dst data s1))
    end.

(** [pipeRemote], lines 146-151; the deferred closes run in reverse order
    once the foreground copy returns. *)
Definition pipeRemote (rconn proxyConn : conn) : M unit :=
  go (CopyWithError rconn proxyConn) ;;
  copyWithError proxyConn rconn ;;
  closeConn proxyConn ;;
  closeConn rconn.

(** The Relay's control flow, lines 76-101, one loop iteration per step.
    [serveProxy] dials and calls [handleProxy]; [handleProxy] runs
    [for { handleOneProxy(r, w) }].  That loop has no [break] and no
    [return], so no step leaves [InHandleProxy]: the deferred [closeConn] of
    line 95 and the next iteration of [serveProxy] are never reached. *)
Inductive relay_pc : Type :=
| AtServeProxy
| InHandleProxy (c : conn) (w : Writer).

Definition relay_step (pc : relay_pc) : M relay_pc :=
  match pc with
  | AtServeProxy =>
      let* paddr := (fun s => (PAddr s, s)) in
      let* dialed := net.Dial paddr in
      match dialed with
      | None => ret AtServeProxy                       (* continue *)
      | Some c => ret (InHandleProxy c (bufio.NewWriter c))
      end
  | InHandleProxy c w =>
      let* w' := handleOneProxy (bufio.NewReader c) w in
      ret (InHandleProxy c w')
  end.

Fixpoint relay_run (n : nat) (pc : relay_pc) : M relay_pc :=
  match n with
  | O => ret pc
  | S n' => let* pc' := relay_step pc in relay_run n' pc'
  end.

(** ** main.go: the Gateway *)

Definition get_dialer : M (option Dialer) := fun s => (defaultDialer s, s).

(** Assignment through the shared [*bufio.Writer] of the dialer. *)
Definition put_writer (w : Writer) : M unit := modify (fun s =>
  match defaultDialer s with
  | Some d => set_defaultDialer (Some (mkDialer (d_conn d) (Some w) (d_reader d) (conns d))) s
  | None => s
  end).

(** [Dialer.setConn], lines 247-254. *)
Definition setConn (d : Dialer) (c : conn) : M Dialer :=
  match d_conn d with
  | Some old => closeConn old
  | None => ret tt
  end ;;
  ret (mkDialer (Some c) (Some (bufio.NewWriter c)) (Some (bufio.NewReader c)) (conns d)).

(** [NewDialer], lines 213-217. *)
Definition NewDialer (c : conn) : M Dialer :=
  let r := mkDialer None None None ∅ in
  setConn r c.

(** [Dialer.setProxyConn], lines 256-259: [dialer.conns[connID] = conn]. *)
Definition setProxyConn (d : Dialer) (connID : Z) (c : conn) : Dialer :=
  mkDialer (d_conn d) (d_writer d) (d_reader d) (<[connID := c]> (conns d)).

(** The call [defaultDialer.setProxyConn(connID, conn)] on the shared dialer. *)
Definition defaultDialer_setProxyConn (connID : Z) (c : conn) : M unit := modify (fun s =>
  match defaultDialer s with
  | Some d => set_defaultDialer (Some (setProxyConn d connID c)) s
  | None => s
  end).

(** [Dialer.Dial], lines 220-245, in its three phases.  The receiver is the
    one dialer of the program, [defaultDialer]; every phase works on the
    shared object, as the method does through its pointer. *)

(** Lines 222-230: write the request and flush. *)
Definition Dial_send (addr : string) : M (option error) :=
  let* d := get_dialer in
  match d with
  | Some (mkDialer _ (Some w) _ _) =>
      let req := dial_request addr in
      let (w, err) := bufio.WriteString w req in
      put_writer w ;;
      match err with
      | Some e => ret (Some e)
      | None =>
          let* (w, _) := bufio.Flush w in
          put_writer w ;;
          ret None
      end
  | _ => ret (Some ErrNilPointer)
  end.

(** Lines 231-234: read one line. *)
Definition Dial_recv : M (string * option error) :=
  let* d := get_dialer in
  match d with
  | Some (mkDialer _ _ (Some r) _) => bufio.ReadString r
  | _ => ret ("", Some ErrNilPointer)
  end.

(** Lines 236-244: parse the line and look the connection up. *)
Definition Dial_lookup (line : string) : M (result conn) :=
  match strconv.Atoi (chop line) with
  | Err e => ret (Err e)
  | Ok connID =>
      let* d := get_dialer in
      match d with
      | Some d =>
          match conns d !! int32 connID with
          | None => ret (Err ErrCantGetConn)
          | Some c => ret (Ok c)
          end
      | None => ret (Err ErrNilPointer)
      end
  end.

Definition Dial (addr : string) : M (result conn) :=
  let* err := Dial_send addr in
  match err with
  | Some e => ret (Err e)
  | None =>
      let* (line, err) := Dial_recv in
      match err with
      | Some e => ret (Err e)
      | None => Dial_lookup line
      end
  end.

(** [handleClientConn], lines 160-177. *)
Definition handleClientConn (c : conn) : M unit :=
  let* d := get_dialer in
  match d with
  | None => closeConn c
  | Some _ =>
      let* raddr := (fun s => (RAddr s, s)) in
      let* res := Dial raddr in
      match res with
      | Err _ => closeConn c
      | Ok rconn =>
          go (CopyWithError c rconn) ;;
          copyWithError rconn c ;;
          closeConn rconn ;;
          closeConn c
      end
  end.

(** [handleClientProxyConn], lines 179-200. *)
Definition handleClientProxyConn (c : conn) : M unit :=
  let* d := get_dialer in
  match d with
  | None =>
      let* nd := NewDialer c in
      modify (set_defaultDialer (Some nd))
  | Some _ =>
      let r := bufio.NewReader c in
      let* (line, err) := bufio.ReadString r in
      match err with
      | Some _ => ret tt
      | None =>
          match strconv.Atoi (chop line) with
          | Err _ => ret tt
          | Ok connID =>
              defaultDialer_setProxyConn (int32 connID) c ;;
              let* _ := net.Write c ("ok" +:+ LF) in
              ret tt
          end
      end
  end.

(** ** Concurrent calls of [Dial]

    [handleClientConn] runs in one goroutine per application connection and
    calls [defaultDialer.Dial] without taking the dialer's mutex (the
    [Lock]/[Unlock] pair of lines 167-168 is commented out), so the phases of
    two calls may interleave.  A caller is at one of these points; [req] and
    [rsp] are ghost values: how many requests had been written on the
    control connection before this caller's own, and how many response lines
    had been read off it before the one this caller read. *)
Inductive dial_pc : Type :=
| DialStart (addr : string)
| DialSent (req : nat)
| DialGot (req rsp : nat) (line : string)
| DialDone (req rsp : option nat) (res : result conn).

Definition is_write_on (c : conn) (e : event) : bool :=
  match e with
  | EvWrite c' _ true => Nat.eqb c c'
  | _ => false
  end.

Definition is_line_read_on (c : conn) (e : event) : bool :=
  match e with
  | EvRead c' _ None => Nat.eqb c c'
  | _ => false
  end.

Definition control_conn (s : state) : conn :=
  match defaultDialer s with
  | Some (mkDialer (Some c) _ _ _) => c
  | _ => 0
  end.

Definition requests_written : M nat := fun s =>
  (length (List.filter (is_write_on (control_conn s)) (trace s)), s).

Definition responses_read : M nat := fun s =>
  (length (List.filter (is_line_read_on (control_conn s)) (trace s)), s).

Definition dial_step (pc : dial_pc) : M dial_pc :=
  match pc with
  | DialStart addr =>
      let* k := requests_written in
      let* err := Dial_send addr in
      match err with
      | Some e => ret (DialDone None None (Err e))
      | None => ret (DialSent k)
      end
  | DialSent k =>
      let* j := responses_read in
      let* (line, err) := Dial_recv in
      match err with
      | Some e => ret (DialDone (Some k) None (Err e))
      | None => ret (DialGot k j line)
      end
  | DialGot k j line =>
      let* res := Dial_lookup line in
      ret (DialDone (Some k) (Some j) res)
  | DialDone _ _ _ => ret pc
  end.

(** A schedule names, step by step, the goroutine that moves next. *)
Fixpoint run_schedule (sched : list nat) (pool : list dial_pc) : M (list dial_pc) :=
  match sched with
  | [] => ret pool
  | t :: sched' =>
      match pool !! t with
      | Some pc =>
          let* pc' := dial_step pc in
          run_schedule sched' (<[t := pc']> pool)
      | None => run_schedule sched' pool
      end
  end.

(** ** The Gateway's handlers as goroutines

    [serve] (lines 60-74) starts the handler of every accepted connection
    with [go handler(conn)], on both ports, and no handler takes a lock: the
    handlers of different connections run interleaved.  A handler is at one
    of the points below; a step runs it from one point to the next, the
    points being those where it reads or writes what other goroutines share
    (the global [defaultDialer], the dialer's table, a connection).

    Each step is taken as indivisible, a step sees what the steps before it
    wrote, and a run is any finite sequence of steps: a handler that waits
    in a read, and a process that the Go runtime aborts because it finds two
    goroutines in the table at once, both show as runs that end there.

    The receiver of [Dial] is the pointer read at line 169; the phases of
    [Dial] below go through the global, which is the same object unless line
    182 has reassigned the global during the call. *)
Inductive gw_pc : Type :=
| ProxyTest (c : conn)                  (* handleClientProxyConn, at line 181 *)
| ProxyNew (c : conn)                   (* line 182: the test has seen nil *)
| ProxyRead (c : conn)                  (* lines 187-193 *)
| ProxyStore (c : conn) (connID : Z)    (* line 198 *)
| ProxyReply (c : conn)                 (* line 199 *)
| ClientTest (c : conn)                 (* handleClientConn, at line 163 *)
| ClientDial (c : conn) (d : dial_pc)   (* line 169, inside Dial *)
| ClientCopy (c rconn : conn)           (* line 176 *)
| ClientClosePeer (c rconn : conn)      (* deferred at line 174 *)
| ClientClose (c : conn)                (* deferred at line 162 *)
| GwDone.                               (* the handler has returned *)

Definition gw_step (pc : gw_pc) : M gw_pc :=
  match pc with
  | ProxyTest c =>
      let* d := get_dialer in
      match d with
      | None => ret (ProxyNew c)
      | Some _ => ret (ProxyRead c)
      end
  | ProxyNew c =>
      let* nd := NewDialer c in
      modify (set_defaultDialer (Some nd)) ;;
      ret GwDone
  | ProxyRead c =>
      let r := bufio.NewReader c in
      let* (line, err) := bufio.ReadString r in
      match err with
      | Some _ => ret GwDone
      | None =>
          match strconv.Atoi (chop line) with
          | Err _ => ret GwDone
          | Ok connID => ret (ProxyStore c connID)
          end
      end
  | ProxyStore c connID =>
      defaultDialer_setProxyConn (int32 connID) c ;;
      ret (ProxyReply c)
  | ProxyReply c =>
      let* _ := net.Write c ("ok" +:+ LF) in
      ret GwDone
  | ClientTest c =>
      let* d := get_dialer in
      match d with
      | None => ret (ClientClose c)
      | Some _ =>
          let* raddr := (fun s => (RAddr s, s)) in
          ret (ClientDial c (DialStart raddr))
      end
  | ClientDial c d =>
      let* d' := dial_step d in
      match d' with
      | DialDone _ _ (Err _) => ret (ClientClose c)
      | DialDone _ _ (Ok rconn) =>
          go (CopyWithError c rconn) ;;
          ret (ClientCopy c rconn)
      | _ => ret (ClientDial c d')
      end
  | ClientCopy c rconn =>
      copyWithError rconn c ;;
      ret (ClientClosePeer c rconn)
  | ClientClosePeer c rconn =>
      closeConn rconn ;;
      ret (ClientClose c)
  | ClientClose c =>
      closeConn c ;;
      ret GwDone
  | GwDone => ret GwDone
  end.

(** One handler run on its own for [n] steps. *)
Fixpoint gw_alone (n : nat) (pc : gw_pc) : M gw_pc :=
  match n with
  | O => ret pc
  | S n' => let* pc' := gw_step pc in gw_alone n' pc'
  end.

(** The handlers of [pool] run as the schedule says: step by step, the
    goroutine that moves next.  A goroutine that has not been started yet,
    or that waits in a read, is one the schedule does not name. *)
Fixpoint gw_run (sched : list nat) (pool : list gw_pc) : M (list gw_pc) :=
  match sched with
  | [] => ret pool
  | t :: sched' =>
      match pool !! t with
      | Some pc =>
          let* pc' := gw_step pc in
          gw_run sched' (<[t := pc']> pool)
      | None => gw_run sched' pool
      end
  end.

(** No handler is between the nil test of line 181 and the assignment of
    line 182. *)
Definition past_election (pc : gw_pc) : Prop :=
  match pc with
  | ProxyNew _ => False
  | _ => True
  end.

(** The dialer is installed and no handler is about to install another. *)
Definition settled (pool : list gw_pc) (s : state) : Prop :=
  defaultDialer s <> None /\ Forall past_election pool.


(** ** Connection IDs in a trace *)

Definition event_id (e : event) : option Z :=
  match e with
  | EvAdd v => Some v
  | _ => None
  end.

(** The values [atomic.AddInt32] returned, oldest first. *)
Definition ids_of (tr : list event) : list Z := omap event_id tr.

(** [from + 1, from + 2, ..., from + m] *)
Fixpoint count_up (from : Z) (m : nat) : list Z :=
  match m with
  | O => []
  | S m' => (from + 1)%Z :: count_up (from + 1)%Z m'
  end.

(** The lines written on connections other than [c], oldest first: for the
    Relay in [handleProxy] on control connection [c], what it announced on
    data connections. *)
Definition written_off (c : conn) (tr : list event) : list string :=
  omap (fun e => match e with
                 | EvWrite c' data _ => if Nat.eqb c c' then None else Some data
                 | _ => None
                 end) tr.

(** The events of [s'] that [s] did not have yet. *)
Definition since (s s' : state) : list event := drop (length (trace s)) (trace s').

(** ** Reference behaviour named by the specification

    The blocking lookup [await(id, timeout)] as the specification words it:
    the call returns the link registered under [id] as soon as there is one
    and gives up once [timeout] has elapsed.  [arrivals] lists the
    registrations still to come, each with the time at which it happens. *)
Inductive awaited : Type :=
| Resolved (c : conn)
| DialTimeout.

Definition await_spec (tbl : gmap Z conn) (id : Z)
    (arrivals : list (nat * Z * conn)) (timeout : nat) : awaited :=
  match tbl !! id with
  | Some c => Resolved c
  | None =>
      match List.find (fun a => Z.eqb (snd (fst a)) id && (fst (fst a) <=? timeout)%nat) arrivals with
      | Some a => Resolved (snd a)
      | None => DialTimeout
      end
  end.

(** A result of [Dial] agrees with the outcome of the blocking lookup. *)
Definition agrees (r : result conn) (a : awaited) : Prop :=
  match r, a with
  | Ok c, Resolved c' => c = c'
  | Err _, DialTimeout => True
  | _, _ => False
  end.

(** The specification's [release(id)]. *)
Definition release_spec (tbl : gmap Z conn) (id : Z) : gmap Z conn := delete id tbl.

(** The Gateway's table of registered data connections, [defaultDialer.conns]
    (empty as long as there is no dialer). *)
Definition table (s : state) : gmap Z conn :=
  match defaultDialer s with
  | Some d => conns d
  | None => ∅
  end.

(** A computation that leaves the table as it found it. *)
Definition keeps_table {A} (m : M A) : Prop :=
  forall s, table (snd (m s)) = table s.

(** ** Initial states and well-formed traces *)

(** A freshly started process: Go zero values for the globals that are not
    flags, no connection yet, nothing done. *)
Definition init_state (paddr raddr : string)
    (script : gmap string (list (option string))) : state :=
  mkState paddr raddr None 0 ∅ ∅ ∅ 0 script [].

Definition event_conns (e : event) : list conn :=
  match e with
  | EvDial _ (Some c) => [c]
  | EvDial _ None => []
  | EvRead c _ _ => [c]
  | EvWrite c _ _ => [c]
  | EvClose c => [c]
  | EvAdd _ => []
  | EvGo (PipeRemote a b) => [a; b]
  | EvGo (CopyWithError a b) => [a; b]
  end.

(** Every connection the trace mentions was handed out before [n]. *)
Definition trace_below (n : conn) (tr : list event) : Prop :=
  Forall (fun e => Forall (fun c => c < n) (event_conns e)) tr.



(** Handles are handed out in increasing order: what the trace mentions and
    what has been closed lies below the next fresh handle. *)
Definition wf_state (s : state) : Prop :=
  trace_below (next_conn s) (trace s) /\
  forall c, c ∈ closed s -> c < next_conn s.

(** What holds at every point of a run: the state is well formed, and in
    [handleProxy] the reader and the writer wrap the control connection,
    which is an old handle. *)
Definition relay_inv (pc : relay_pc) (s : state) : Prop :=
  wf_state s /\
  match pc with
  | AtServeProxy => True
  | InHandleProxy c w => c < next_conn s /\ w_conn w = c
  end.

(** [s'] differs from [s] in the pending input and the trace at most. *)
Definition io_only (s s' : state) : Prop :=
  PAddr s' = PAddr s /\ RAddr s' = RAddr s /\ defaultDialer s' = defaultDialer s /\
  proxyConnID s' = proxyConnID s /\ closed s' = closed s /\ wfail s' = wfail s /\
  next_conn s' = next_conn s /\ dial_script s' = dial_script s.

(** A computation that leaves the observation [f] of the state as it found
    it. *)
Definition preserves {A B} (f : state -> B) (m : M A) : Prop :=
  forall s, f (snd (m s)) = f s.

(** [f] does not look at the pending input or at the trace. *)
Definition io_frame {B} (f : state -> B) : Prop :=
  forall s s', io_only s s' -> f s' = f s.

(** [f] does not look at the dialer's writer. *)
Definition writer_frame {B} (f : state -> B) : Prop :=
  forall w s, f (snd (put_writer w s)) = f s.

(** [f] does not look at the set of closed connections. *)
Definition close_frame {B} (f : state -> B) : Prop :=
  forall c s, f (snd (closeConn c s)) = f s.

(** Along a computation the observation [f] moves only upwards in [R]. *)
Definition grows {A B} (R : B -> B -> Prop) (f : state -> B) (m : M A) : Prop :=
  forall s, R (f s) (f (snd (m s))).

(** The table [t2] has every key of [t1]. *)
Definition keeps_keys (t1 t2 : gmap Z conn) : Prop := dom t1 ⊆ dom t2.


(** The Gateway's control connection and the reader on it, once elected. *)
Definition control_of (s : state) : option (option conn * option conn) :=
  match defaultDialer s with
  | Some d => Some (d_conn d, d_reader d)
  | None => None
  end.

(** A [bufio.Writer] that holds no bytes unless it has failed. *)
Definition writer_clean (w : Writer) : Prop := w_err w = None -> w_buf w = "".

Definition pc_clean (pc : relay_pc) : Prop :=
  match pc with
  | AtServeProxy => True
  | InHandleProxy _ w => writer_clean w
  end.

(** What lines 236-244 of [Dial] make of a response line's text: the error
    of [Atoi], or the connection stored under the number cut to int32, or
    "can't get conn". *)
Definition lookup_outcome (tbl : gmap Z conn) (body : string) : result conn :=
  match strconv.Atoi body with
  | Err e => Err e
  | Ok id =>
      match tbl !! int32 id with
      | Some c => Ok c
      | None => Err ErrCantGetConn
      end
  end.

(** ** Concrete states

    The Gateway once the Relay's first rendezvous connection (handle 0) has
    become the control connection, with the given table and pending input;
    the addresses are the defaults of the flags, lines 35-37. *)
Definition gateway_state (tbl : gmap Z conn) (pending : gmap conn string) : state :=
  mkState "127.0.0.1:7002" "www.qq.com:80"
          (Some (mkDialer (Some 0) (Some (bufio.NewWriter 0)) (Some (bufio.NewReader 0)) tbl))
          0 pending ∅ ∅ 20 ∅ [].

(** The Relay in [handleProxy] on control connection 0. *)
Definition relay_state (pending : gmap conn string)
    (script : gmap string (list (option string))) : state :=
  mkState "127.0.0.1:7002" "www.qq.com:80" None 0 pending ∅ ∅ 1 script [].

(** The response [1] is on the control connection before data connection 5
    has announced itself. *)
Definition gateway_early : state :=
  gateway_state ∅ {[ 0 := id_line 1; 5 := id_line 1 ]}.

(** Two data connections are registered and both responses have arrived. *)
Definition gateway_paired : state :=
  gateway_state {[ 1%Z := 11; 2%Z := 12 ]} {[ 0 := id_line 1 +:+ id_line 2 ]}.

(** A request for a target that cannot be reached. *)
Definition relay_unreachable : state :=
  relay_state {[ 0 := dial_request "www.qq.com:80" ]}
              {[ "127.0.0.1:7002" := [Some ""] ]}.

(** A request that is served: the Gateway acknowledges on the data
    connection and the target accepts. *)
Definition relay_served : state :=
  relay_state {[ 0 := dial_request "www.qq.com:80" ]}
              {[ "127.0.0.1:7002" := [Some ("ok" +:+ LF)];
                 "www.qq.com:80" +:+ LF := [Some ""] ]}.

(** The Gateway has gone away: nothing is left to read on the control
    connection. *)
Definition relay_dead : state := relay_state ∅ ∅.

(** Data connection 5 announces ID 1, which the table already holds. *)
Definition gateway_duplicate : state :=
  gateway_state {[ 1%Z := 11; 2%Z := 12 ]} {[ 5 := id_line 1 ]}.

(** Data connection 5 sends a line that is no number. *)
Definition gateway_greeted : state :=
  gateway_state {[ 1%Z := 11 ]} {[ 5 := "hello" +:+ LF ]}.

(** Data connection 5 announces 1; the Relay's response carries 2^32 + 1. *)
Definition gateway_wide_id : state :=
  gateway_state ∅ {[ 0 := id_line 4294967297; 5 := id_line 1 ]}.

(** The Relay has gone away: the control connection delivers nothing. *)
Definition gateway_abandoned : state := gateway_state {[ 1%Z := 11 ]} ∅.

(** The control connection delivers a line that is no number. *)
Definition gateway_garbled : state :=
  gateway_state {[ 1%Z := 11 ]} {[ 0 := "oops" +:+ LF +:+ id_line 1 ]}.

(** The dialer's writer has failed before. *)
Definition gateway_broken : state :=
  mkState "127.0.0.1:7002" "www.qq.com:80"
          (Some (mkDialer (Some 0) (Some (mkWriter 0 "" (Some ErrWrite)))
                          (Some (bufio.NewReader 0)) {[ 1%Z := 11 ]}))
          0 {[ 0 := id_line 1 ]} ∅ ∅ 20 ∅ [].

(** Writes on the control connection fail; a response is pending. *)
Definition gateway_unwritable : state :=
  mkState "127.0.0.1:7002" "www.qq.com:80"
          (Some (mkDialer (Some 0) (Some (bufio.NewWriter 0))
                          (Some (bufio.NewReader 0)) {[ 1%Z := 11 ]}))
          0 {[ 0 := id_line 1 ]} ∅ {[ 0 ]} 20 ∅ [].

(** A request that is served although the data connection answers [nope]. *)
Definition relay_odd_ack : state :=
  relay_state {[ 0 := dial_request "www.qq.com:80" ]}
              {[ "127.0.0.1:7002" := [Some ("nope" +:+ LF)];
                 "www.qq.com:80" +:+ LF := [Some ""] ]}.

(** A request that is served when the counter stands at 2^31 - 1. *)
Definition relay_at_limit : state :=
  mkState "127.0.0.1:7002" "www.qq.com:80" None 2147483647
          {[ 0 := dial_request "www.qq.com:80" ]} ∅ ∅ 1
          {[ "127.0.0.1:7002" := [Some ("ok" +:+ LF)];
             "www.qq.com:80" +:+ LF := [Some ""] ]} [].

(** Two requests are pending and both are served. *)
Definition relay_two_requests : state :=
  relay_state {[ 0 := dial_request "a.example:80" +:+ dial_request "b.example:80" ]}
              {[ "127.0.0.1:7002" := [Some ("ok" +:+ LF); Some ("ok" +:+ LF)];
                 "a.example:80" +:+ LF := [Some ""];
                 "b.example:80" +:+ LF := [Some ""] ]}.

(** Both dials succeed, but the data connection ends without a line. *)
Definition relay_no_ack : state :=
  relay_state {[ 0 := dial_request "www.qq.com:80" ]}
              {[ "127.0.0.1:7002" := [Some ""];
                 "www.qq.com:80" +:+ LF := [Some ""] ]}.

(** A Gateway that has not seen the Relay yet. *)
Definition gateway_fresh : state :=
  mkState "127.0.0.1:7002" "www.qq.com:80" None 0 ∅ ∅ ∅ 20 ∅ [].

(** ** The outcomes of one call of [handleOneProxy]

    [handled r w s w' s'] lists, exit by exit, what one call does; the
    lemma [handleOneProxy_handled] below shows that the function has no
    other behaviour. *)

(** The flush of the response on the control connection: nothing leaves
    when the writer already carries an error. *)
Inductive responded (w : Writer) (rsp : string) : list event -> Writer -> Prop :=
| R_stuck e :
    w_err w = Some e ->
    responded w rsp [] w
| R_written :
    w_err w = None ->
    responded w rsp [EvWrite (w_conn w) (w_buf w +:+ rsp) true]
              (mkWriter (w_conn w) "" None)
| R_failed :
    w_err w = None ->
    responded w rsp [EvWrite (w_conn w) (w_buf w +:+ rsp) false]
              (mkWriter (w_conn w) (w_buf w +:+ rsp) (Some ErrWrite)).

Inductive handled (r : conn) (w : Writer) (s : state) : Writer -> state -> Prop :=
| H_read_failed part e s' :                                    (* line 107 *)
    fst (bufio.ReadString r s) = (part, Some e) ->
    trace s' = trace s ++ [EvRead r part (Some e)] ->
    closed s' = closed s -> next_conn s' = next_conn s ->
    proxyConnID s' = proxyConnID s ->
    handled r w s w s'
| H_invalid_request line s' :                                  (* line 112 *)
    fst (bufio.ReadString r s) = (line, None) ->
    String.length line <= 5 ->
    trace s' = trace s ++ [EvRead r line None] ->
    closed s' = closed s -> next_conn s' = next_conn s ->
    proxyConnID s' = proxyConnID s ->
    handled r w s w s'
| H_no_data_link line s' :                                     (* line 119 *)
    fst (bufio.ReadString r s) = (line, None) ->
    5 < String.length line ->
    trace s' = trace s ++ [EvRead r line None; EvDial (PAddr s) None] ->
    closed s' = closed s -> next_conn s' = next_conn s ->
    proxyConnID s' = proxyConnID s ->
    handled r w s w s'
| H_no_target line proxyConn s' :                              (* line 125 *)
    fst (bufio.ReadString r s) = (line, None) ->
    5 < String.length line ->
    proxyConn = next_conn s ->
    trace s' = trace s ++ [EvRead r line None; EvDial (PAddr s) (Some proxyConn);
                           EvDial (str_drop 5 line) None] ->
    closed s' = closed s -> next_conn s' = S proxyConn ->
    proxyConnID s' = proxyConnID s ->
    handled r w s w s'
| H_no_ack line proxyConn rconn connID ok part e s' :          (* line 136 *)
    fst (bufio.ReadString r s) = (line, None) ->
    5 < String.length line ->
    proxyConn = next_conn s -> rconn = S proxyConn ->
    connID = int32 (proxyConnID s + 1) ->
    trace s' = trace s ++ [EvRead r line None; EvDial (PAddr s) (Some proxyConn);
                           EvDial (str_drop 5 line) (Some rconn); EvAdd connID;
                           EvWrite proxyConn (id_line connID) ok;
                           EvRead proxyConn part (Some e)] ->
    closed s' = closed s -> next_conn s' = S rconn ->
    proxyConnID s' = connID ->
    handled r w s w s'
| H_relayed line proxyConn rconn connID ok ack ctl w' s' :     (* line 143 *)
    fst (bufio.ReadString r s) = (line, None) ->
    5 < String.length line ->
    proxyConn = next_conn s -> rconn = S proxyConn ->
    connID = int32 (proxyConnID s + 1) ->
    responded w (id_line connID) ctl w' ->
    trace s' = trace s ++ [EvRead r line None; EvDial (PAddr s) (Some proxyConn);
                           EvDial (str_drop 5 line) (Some rconn); EvAdd connID;
                           EvWrite proxyConn (id_line connID) ok;
                           EvRead proxyConn ack None]
                       ++ ctl ++ [EvGo (PipeRemote rconn proxyConn)] ->
    closed s' = closed s -> next_conn s' = S rconn ->
    proxyConnID s' = connID ->
    handled r w s w' s'.


(** * Properties *)

(** ** Strings and lines *)

Lemma append_String (c : ascii) (a b : string) : String c a +:+ b = String c (a +:+ b).
Proof. reflexivity. Qed.

Lemma append_empty (b : string) : "" +:+ b = b.
Proof. reflexivity. Qed.

Ltac str_simpl := rewrite ?append_String, ?append_empty; simpl.

Lemma length_append (a b : string) :
  String.length (a +:+ b) = String.length a + String.length b.
Proof. induction a as [|c a IH]; str_simpl; [reflexivity | now rewrite IH]. Qed.

Lemma str_drop_append (a b : string) : str_drop (String.length a) (a +:+ b) = b.
Proof. induction a as [|c a IH]; str_simpl; [reflexivity | exact IH]. Qed.

Lemma str_take_append (a b : string) : str_take (String.length a) (a +:+ b) = a.
Proof. induction a as [|c a IH]; str_simpl; [reflexivity | now rewrite IH]. Qed.

Lemma chop_line (body : string) : chop (body +:+ LF) = body.
Proof.
  unfold chop. rewrite length_append. simpl.
  replace (String.length body + 1 - 1) with (String.length body) by lia.
  apply str_take_append.
Qed.

Lemma append_assoc (a b c : string) : (a +:+ b) +:+ c = a +:+ (b +:+ c).
Proof. induction a as [|x a IH]; str_simpl; [reflexivity | now rewrite IH]. Qed.

(** Reading a line off bytes that begin with a terminated line. *)
Lemma split_line_append (body rest : string) :
  no_LF body = true ->
  split_line (body +:+ LF +:+ rest) = (body +:+ LF, Some rest).
Proof.
  induction body as [|c body IH]; str_simpl; intros H.
  - reflexivity.
  - apply andb_prop in H as [Hc Hb].
    destruct (Ascii.eqb c LF_char); [discriminate |].
    now rewrite (IH Hb).
Qed.

(** With no terminator left, the read ends with everything and [EOF]. *)
Lemma split_line_no_LF (bytes : string) :
  no_LF bytes = true -> split_line bytes = (bytes, None).
Proof.
  induction bytes as [|c bytes IH]; simpl; intros H.
  - reflexivity.
  - apply andb_prop in H as [Hc Hb].
    destruct (Ascii.eqb c LF_char); [discriminate |].
    now rewrite (IH Hb).
Qed.

(** A successful read returns a non-empty line that ends at the first
    terminator. *)
Lemma split_line_Some (bytes line rest : string) :
  split_line bytes = (line, Some rest) ->
  exists body, line = body +:+ LF /\ no_LF body = true /\ bytes = line +:+ rest.
Proof.
  revert line rest. induction bytes as [|c bytes IH]; simpl; intros line rest H.
  - discriminate.
  - destruct (Ascii.eqb c LF_char) eqn:Hc.
    + apply Ascii.eqb_eq in Hc. subst c. inversion H; subst.
      exists "". repeat split.
    + destruct (split_line bytes) as [l r] eqn:Hs. inversion H; subst.
      destruct (IH l rest eq_refl) as (body & -> & Hb & ->).
      exists (String c body). str_simpl. rewrite Hc, Hb. repeat split.
Qed.

(** ** What the primitives change *)

Lemma ReadString_effect (c : conn) (s : state) :
  forall data err s', bufio.ReadString c s = ((data, err), s') ->
  trace s' = trace s ++ [EvRead c data err] /\ io_only s s'.
Proof.
  intros data err s'. unfold bufio.ReadString.
  destruct (decide (c ∈ closed s)).
  - intros [= <- <- <-]. split; [reflexivity | repeat split].
  - destruct (split_line (default "" (rx s !! c))) as [l [rest|]];
      intros [= <- <- <-]; (split; [reflexivity | repeat split]).
Qed.

Lemma Write_effect (c : conn) (data : string) (s : state) :
  forall ok s', net.Write c data s = (ok, s') -> s' = emit (EvWrite c data ok) s.
Proof.
  intros ok s'. unfold net.Write.
  destruct (decide (c ∈ closed s ∨ c ∈ wfail s)); now intros [= <- <-].
Qed.

Lemma Dial_effect (addr : string) (s : state) :
  forall res s', net.Dial addr s = (res, s') ->
  trace s' = trace s ++ [EvDial addr res] /\
  PAddr s' = PAddr s /\ RAddr s' = RAddr s /\ defaultDialer s' = defaultDialer s /\
  proxyConnID s' = proxyConnID s /\ closed s' = closed s /\ wfail s' = wfail s /\
  match res with
  | Some c => c = next_conn s /\ next_conn s' = S c
  | None => next_conn s' = next_conn s
  end.
Proof.
  intros res s'. unfold net.Dial.
  destruct (dial_script s !! addr) as [[|[bytes|] rest]|];
    intros [= <- <-]; repeat split.
Qed.

Lemma Flush_responded (w : Writer) (rsp : string) (s : state) :
  rsp <> "" ->
  forall w1 e1 w' e' s', bufio.WriteString w rsp = (w1, e1) ->
  bufio.Flush w1 s = ((w', e'), s') ->
  exists ctl, responded w rsp ctl w' /\ trace s' = trace s ++ ctl /\ io_only s s' /\
              rx s' = rx s.
Proof.
  intros Hne w1 e1 w' e' s'. unfold bufio.WriteString, bufio.Flush.
  destruct (w_err w) as [e|] eqn:Hw.
  - intros [= <- <-]. rewrite Hw. intros [= <- <- <-].
    exists []. split; [now apply R_stuck with e |].
    rewrite app_nil_r. repeat split.
  - intros [= <- <-]. simpl.
    destruct (w_buf w +:+ rsp) as [|c buf] eqn:Hbuf.
    { destruct (w_buf w); [now destruct rsp | discriminate]. }
    unfold bind, ret.
    destruct (net.Write (w_conn w) (String c buf) s) as [ok s1] eqn:HW.
    apply Write_effect in HW. subst s1.
    destruct ok; intros [= <- <- <-].
    + exists [EvWrite (w_conn w) (w_buf w +:+ rsp) true].
      rewrite Hbuf. split; [|repeat split].
      rewrite <- Hbuf. now apply R_written.
    + exists [EvWrite (w_conn w) (w_buf w +:+ rsp) false].
      rewrite Hbuf. split; [|repeat split].
      rewrite <- Hbuf. now apply R_failed.
Qed.

Lemma id_line_nonempty (id : Z) : id_line id <> "".
Proof.
  unfold id_line. intros H.
  apply (f_equal String.length) in H. rewrite length_append in H. simpl in H. lia.
Qed.

(** Every call of [handleOneProxy] takes one of the six exits. *)
Lemma handleOneProxy_handled (r : conn) (w : Writer) (s : state) :
  forall w' s', handleOneProxy r w s = (w', s') -> handled r w s w' s'.
Proof.
  intros w' s'. unfold handleOneProxy, bind, ret.
  destruct (bufio.ReadString r s) as [[line err] s1] eqn:Hread.
  assert (Hfst : fst (bufio.ReadString r s) = (line, err)) by now rewrite Hread.
  apply ReadString_effect in Hread as (Ht1 & HP1 & _ & _ & Hid1 & Hc1 & _ & Hn1 & _).
  destruct err as [e|].
  { intros [= <- <-]. now apply H_read_failed with line e. }
  unfold parse_request.
  destruct (Nat.leb_spec (String.length line) 5) as [Hlen|Hlen].
  { intros [= <- <-]. now apply H_invalid_request with line. }
  destruct (net.Dial (PAddr s1) s1) as [[proxyConn|] s2] eqn:Hd1;
    apply Dial_effect in Hd1 as (Ht2 & HP2 & _ & _ & Hid2 & Hc2 & _ & Hn2); rewrite HP1 in Ht2.
  2:{ intros [= <- <-]. apply H_no_data_link with line; try congruence.
      rewrite Ht2, Ht1, <- app_assoc. reflexivity. }
  destruct Hn2 as [Hpc Hn2].
  destruct (net.Dial (str_drop 5 line) s2) as [[rconn|] s3] eqn:Hd2;
    apply Dial_effect in Hd2 as (Ht3 & HP3 & _ & _ & Hid3 & Hc3 & _ & Hn3).
  2:{ intros [= <- <-]. apply H_no_target with line proxyConn; try congruence.
      rewrite Ht3, Ht2, Ht1, <- !app_assoc. reflexivity. }
  destruct Hn3 as [Hrc Hn3].
  unfold atomic.AddInt32_proxyConnID.
  set (connID := int32 (proxyConnID s3 + 1)).
  set (s4 := emit (EvAdd connID) (set_proxyConnID connID s3)).
  destruct (net.Write proxyConn (id_line connID) s4) as [ok s5] eqn:Hw.
  apply Write_effect in Hw.
  destruct (bufio.ReadString (bufio.NewReader proxyConn) s5) as [[ack err] s6] eqn:Hack.
  apply ReadString_effect in Hack as (Ht6 & HP6 & _ & _ & Hid6 & Hc6 & _ & Hn6 & _).
  assert (Hconn : connID = int32 (proxyConnID s + 1)).
  { unfold connID. congruence. }
  assert (Ht5 : trace s5 = trace s ++ [EvRead r line None; EvDial (PAddr s) (Some proxyConn);
                           EvDial (str_drop 5 line) (Some rconn); EvAdd connID;
                           EvWrite proxyConn (id_line connID) ok]).
  { subst s5 s4. simpl. rewrite Ht3, Ht2, Ht1, <- !app_assoc. reflexivity. }
  assert (Hc5 : closed s5 = closed s) by (subst s5 s4; simpl; congruence).
  assert (Hn5 : next_conn s5 = S rconn) by (subst s5 s4; simpl; congruence).
  assert (Hid5 : proxyConnID s5 = connID) by (subst s5 s4; reflexivity).
  unfold bufio.NewReader in *.
  destruct err as [e|].
  { intros [= <- <-].
    apply H_no_ack with line proxyConn rconn connID ok ack e; try congruence.
    rewrite Ht6, Ht5, <- !app_assoc. reflexivity. }
  destruct (bufio.WriteString w (id_line connID)) as [w1 e1] eqn:Hws.
  destruct (bufio.Flush w1 s6) as [[w2 e2] s7] eqn:Hfl.
  destruct (Flush_responded w (id_line connID) s6 (id_line_nonempty connID)
              w1 e1 w2 e2 s7 Hws Hfl) as (ctl & Hresp & Ht7 & HIO7 & _).
  destruct HIO7 as (_ & _ & _ & Hid7 & Hc7 & _ & Hn7 & _).
  unfold go, modify. intros [= <- <-].
  apply H_relayed with line proxyConn rconn connID ok ack ctl; simpl; try congruence.
  rewrite Ht7, Ht6, Ht5, <- !app_assoc. reflexivity.
Qed.

(** ** What a computation leaves alone *)

Lemma preserves_ret {A B} (f : state -> B) (a : A) : preserves f (ret a).
Proof. intros s. reflexivity. Qed.

Lemma preserves_bind {A A' B} (f : state -> B) (m : M A) (k : A -> M A') :
  preserves f m -> (forall a, preserves f (k a)) -> preserves f (bind m k).
Proof.
  intros Hm Hk s. unfold bind. specialize (Hm s).
  destruct (m s) as [a s1]. simpl in Hm. rewrite (Hk a s1). exact Hm.
Qed.

Lemma preserves_read_global {A B} (f : state -> B) (g : state -> A) :
  preserves f (fun s => (g s, s)).
Proof. intros s. reflexivity. Qed.

Lemma preserves_ReadString {B} (f : state -> B) (c : conn) :
  io_frame f -> preserves f (bufio.ReadString c).
Proof.
  intros Hf s. destruct (bufio.ReadString c s) as [[data err] s'] eqn:H.
  apply ReadString_effect in H as [_ HIO]. simpl. now apply Hf.
Qed.

Lemma preserves_Write {B} (f : state -> B) (c : conn) (data : string) :
  io_frame f -> preserves f (net.Write c data).
Proof.
  intros Hf s. destruct (net.Write c data s) as [ok s'] eqn:H.
  apply Write_effect in H. subst s'. simpl. apply Hf. repeat split.
Qed.

Lemma preserves_go {B} (f : state -> B) (t : task) : io_frame f -> preserves f (go t).
Proof. intros Hf s. apply Hf. repeat split. Qed.

Lemma preserves_copyWithError {B} (f : state -> B) (dst src : conn) :
  io_frame f -> preserves f (copyWithError dst src).
Proof.
  intros Hf s. unfold copyWithError.
  destruct (decide (src ∈ closed s)); [apply Hf; repeat split |].
  destruct (default "" (rx s !! src)); simpl; [apply Hf; repeat split |].
  rewrite (preserves_Write f dst _ Hf). apply Hf. repeat split.
Qed.

Lemma preserves_Flush {B} (f : state -> B) (w : Writer) :
  io_frame f -> preserves f (bufio.Flush w).
Proof.
  intros Hf. unfold bufio.Flush. destruct (w_err w); [apply preserves_ret |].
  destruct (w_buf w); [apply preserves_ret |].
  apply preserves_bind; [now apply preserves_Write |].
  intros []; apply preserves_ret.
Qed.

Lemma preserves_Dial_send {B} (f : state -> B) (addr : string) :
  io_frame f -> writer_frame f -> preserves f (Dial_send addr).
Proof.
  intros Hf Hw. unfold Dial_send.
  apply preserves_bind; [apply preserves_read_global |].
  intros [[dc [w|] dr tbl]|]; try apply preserves_ret.
  destruct (bufio.WriteString w (dial_request addr)) as [w1 [e|]].
  - apply preserves_bind; [exact (Hw w1) | intros; apply preserves_ret].
  - apply preserves_bind; [exact (Hw w1) | intros _].
    apply preserves_bind; [now apply preserves_Flush | intros [w2 e2]].
    apply preserves_bind; [exact (Hw w2) | intros; apply preserves_ret].
Qed.

Lemma preserves_Dial_recv {B} (f : state -> B) : io_frame f -> preserves f Dial_recv.
Proof.
  intros Hf. unfold Dial_recv. apply preserves_bind; [apply preserves_read_global |].
  intros [[dc dw [r|] tbl]|]; try apply preserves_ret. now apply preserves_ReadString.
Qed.

Lemma preserves_Dial_lookup {B} (f : state -> B) (line : string) :
  preserves f (Dial_lookup line).
Proof.
  unfold Dial_lookup. destruct (strconv.Atoi (chop line)); [| apply preserves_ret].
  apply preserves_bind; [apply preserves_read_global |].
  intros [d|]; [| apply preserves_ret].
  destruct (conns d !! int32 a); apply preserves_ret.
Qed.




Lemma control_io_frame : io_frame control_of.
Proof.
  intros s s' (_ & _ & Hd & _). unfold control_of. now rewrite Hd.
Qed.

Lemma control_writer_frame : writer_frame control_of.
Proof.
  intros w s. unfold put_writer, modify, control_of. simpl.
  destruct (defaultDialer s) as [d|] eqn:Hd; simpl; [reflexivity | now rewrite Hd].
Qed.

(** ** The request line (C2, C10) *)

Lemma append_empty_r (a : string) : a +:+ "" = a.
Proof. induction a as [|c a IH]; str_simpl; [reflexivity | now rewrite IH]. Qed.

Lemma parse_request_Some (line raddr : string) :
  parse_request line = Some raddr <-> 5 < String.length line /\ raddr = str_drop 5 line.
Proof.
  unfold parse_request. destruct (Nat.leb_spec (String.length line) 5); split.
  - discriminate.
  - intros [? _]. lia.
  - intros [= <-]. split; [assumption | reflexivity].
  - intros [_ ->]. reflexivity.
Qed.

Lemma parse_request_None (line : string) :
  parse_request line = None <-> String.length line <= 5.
Proof.
  unfold parse_request. destruct (Nat.leb_spec (String.length line) 5); split;
    try discriminate; try lia; reflexivity.
Qed.

(** The first five bytes are dropped unseen. *)
Lemma parse_request_any_prefix (prefix rest : string) :
  String.length prefix = 5 ->
  parse_request (prefix +:+ rest +:+ LF) = Some (rest +:+ LF).
Proof.
  intros H5. apply parse_request_Some. split.
  - rewrite !length_append, H5. simpl. lia.
  - rewrite <- H5. symmetry. apply str_drop_append.
Qed.

Lemma dial_request_is_a_line (addr : string) :
  no_LF addr = true ->
  split_line (dial_request addr) = (dial_request addr, Some "").
Proof.
  intros H. unfold dial_request.
  rewrite <- (append_empty_r ("dial:" +:+ addr +:+ LF)) at 1.
  rewrite <- (append_assoc "dial:" addr LF), (append_assoc ("dial:" +:+ addr) LF "").
  apply split_line_append. exact H.
Qed.

(** Reading when a terminated line is pending. *)
Lemma ReadString_line (c : conn) (s : state) (bytes line rest : string) :
  c ∉ closed s -> rx s !! c = Some bytes -> split_line bytes = (line, Some rest) ->
  bufio.ReadString c s =
    ((line, None), emit (EvRead c line None) (set_rx (<[c := rest]> (rx s)) s)).
Proof.
  intros Hc Hrx Hsplit. unfold bufio.ReadString.
  destruct (decide (c ∈ closed s)); [contradiction |].
  rewrite Hrx. simpl. rewrite Hsplit. reflexivity.
Qed.

(** Once a line longer than five bytes has been read, the handler dials the
    Gateway and then the address [line[5:]]. *)
Lemma handleOneProxy_request (r : conn) (w : Writer) (s : state) (line : string) :
  forall w' s', fst (bufio.ReadString r s) = (line, None) ->
  handleOneProxy r w s = (w', s') ->
  5 < String.length line ->
  exists res rest,
    trace s' = trace s ++ EvRead r line None :: EvDial (PAddr s) res :: rest /\
    forall proxyConn, res = Some proxyConn ->
      exists res2 rest2, rest = EvDial (str_drop 5 line) res2 :: rest2.
Proof.
  intros w' s' Hread Hrun Hlen.
  apply handleOneProxy_handled in Hrun.
  inversion Hrun as [part e s1 Hr Ht | l s1 Hr Hl Ht | l s1 Hr Hl Ht
                    | l pc s1 Hr Hl Hpc Ht | l pc rc id ok part e s1 Hr Hl Hpc Hrc Hid Ht
                    | l pc rc id ok ack ctl w1 s1 Hr Hl Hpc Hrc Hid Hresp Ht];
    subst; rewrite Hread in Hr; try discriminate; injection Hr as <-; try lia.
  - exists None, []. split; [exact Ht | discriminate].
  - exists (Some (next_conn s)), [EvDial (str_drop 5 line) None].
    split; [exact Ht | eauto].
  - eexists (Some (next_conn s)), _. split; [exact Ht | eauto].
  - eexists (Some (next_conn s)), _. split; [| eauto].
    rewrite Ht. simpl. reflexivity.
Qed.

(** A line of at most five bytes is dropped: no dial, no answer. *)
Lemma handleOneProxy_short (r : conn) (w : Writer) (s : state) (line : string) :
  forall w' s', fst (bufio.ReadString r s) = (line, None) ->
  handleOneProxy r w s = (w', s') ->
  String.length line <= 5 ->
  w' = w /\ trace s' = trace s ++ [EvRead r line None].
Proof.
  intros w' s' Hread Hrun Hlen.
  apply handleOneProxy_handled in Hrun.
  inversion Hrun; subst;
    match goal with H : fst (bufio.ReadString r s) = _ |- _ => rewrite Hread in H end;
    try discriminate;
    match goal with H : (_, _) = (_, _) |- _ => injection H as <- end; try lia.
  split; [reflexivity | assumption].
Qed.

(** C10: the Relay handler accepts a control-link line as a dial request
    exactly when the line, terminator included, is longer than 5 bytes, and
    takes everything after the first 5 bytes as the target address; the
    first 5 bytes are never compared with [dial:], and the 6-byte line
    [dial:] + terminator (an empty address) is accepted. *)
Theorem C10_request_valid_iff_longer_than_five :
  (forall line, parse_request line = None <-> String.length line <= 5) /\
  (forall line raddr,
      parse_request line = Some raddr <->
      5 < String.length line /\ raddr = str_drop 5 line) /\
  (forall prefix rest, String.length prefix = 5 ->
      parse_request (prefix +:+ rest +:+ LF) = Some (rest +:+ LF)) /\
  (String.length (dial_request "") = 6 /\ parse_request (dial_request "") = Some LF) /\
  (forall r w s line w' s',
      fst (bufio.ReadString r s) = (line, None) ->
      handleOneProxy r w s = (w', s') ->
      (String.length line <= 5 ->
         w' = w /\ trace s' = trace s ++ [EvRead r line None]) /\
      (5 < String.length line ->
         exists res rest,
           trace s' = trace s ++ EvRead r line None :: EvDial (PAddr s) res :: rest /\
           forall proxyConn, res = Some proxyConn ->
             exists res2 rest2, rest = EvDial (str_drop 5 line) res2 :: rest2)).
Proof.
  split; [exact parse_request_None |].
  split; [exact parse_request_Some |].
  split; [exact parse_request_any_prefix |].
  split; [split; reflexivity |].
  intros r w s line w' s' Hread Hrun. split; intros Hlen.
  - now apply handleOneProxy_short.
  - now apply handleOneProxy_request with w w'.
Qed.

(** C2: the address the Relay decodes from the Gateway's [dial:] line is
    not the address that was encoded: [line[5:]] keeps the line terminator
    that [ReadString] returns with the line. *)
Theorem C2_decoded_address_keeps_line_terminator (addr : string) :
  no_LF addr = true ->
  split_line (dial_request addr) = (dial_request addr, Some "") /\
  parse_request (dial_request addr) = Some (addr +:+ LF) /\
  parse_request (dial_request addr) <> Some addr /\
  forall r w s w' s',
    r ∉ closed s -> rx s !! r = Some (dial_request addr) ->
    handleOneProxy r w s = (w', s') ->
    exists res rest,
      trace s' = trace s ++ EvRead r (dial_request addr) None
                         :: EvDial (PAddr s) res :: rest /\
      forall proxyConn, res = Some proxyConn ->
        exists res2 rest2, rest = EvDial (addr +:+ LF) res2 :: rest2.
Proof.
  intros Hno.
  assert (Hparse : parse_request (dial_request addr) = Some (addr +:+ LF)).
  { unfold dial_request. now apply parse_request_any_prefix. }
  split; [now apply dial_request_is_a_line |].
  split; [exact Hparse |].
  split.
  - rewrite Hparse. intros [= H]. apply (f_equal String.length) in H.
    rewrite length_append in H. simpl in H. lia.
  - intros r w s w' s' Hc Hrx Hrun.
    apply parse_request_Some in Hparse as [Hlen Hdrop].
    assert (Hread : fst (bufio.ReadString r s) = (dial_request addr, None)).
    { erewrite ReadString_line; eauto using dial_request_is_a_line. }
    destruct (handleOneProxy_request r w s _ w' s' Hread Hrun Hlen)
      as (res & rest & Ht & Hnext).
    exists res, rest. split; [exact Ht |]. now rewrite Hdrop.
Qed.

(** ** Abandoned and completed requests (C3, C5) *)



Lemma responded_on_writer (w : Writer) (rsp : string) (ctl : list event) (w' : Writer) :
  responded w rsp ctl w' ->
  forall e, In e ctl -> exists ok, e = EvWrite (w_conn w) (w_buf w +:+ rsp) ok.
Proof.
  intros [e0 He | He | He] e Hin; simpl in Hin; try contradiction;
    destruct Hin as [<- | []]; eauto.
Qed.


Ltac same_trace :=
  match goal with
  | H1 : trace ?s' = trace ?s ++ ?a, H2 : trace ?s' = trace ?s ++ ?b |- _ =>
      rewrite H1 in H2; apply app_inv_head in H2; subst
  end.

Ltac in_events :=
  repeat match goal with
  | H : In _ (_ ++ _) |- _ => apply in_app_or in H as [H | H]
  | H : In _ (_ :: _) |- _ => destruct H as [H | H]; [try discriminate H |]
  | H : In _ [] |- _ => destruct H
  end.

(** C3: when [handleOneProxy] gives a request up after it has opened a
    connection (the target cannot be reached, or the acknowledgement does not
    arrive on the data connection), it writes nothing on the control
    connection, and it closes none of the connections it opened: they are
    still open when it returns. *)
Theorem C3_abandoned_request_closes_nothing
    (r : conn) (w : Writer) (s : state) (w' : Writer) (s' : state) (evs : list event) :
  (forall c, c ∈ closed s -> c < next_conn s) ->
  w_conn w < next_conn s ->
  handleOneProxy r w s = (w', s') ->
  trace s' = trace s ++ evs ->
  (exists addr c, In (EvDial addr (Some c)) evs) ->
  (forall t, ~ In (EvGo t) evs) ->
  (w' = w /\ forall data ok, ~ In (EvWrite (w_conn w) data ok) evs) /\
  (closed s' = closed s /\ forall c, ~ In (EvClose c) evs) /\
  (forall addr c, In (EvDial addr (Some c)) evs -> c ∉ closed s').
Proof.
  intros Hclosed Hw Hrun Hevs (addr & c & Hopened) Hnogo.
  apply handleOneProxy_handled in Hrun.
  inversion Hrun; subst; same_trace.
  1-3: exfalso; in_events.
  - (* the target could not be reached *)
    clear Hopened.
    repeat split; try assumption.
    + intros data ok Hin. in_events.
    + intros c0 Hin. in_events.
    + intros a c0 Hin. in_events. injection Hin as <- <-.
      match goal with H : closed s' = _ |- _ => rewrite H end.
      intros Hc%Hclosed. lia.
  - (* no acknowledgement *)
    clear Hopened.
    repeat split; try assumption.
    + intros data ok0 Hin. in_events. injection Hin as Heq _ _. lia.
    + intros c0 Hin. in_events.
    + intros a c0 Hin.
      match goal with H : closed s' = _ |- _ => rewrite H end.
      in_events; injection Hin as <- <-; intros Hc%Hclosed; lia.
  - (* the request was served: excluded *)
    exfalso. apply (Hnogo (PipeRemote (S (next_conn s)) (next_conn s))).
    apply in_or_app. right. apply in_or_app. right. left. reflexivity.
Qed.



(** ** The handler loop on a dead control connection (C7) *)

Lemma handleOneProxy_dead (r : conn) (w : Writer) (s : state) :
  r ∉ closed s -> no_LF (default "" (rx s !! r)) = true ->
  handleOneProxy r w s =
    (w, emit (EvRead r (default "" (rx s !! r)) (Some EOF))
          (set_rx (<[r := ""]> (rx s)) s)).
Proof.
  intros Hc Hno. unfold handleOneProxy, bind, bufio.ReadString.
  destruct (decide (r ∈ closed s)); [contradiction |].
  rewrite (split_line_no_LF _ Hno). reflexivity.
Qed.

(** Whatever happens, [handleProxy] stays in its loop. *)
Lemma handleProxy_never_returns (n : nat) (c : conn) (w : Writer) (s : state) :
  exists w' s', relay_run n (InHandleProxy c w) s = (InHandleProxy c w', s').
Proof.
  revert w s. induction n as [|n IH]; intros w s; simpl.
  - now exists w, s.
  - unfold bind, ret. destruct (handleOneProxy (bufio.NewReader c) w s) as [w1 s1].
    apply IH.
Qed.

(** C7: on a control connection that has ended (every read returns [EOF]),
    [handleProxy] does not terminate: however many iterations are run, it
    is still in its loop, every iteration was one failed read, the
    connection has not been closed and [serveProxy] has not dialled again. *)
Theorem C7_dead_control_link_is_polled_forever
    (n : nat) (c : conn) (w : Writer) (s : state) :
  c ∉ closed s -> no_LF (default "" (rx s !! c)) = true ->
  exists s' evs,
    relay_run n (InHandleProxy c w) s = (InHandleProxy c w, s') /\
    trace s' = trace s ++ evs /\ length evs = n /\
    Forall (fun e => exists part, e = EvRead c part (Some EOF)) evs /\
    closed s' = closed s /\ (c ∉ closed s') /\ next_conn s' = next_conn s.
Proof.
  revert s. induction n as [|n IH]; intros s Hc Hno.
  - exists s, []. simpl. rewrite app_nil_r. repeat split; auto.
  - simpl. unfold bind at 1. simpl. unfold bind at 1.
    unfold bufio.NewReader. rewrite (handleOneProxy_dead c w s Hc Hno).
    unfold ret at 1.
    set (s1 := emit _ _).
    destruct (IH s1) as (s' & evs & Hrun & Ht & Hlen & Hall & Hcl & Hnc & Hnx).
    { exact Hc. }
    { subst s1. simpl. rewrite lookup_insert_eq. reflexivity. }
    exists s', (EvRead c (default "" (rx s !! c)) (Some EOF) :: evs).
    split; [exact Hrun |].
    split; [rewrite Ht; subst s1; simpl; rewrite <- app_assoc; reflexivity |].
    split; [simpl; congruence |].
    split; [constructor; eauto |].
    repeat split; assumption.
Qed.

(** ** Connection IDs (C6) *)

Lemma int32_in_range (n : Z) : (minInt32 <= n <= maxInt32)%Z -> int32 n = n.
Proof.
  unfold int32, minInt32, maxInt32. intros H.
  rewrite Z.mod_small by lia. lia.
Qed.

(** At the top of the range the counter wraps to the most negative value. *)
Remark int32_wraps : int32 (maxInt32 + 1) = minInt32.
Proof. reflexivity. Qed.

(** ** The ID line round trip

    The Relay prints the ID with [%d]; the Gateway parses the line, less its
    terminator, with [Atoi].  What is parsed is what was printed. *)

Lemma digit_not_sign (c : ascii) (d : Z) :
  strconv.digit c = Some d ->
  Ascii.eqb c "-"%char = false /\ Ascii.eqb c "+"%char = false.
Proof.
  intros H. split.
  - destruct (Ascii.eqb_spec c "-"%char) as [-> |]; [discriminate | reflexivity].
  - destruct (Ascii.eqb_spec c "+"%char) as [-> |]; [discriminate | reflexivity].
Qed.

Lemma digits_of_uint_acc (d : Decimal.uint) :
  forall p, strconv.digits (Z.pos p) (NilEmpty.string_of_uint d)
            = Some (Z.pos (Pos.of_uint_acc d p)).
Proof.
  induction d as [|d IH|d IH|d IH|d IH|d IH|d IH|d IH|d IH|d IH|d IH];
    intros p; simpl; [reflexivity | ..];
    match goal with
    | |- strconv.digits ?acc _ = Some (Z.pos (Pos.of_uint_acc _ ?q)) =>
        replace acc with (Z.pos q) by lia; apply IH
    end.
Qed.

Lemma digits_of_uint (d : Decimal.uint) :
  strconv.digits 0 (NilEmpty.string_of_uint d) = Some (Z.of_N (Pos.of_uint d)).
Proof.
  induction d as [|d IH|d IH|d IH|d IH|d IH|d IH|d IH|d IH|d IH|d IH];
    simpl; [reflexivity | exact IH | ..]; apply digits_of_uint_acc.
Qed.

Lemma digits_of_pos (p : positive) :
  strconv.digits 0 (NilZero.string_of_uint (Pos.to_uint p)) = Some (Z.pos p).
Proof.
  assert (H : strconv.digits 0 (NilZero.string_of_uint (Pos.to_uint p))
              = Some (Z.of_N (Pos.of_uint (Pos.to_uint p)))).
  { destruct (Pos.to_uint p) eqn:Hd; try apply digits_of_uint. reflexivity. }
  rewrite H, DecimalPos.Unsigned.of_to. reflexivity.
Qed.

Lemma string_of_uint_nonempty (d : Decimal.uint) :
  exists c rest, NilZero.string_of_uint d = String c rest.
Proof. destruct d; simpl; eauto. Qed.

Lemma no_LF_string_of_uint (d : Decimal.uint) : no_LF (NilEmpty.string_of_uint d) = true.
Proof. induction d; simpl; auto. Qed.

Lemma no_LF_Sprintd (n : Z) : no_LF (fmt.Sprintd n) = true.
Proof.
  assert (H : forall d, no_LF (NilZero.string_of_uint d) = true).
  { intros d. destruct d; try apply (no_LF_string_of_uint (_ _)). reflexivity. }
  unfold fmt.Sprintd. destruct n; simpl; try apply H. reflexivity.
Qed.

(** [Atoi] reads back what [%d] printed. *)
Lemma Atoi_Sprintd (n : Z) :
  (strconv.minInt <= n <= strconv.maxInt)%Z -> strconv.Atoi (fmt.Sprintd n) = Ok n.
Proof.
  intros Hrange. unfold fmt.Sprintd.
  assert (Hin : ((strconv.minInt <=? n)%Z && (n <=? strconv.maxInt)%Z) = true).
  { apply andb_true_intro. split; apply Z.leb_le; lia. }
  destruct n as [|p|p]; simpl Z.to_int; simpl NilZero.string_of_int.
  - reflexivity.
  - pose proof (digits_of_pos p) as Hd.
    destruct (string_of_uint_nonempty (Pos.to_uint p)) as (c & rest & Hs).
    rewrite Hs in *. unfold strconv.Atoi.
    assert (Hc : exists d, strconv.digit c = Some d).
    { simpl in Hd. destruct (strconv.digit c); [eauto | discriminate]. }
    destruct Hc as [d Hc]. destruct (digit_not_sign c d Hc) as [-> ->].
    simpl orb. cbv iota. rewrite Hd, Hin. reflexivity.
  - pose proof (digits_of_pos p) as Hd.
    destruct (string_of_uint_nonempty (Pos.to_uint p)) as (c & rest & Hs).
    rewrite Hs in *. unfold strconv.Atoi.
    change (Ascii.eqb "-" "-") with true. simpl orb. cbv iota.
    rewrite Hd. change (- Z.pos p)%Z with (Z.neg p). rewrite Hin. reflexivity.
Qed.

Lemma Atoi_id_line (id : Z) :
  (minInt32 <= id <= maxInt32)%Z ->
  strconv.Atoi (chop (id_line id)) = Ok id /\ int32 id = id.
Proof.
  intros H. unfold id_line. rewrite chop_line. split.
  - apply Atoi_Sprintd. unfold minInt32, maxInt32, strconv.minInt, strconv.maxInt in *. lia.
  - now apply int32_in_range.
Qed.

(** ** The IDs of a run *)

Lemma ids_of_app (l1 l2 : list event) : ids_of (l1 ++ l2) = ids_of l1 ++ ids_of l2.
Proof. apply omap_app. Qed.

Lemma responded_no_id (w : Writer) (rsp : string) (ctl : list event) (w' : Writer) :
  responded w rsp ctl w' -> ids_of ctl = [].
Proof. now intros []. Qed.

Lemma count_up_bounds (from : Z) (m : nat) :
  Forall (fun id => (from < id <= from + Z.of_nat m)%Z) (count_up from m).
Proof.
  revert from. induction m as [|m IH]; intros from; simpl; constructor.
  - lia.
  - eapply Forall_impl; [apply IH |]. simpl. intros id H. lia.
Qed.

Lemma count_up_sorted (from : Z) (m : nat) : StronglySorted Z.lt (count_up from m).
Proof.
  revert from. induction m as [|m IH]; intros from; simpl; constructor.
  - apply IH.
  - eapply Forall_impl; [apply count_up_bounds |]. simpl. intros id H. lia.
Qed.

Lemma sorted_lt_NoDup (l : list Z) : StronglySorted Z.lt l -> NoDup l.
Proof.
  induction 1 as [|a l _ IH Ha]; constructor; [| exact IH].
  intros Hin. rewrite Forall_forall in Ha. specialize (Ha a Hin). lia.
Qed.

Lemma written_off_app (c : conn) (l1 l2 : list event) :
  written_off c (l1 ++ l2) = written_off c l1 ++ written_off c l2.
Proof. apply omap_app. Qed.

Lemma responded_written_off (w : Writer) (rsp : string) (ctl : list event) (w' : Writer) :
  responded w rsp ctl w' -> written_off (w_conn w) ctl = [] /\ w_conn w' = w_conn w.
Proof. intros []; simpl; rewrite ?Nat.eqb_refl; auto. Qed.

Lemma since_app (s s' : state) (evs : list event) :
  trace s' = trace s ++ evs -> since s s' = evs.
Proof. intros H. unfold since. rewrite H. apply drop_app_length. Qed.

Lemma count_up_length (from : Z) (m : nat) : length (count_up from m) = m.
Proof. revert from. induction m as [|m IH]; intros from; simpl; [| rewrite IH]; reflexivity. Qed.

(** Two IDs with the same line are the same ID. *)
Lemma id_line_inj (a b : Z) :
  (minInt32 <= a <= maxInt32)%Z -> (minInt32 <= b <= maxInt32)%Z ->
  id_line a = id_line b -> a = b.
Proof.
  intros Ha Hb H.
  destruct (Atoi_id_line a Ha) as [Hpa _]. destruct (Atoi_id_line b Hb) as [Hpb _].
  rewrite H in Hpa. congruence.
Qed.

Lemma NoDup_map_in {A B} (f : A -> B) (l : list A) :
  (forall x y, x ∈ l -> y ∈ l -> f x = f y -> x = y) -> NoDup l -> NoDup (map f l).
Proof.
  intros Hinj Hnd. induction Hnd as [|a l Ha Hnd IH]; simpl; constructor.
  - intros Hin. apply list_elem_of_In, in_map_iff in Hin as (y & Hy & Hin%list_elem_of_In).
    apply Ha. rewrite (Hinj a y); [exact Hin | now left | now right | now symmetry].
  - apply IH. intros x y Hx Hy. apply Hinj; now right.
Qed.

(** One call of [handleOneProxy] in [handleProxy]: what it writes off the
    control connection is the line of the ID it took, if it took one. *)
Lemma handleProxy_step_ids (c : conn) (w : Writer) (s : state) (w1 : Writer) (s1 : state) :
  c < next_conn s -> w_conn w = c ->
  handleOneProxy (bufio.NewReader c) w s = (w1, s1) ->
  w_conn w1 = c /\ next_conn s <= next_conn s1 /\
  exists evs, trace s1 = trace s ++ evs /\
    written_off c evs = map id_line (ids_of evs) /\
    ((ids_of evs = [] /\ proxyConnID s1 = proxyConnID s) \/
     (ids_of evs = [int32 (proxyConnID s + 1)] /\
      proxyConnID s1 = int32 (proxyConnID s + 1))).
Proof.
  intros Hc Hw Hrun. apply handleOneProxy_handled in Hrun.
  assert (Hne : Nat.eqb c (next_conn s) = false) by (apply Nat.eqb_neq; lia).
  inversion Hrun as [part e s2 _ Ht _ Hn Hid | l s2 _ _ Ht _ Hn Hid | l s2 _ _ Ht _ Hn Hid
                    | l pc s2 _ _ Hpc Ht _ Hn Hid
                    | l pc rc id ok part e s2 _ _ Hpc Hrc Hcid Ht _ Hn Hid
                    | l pc rc id ok ack ctl w2 s2 _ _ Hpc Hrc Hcid Hresp Ht _ Hn Hid];
    subst.
  1-4: split; [reflexivity |]; (split; [lia |]);
       eexists; (split; [exact Ht |]); simpl; rewrite ?Hne; auto.
  - split; [reflexivity |]. split; [lia |].
    eexists. split; [exact Ht |]. simpl. rewrite Hne. auto.
  - destruct (responded_written_off _ _ _ _ Hresp) as [Hctl Hw2].
    split; [exact Hw2 |]. split; [lia |].
    eexists. split; [exact Ht |].
    rewrite !written_off_app, !ids_of_app, Hctl, (responded_no_id _ _ _ _ Hresp).
    simpl. rewrite Hne. auto.
Qed.

(** While the counter stays in range, the IDs taken along a run of
    [handleProxy] are consecutive, and their lines, in this order, are what
    the run wrote on data connections. *)
Lemma handleProxy_run_ids (n : nat) :
  forall c w s pc' s',
  (0 <= proxyConnID s)%Z -> (proxyConnID s + Z.of_nat n <= maxInt32)%Z ->
  c < next_conn s -> w_conn w = c ->
  relay_run n (InHandleProxy c w) s = (pc', s') ->
  exists evs m, trace s' = trace s ++ evs /\ m <= n /\
    ids_of evs = count_up (proxyConnID s) m /\
    written_off c evs = map id_line (ids_of evs) /\
    proxyConnID s' = (proxyConnID s + Z.of_nat m)%Z.
Proof.
  induction n as [|n IH]; intros c w s pc' s' H0 Hmax Hc Hw; simpl.
  - intros [= <- <-]. exists [], 0. rewrite app_nil_r, Z.add_0_r. auto.
  - unfold bind at 1, bind at 1, ret at 1.
    destruct (handleOneProxy (bufio.NewReader c) w s) as [w1 s1] eqn:Hstep. intros Hrun.
    apply handleProxy_step_ids in Hstep as (Hw1 & Hle & evs1 & Ht1 & Hoff1 & Hids);
      [| exact Hc | exact Hw].
    assert (Hone : int32 (proxyConnID s + 1) = (proxyConnID s + 1)%Z).
    { apply int32_in_range. unfold minInt32, maxInt32 in *. lia. }
    rewrite Hone in Hids.
    destruct Hids as [[Hnone Hsame] | [Hsome Hnext]].
    + apply IH in Hrun as (evs & m & Ht & Hm & Hids & Hoff & Hid); [| lia ..| exact Hw1].
      exists (evs1 ++ evs), m.
      rewrite Ht, Ht1, written_off_app, ids_of_app, Hoff1, Hoff, Hnone, Hids, Hid, Hsame.
      rewrite app_assoc. repeat split; auto.
    + apply IH in Hrun as (evs & m & Ht & Hm & Hids & Hoff & Hid); [| lia ..| exact Hw1].
      exists (evs1 ++ evs), (S m).
      rewrite Ht, Ht1, written_off_app, ids_of_app, Hoff1, Hoff, Hsome, Hids, Hid, Hnext.
      rewrite app_assoc. simpl. repeat split; auto; lia.
Qed.

(** C6: the Relay's connection IDs come from one counter that
    [atomic.AddInt32] increments by one.  Along any run of [handleProxy] on
    one control connection that stays short of the 32-bit limit, each ID
    taken is the previous one plus one, so the IDs are strictly increasing,
    pairwise distinct, non-negative and within the 32-bit range; and the
    lines the run announces on data connections are the lines of exactly
    these IDs, in this order, no line twice. *)
Theorem C6_connection_ids_strictly_increase
    (n : nat) (c : conn) (w : Writer) (s : state) (pc' : relay_pc) (s' : state) :
  (0 <= proxyConnID s)%Z -> (proxyConnID s + Z.of_nat n <= maxInt32)%Z ->
  c < next_conn s -> w_conn w = c ->
  relay_run n (InHandleProxy c w) s = (pc', s') ->
  trace s' = trace s ++ since s s' /\
  ids_of (since s s') = count_up (proxyConnID s) (length (ids_of (since s s'))) /\
  proxyConnID s' = (proxyConnID s + Z.of_nat (length (ids_of (since s s'))))%Z /\
  written_off c (since s s') = map id_line (ids_of (since s s')) /\
  StronglySorted Z.lt (ids_of (since s s')) /\
  NoDup (ids_of (since s s')) /\
  NoDup (written_off c (since s s')) /\
  Forall (fun id => (0 <= proxyConnID s < id)%Z /\ (id <= maxInt32)%Z)
         (ids_of (since s s')).
Proof.
  intros H0 Hmax Hc Hw Hrun.
  destruct (handleProxy_run_ids n c w s pc' s' H0 Hmax Hc Hw Hrun)
    as (evs & m & Ht & Hm & Hids & Hoff & Hid).
  rewrite (since_app s s' evs Ht), Hoff, Hids, count_up_length.
  assert (Hbounds : Forall (fun id => (0 <= proxyConnID s < id)%Z /\ (id <= maxInt32)%Z)
                           (count_up (proxyConnID s) m)).
  { eapply Forall_impl; [apply count_up_bounds |]. simpl. intros id H. lia. }
  split; [exact Ht |]. split; [reflexivity |]. split; [exact Hid |].
  split; [reflexivity |].
  split; [apply count_up_sorted |].
  split; [apply sorted_lt_NoDup, count_up_sorted |].
  split; [| exact Hbounds].
  apply NoDup_map_in; [| apply sorted_lt_NoDup, count_up_sorted].
  rewrite Forall_forall in Hbounds.
  intros x y Hx%Hbounds Hy%Hbounds.
  apply id_line_inj; unfold minInt32, maxInt32 in *; lia.
Qed.

(** ** The Gateway's dispatcher (C4) *)

Lemma handleClientProxyConn_first (c : conn) (s : state) :
  defaultDialer s = None ->
  handleClientProxyConn c s =
    (tt, set_defaultDialer
           (Some (mkDialer (Some c) (Some (bufio.NewWriter c))
                           (Some (bufio.NewReader c)) ∅)) s).
Proof.
  intros Hnil. unfold handleClientProxyConn, bind, get_dialer. rewrite Hnil.
  reflexivity.
Qed.

Lemma handleClientProxyConn_registers (c : conn) (s : state) (d : Dialer)
    (body rest : string) (id : Z) :
  defaultDialer s = Some d ->
  c ∉ closed s -> rx s !! c = Some (body +:+ LF +:+ rest) -> no_LF body = true ->
  strconv.Atoi body = Ok id ->
  let s1 := set_defaultDialer (Some (setProxyConn d (int32 id) c))
              (emit (EvRead c (body +:+ LF) None) (set_rx (<[c := rest]> (rx s)) s)) in
  handleClientProxyConn c s = (tt, snd (net.Write c ("ok" +:+ LF) s1)).
Proof.
  intros Hd Hc Hrx Hno Hid s1.
  unfold handleClientProxyConn, bind, get_dialer. rewrite Hd.
  unfold bufio.NewReader.
  rewrite (ReadString_line c s _ _ _ Hc Hrx (split_line_append body rest Hno)).
  rewrite chop_line, Hid.
  unfold defaultDialer_setProxyConn, modify. simpl. rewrite Hd. fold s1.
  destruct (net.Write c ("ok" +:+ LF) s1). reflexivity.
Qed.

(** A line that is not a number, or no line at all: one read, nothing
    registered, nothing written. *)
Lemma handleClientProxyConn_rejects (c : conn) (s : state) (d : Dialer) :
  defaultDialer s = Some d ->
  (forall line, fst (bufio.ReadString c s) = (line, None) ->
                exists e, strconv.Atoi (chop line) = Err e) ->
  exists data err,
    trace (snd (handleClientProxyConn c s)) = trace s ++ [EvRead c data err] /\
    defaultDialer (snd (handleClientProxyConn c s)) = Some d.
Proof.
  intros Hd Hbad. unfold handleClientProxyConn, bind, get_dialer. rewrite Hd.
  unfold bufio.NewReader.
  destruct (bufio.ReadString c s) as [[line err] s1] eqn:Hread.
  pose proof (ReadString_effect c s line err s1 Hread) as (Ht & _ & _ & Hd1 & _).
  exists line, err. destruct err as [e|]; simpl.
  - split; [exact Ht | congruence].
  - destruct (Hbad line eq_refl) as [e ->]. simpl. split; [exact Ht | congruence].
Qed.

Ltac gw_norm :=
  repeat (cbn [gw_alone gw_step]; unfold bind, ret, get_dialer; cbn beta iota).

(** Run on its own, the handler of a rendezvous connection is
    [handleClientProxyConn]: its steps, one after the other. *)
Lemma handleClientProxyConn_in_steps (c : conn) (s : state) :
  gw_alone 4 (ProxyTest c) s = (GwDone, snd (handleClientProxyConn c s)).
Proof.
  unfold handleClientProxyConn. gw_norm.
  destruct (defaultDialer s) as [d|]; gw_norm; [| reflexivity].
  unfold bufio.NewReader.
  destruct (bufio.ReadString c s) as [[line [e|]] s1]; gw_norm; [reflexivity |].
  destruct (strconv.Atoi (chop line)) as [id|e]; gw_norm; [| reflexivity].
  destruct (defaultDialer_setProxyConn (int32 id) c s1) as [[] s2]; gw_norm.
  destruct (net.Write c ("ok" +:+ LF) s2) as [ok s3]. reflexivity.
Qed.

(** Run on its own, the handler of an application connection is
    [handleClientConn]. *)
Lemma handleClientConn_in_steps (c : conn) (s : state) :
  gw_alone 7 (ClientTest c) s = (GwDone, snd (handleClientConn c s)).
Proof.
  unfold handleClientConn, Dial. gw_norm.
  destruct (defaultDialer s) as [d|]; gw_norm; [| reflexivity].
  cbn [dial_step]. unfold requests_written, responses_read. gw_norm.
  destruct (Dial_send (RAddr s) s) as [[e|] s1]; gw_norm; [reflexivity |].
  cbn [dial_step]. unfold requests_written, responses_read. gw_norm.
  destruct (Dial_recv s1) as [[line [e|]] s2]; gw_norm; [reflexivity |].
  cbn [dial_step]. gw_norm.
  destruct (Dial_lookup line s2) as [[rconn|e] s3]; gw_norm; [| reflexivity].
  destruct (go (CopyWithError c rconn) s3) as [[] s4]; gw_norm.
  destruct (copyWithError rconn c s4) as [[] s5]; gw_norm.
  reflexivity.
Qed.

(** C4: a rendezvous connection that arrives while there is no dialer
    becomes the control connection, and the dispatcher reads nothing from
    it.  Any later one has exactly one line read from it; when that line is a
    connection ID, the connection is stored in the table under the ID (line
    198) in a step of its own that writes nothing, and the [ok] line is
    written on that same connection by the step after it (line 199), in a
    state whose table already holds the entry. *)
Theorem C4_rendezvous_connection_classified (c : conn) (s : state) :
  match defaultDialer s with
  | None =>
      exists s', handleClientProxyConn c s = (tt, s') /\
        defaultDialer s' = Some (mkDialer (Some c) (Some (bufio.NewWriter c))
                                          (Some (bufio.NewReader c)) ∅) /\
        trace s' = trace s /\ rx s' = rx s /\ closed s' = closed s
  | Some d =>
      forall body rest id,
        c ∉ closed s -> rx s !! c = Some (body +:+ LF +:+ rest) ->
        no_LF body = true -> strconv.Atoi body = Ok id ->
        exists s1 s2 s3 ok,
          (* line 181: there is a dialer *)
          gw_step (ProxyTest c) s = (ProxyRead c, s) /\
          (* lines 187-193: one line is read and parsed *)
          gw_step (ProxyRead c) s = (ProxyStore c id, s1) /\
          trace s1 = trace s ++ [EvRead c (body +:+ LF) None] /\
          defaultDialer s1 = Some d /\
          (* line 198: the connection is registered, nothing is written *)
          gw_step (ProxyStore c id) s1 = (ProxyReply c, s2) /\
          defaultDialer s2 = Some (setProxyConn d (int32 id) c) /\
          table s2 !! int32 id = Some c /\
          trace s2 = trace s1 /\
          (* line 199: only now the [ok] line *)
          gw_step (ProxyReply c) s2 = (GwDone, s3) /\
          s3 = emit (EvWrite c ("ok" +:+ LF) ok) s2 /\
          (* these steps are the call *)
          handleClientProxyConn c s = (tt, s3) /\
          ((minInt32 <= id <= maxInt32)%Z -> int32 id = id)
  end.
Proof.
  destruct (defaultDialer s) as [d|] eqn:Hd.
  - intros body rest id Hc Hrx Hno Hid.
    pose proof (ReadString_line c s _ _ _ Hc Hrx (split_line_append body rest Hno)) as Hread.
    set (s1 := emit (EvRead c (body +:+ LF) None) (set_rx (<[c := rest]> (rx s)) s)) in Hread.
    set (s2 := set_defaultDialer (Some (setProxyConn d (int32 id) c)) s1).
    destruct (net.Write c ("ok" +:+ LF) s2) as [ok s3] eqn:Hw.
    pose proof (Write_effect _ _ _ _ _ Hw) as Hs3.
    exists s1, s2, s3, ok.
    split; [unfold gw_step, bind, get_dialer; now rewrite Hd |].
    split.
    { unfold gw_step, bind, bufio.NewReader. rewrite Hread, chop_line, Hid. reflexivity. }
    split; [reflexivity |]. split; [exact Hd |].
    split.
    { unfold gw_step, bind, defaultDialer_setProxyConn, modify, ret.
      replace (defaultDialer s1) with (Some d) by (symmetry; exact Hd). reflexivity. }
    split; [reflexivity |].
    split; [unfold table; simpl; apply lookup_insert_eq |].
    split; [reflexivity |].
    split; [unfold gw_step, bind; now rewrite Hw |].
    split; [exact Hs3 |].
    split; [| apply int32_in_range].
    pose proof (handleClientProxyConn_registers c s d body rest id Hd Hc Hrx Hno Hid) as Hrun.
    simpl in Hrun. fold s1 in Hrun. fold s2 in Hrun. rewrite Hw in Hrun. exact Hrun.
  - rewrite (handleClientProxyConn_first c s Hd).
    eexists. split; [reflexivity |]. repeat split.
Qed.

(** ** [Dial] (C1) *)

Lemma dial_request_nonempty (addr : string) : dial_request addr <> "".
Proof. discriminate. Qed.

(** The first phase of [Dial]: the request leaves through the dialer's
    writer; nothing else changes.  The phase fails only on a writer that
    already carries an error. *)
Lemma Dial_send_effect (addr : string) (s : state) (d : Dialer) (w : Writer) :
  defaultDialer s = Some d -> d_writer d = Some w ->
  forall err s', Dial_send addr s = (err, s') ->
  exists ctl w',
    responded w (dial_request addr) ctl w' /\ err = w_err w /\
    trace s' = trace s ++ ctl /\
    defaultDialer s' = Some (mkDialer (d_conn d) (Some w') (d_reader d) (conns d)) /\
    rx s' = rx s /\ closed s' = closed s.
Proof.
  intros Hd Hw err s'. destruct d as [dc dw dr tbl]. simpl in Hw. subst dw.
  unfold Dial_send, bind, get_dialer. rewrite Hd.
  destruct (bufio.WriteString w (dial_request addr)) as [w1 e1] eqn:Hws.
  unfold put_writer, modify at 1, ret. simpl. rewrite Hd. simpl.
  set (s1 := set_defaultDialer _ s).
  assert (He1 : e1 = w_err w /\ (w_err w <> None -> w1 = w)).
  { unfold bufio.WriteString in Hws. destruct (w_err w); injection Hws as <- <-; auto.
    split; [reflexivity | congruence]. }
  destruct He1 as [-> Hsame].
  destruct (w_err w) as [e|] eqn:Hwe.
  - intros [= <- <-]. exists [], w.
    split; [now apply R_stuck with e |].
    subst s1. rewrite Hsame by discriminate. rewrite app_nil_r. repeat split.
  - destruct (bufio.Flush w1 s1) as [[w2 e2] s2] eqn:Hfl.
    assert (Hws' : bufio.WriteString w (dial_request addr) = (w1, None)) by exact Hws.
    destruct (Flush_responded w (dial_request addr) s1 (dial_request_nonempty addr)
                w1 None w2 e2 s2 Hws' Hfl) as (ctl & Hresp & Ht & HIO & Hrx).
    destruct HIO as (_ & _ & Hdd & _ & Hcl & _).
    unfold modify. rewrite Hdd. subst s1. simpl.
    intros [= <- <-]. exists ctl, w2. simpl.
    repeat split; try assumption.
Qed.

(** The last phase of [Dial]: one lookup in the table as it is, no wait
    and no change of state. *)
Lemma Dial_lookup_once (line : string) (id : Z) (s : state) (d : Dialer) :
  defaultDialer s = Some d -> strconv.Atoi (chop line) = Ok id ->
  Dial_lookup line s =
    (match conns d !! int32 id with
     | Some c => Ok c
     | None => Err ErrCantGetConn
     end, s).
Proof.
  intros Hd Hid. unfold Dial_lookup, bind, get_dialer. rewrite Hid, Hd.
  destruct (conns d !! int32 id); reflexivity.
Qed.

(** C1 (as the code has it): once [Dial] has read the response line and
    parsed the connection ID, it looks the ID up in the table exactly once
    and returns at once: the registered connection when there is one,
    the error "can't get conn" when there is none.  It performs no further
    I/O, waits for nothing and has no timeout. *)
Theorem C1_Dial_looks_the_connection_up_once
    (addr : string) (s : state) (d : Dialer) (w : Writer) (r : conn)
    (body rest : string) (id : Z) :
  defaultDialer s = Some d -> d_writer d = Some w -> w_err w = None ->
  d_reader d = Some r -> r ∉ closed s ->
  rx s !! r = Some (body +:+ LF +:+ rest) -> no_LF body = true ->
  strconv.Atoi body = Ok id ->
  exists s' ok,
    Dial addr s =
      (match conns d !! int32 id with
       | Some c => Ok c
       | None => Err ErrCantGetConn
       end, s') /\
    trace s' = trace s ++ [EvWrite (w_conn w) (w_buf w +:+ dial_request addr) ok;
                           EvRead r (body +:+ LF) None] /\
    table s' = conns d.
Proof.
  intros Hd Hw Hwe Hr Hc Hrx Hno Hid.
  unfold Dial, bind at 1.
  destruct (Dial_send addr s) as [err s1] eqn:Hsend.
  destruct (Dial_send_effect addr s d w Hd Hw err s1 Hsend)
    as (ctl & w1 & Hresp & -> & Ht1 & Hd1 & Hrx1 & Hc1).
  rewrite Hwe.
  assert (Hctl : exists ok, ctl = [EvWrite (w_conn w) (w_buf w +:+ dial_request addr) ok]).
  { destruct Hresp; [congruence | eauto | eauto]. }
  destruct Hctl as [ok ->].
  unfold bind at 1, Dial_recv, bind at 1, get_dialer. rewrite Hd1, Hr.
  rewrite (ReadString_line r s1 (body +:+ LF +:+ rest) (body +:+ LF) rest);
    [| now rewrite Hc1 | now rewrite Hrx1 | now apply split_line_append].
  set (s2 := emit _ _).
  assert (Hd2 : defaultDialer s2 = Some (mkDialer (d_conn d) (Some w1) (Some r) (conns d)))
    by (subst s2; simpl; now rewrite Hd1, Hr).
  rewrite (Dial_lookup_once (body +:+ LF) id s2 _ Hd2) by now rewrite chop_line.
  simpl. exists s2, ok. split; [reflexivity |]. split.
  - subst s2. simpl. rewrite Ht1, <- app_assoc. reflexivity.
  - unfold table. now rewrite Hd2.
Qed.

(** ** The table only grows (C9) *)

Lemma keeps_ret {A} (a : A) : keeps_table (ret a).
Proof. intros s. reflexivity. Qed.

Lemma keeps_bind {A B} (m : M A) (k : A -> M B) :
  keeps_table m -> (forall a, keeps_table (k a)) -> keeps_table (bind m k).
Proof.
  intros Hm Hk s. unfold bind. specialize (Hm s).
  destruct (m s) as [a s1]. simpl in Hm. rewrite (Hk a s1). exact Hm.
Qed.

Lemma keeps_read_global {A} (f : state -> A) : keeps_table (fun s => (f s, s)).
Proof. intros s. reflexivity. Qed.

Lemma keeps_ReadString (c : conn) : keeps_table (bufio.ReadString c).
Proof.
  intros s. destruct (bufio.ReadString c s) as [[data err] s'] eqn:H.
  apply ReadString_effect in H as (_ & _ & _ & Hd & _).
  unfold table. simpl. now rewrite Hd.
Qed.

Lemma keeps_Write (c : conn) (data : string) : keeps_table (net.Write c data).
Proof.
  intros s. destruct (net.Write c data s) as [ok s'] eqn:H.
  apply Write_effect in H. now subst s'.
Qed.

Lemma keeps_closeConn (c : conn) : keeps_table (closeConn c).
Proof. intros s. reflexivity. Qed.

Lemma keeps_go (t : task) : keeps_table (go t).
Proof. intros s. reflexivity. Qed.

Lemma keeps_copyWithError (dst src : conn) : keeps_table (copyWithError dst src).
Proof.
  intros s. unfold copyWithError.
  destruct (decide (src ∈ closed s)); [reflexivity |].
  destruct (default "" (rx s !! src)); [reflexivity |].
  simpl. now rewrite keeps_Write.
Qed.

Lemma keeps_put_writer (w : Writer) : keeps_table (put_writer w).
Proof.
  intros s. unfold put_writer, modify, table. simpl.
  destruct (defaultDialer s) as [d|] eqn:Hd; simpl; [reflexivity | now rewrite Hd].
Qed.

Lemma keeps_Flush (w : Writer) : keeps_table (bufio.Flush w).
Proof.
  unfold bufio.Flush. destruct (w_err w); [apply keeps_ret |].
  destruct (w_buf w); [apply keeps_ret |].
  apply keeps_bind; [apply keeps_Write |].
  intros []; apply keeps_ret.
Qed.

Lemma keeps_Dial_send (addr : string) : keeps_table (Dial_send addr).
Proof.
  unfold Dial_send. apply keeps_bind; [apply (keeps_read_global defaultDialer) |].
  intros [[dc [w|] dr tbl]|]; try apply keeps_ret.
  destruct (bufio.WriteString w (dial_request addr)) as [w1 [e|]].
  - apply keeps_bind; [apply keeps_put_writer | intros; apply keeps_ret].
  - apply keeps_bind; [apply keeps_put_writer | intros _].
    apply keeps_bind; [apply keeps_Flush | intros [w2 e2]].
    apply keeps_bind; [apply keeps_put_writer | intros; apply keeps_ret].
Qed.

Lemma keeps_Dial_recv : keeps_table Dial_recv.
Proof.
  unfold Dial_recv. apply keeps_bind; [apply (keeps_read_global defaultDialer) |].
  intros [[dc dw [r|] tbl]|]; try apply keeps_ret. apply keeps_ReadString.
Qed.

Lemma keeps_Dial_lookup (line : string) : keeps_table (Dial_lookup line).
Proof.
  unfold Dial_lookup. destruct (strconv.Atoi (chop line)); [| apply keeps_ret].
  apply keeps_bind; [apply (keeps_read_global defaultDialer) |].
  intros [d|]; [| apply keeps_ret].
  destruct (conns d !! int32 a); apply keeps_ret.
Qed.

(** [Dial] never writes to the table, whichever way it ends. *)
Lemma keeps_Dial (addr : string) : keeps_table (Dial addr).
Proof.
  unfold Dial. apply keeps_bind; [apply keeps_Dial_send |].
  intros [e|]; [apply keeps_ret |].
  apply keeps_bind; [apply keeps_Dial_recv |].
  intros [line [e|]]; [apply keeps_ret | apply keeps_Dial_lookup].
Qed.

(** ** The Gateway's goroutines, step by step *)

Lemma preserves_grows {A B} (R : B -> B -> Prop) (f : state -> B) (m : M A) :
  Reflexive R -> preserves f m -> grows R f m.
Proof. intros HR Hm s. rewrite (Hm s). apply HR. Qed.

Lemma grows_bind {A A' B} (R : B -> B -> Prop) (f : state -> B) (m : M A) (k : A -> M A') :
  Transitive R -> grows R f m -> (forall a, grows R f (k a)) -> grows R f (bind m k).
Proof.
  intros HR Hm Hk s. unfold bind. specialize (Hm s).
  destruct (m s) as [a s1]. simpl in Hm. exact (HR _ _ _ Hm (Hk a s1)).
Qed.

Lemma preserves_dial_step {B} (f : state -> B) (d : dial_pc) :
  io_frame f -> writer_frame f -> preserves f (dial_step d).
Proof.
  intros Hf Hw. destruct d as [addr|k|k j line|k j res]; simpl.
  - apply preserves_bind; [apply (preserves_read_global f) | intros k].
    apply preserves_bind; [now apply preserves_Dial_send |].
    intros [e|]; apply preserves_ret.
  - apply preserves_bind; [apply (preserves_read_global f) | intros j].
    apply preserves_bind; [now apply preserves_Dial_recv |].
    intros [line [e|]]; apply preserves_ret.
  - apply preserves_bind; [apply preserves_Dial_lookup | intros res; apply preserves_ret].
  - apply preserves_ret.
Qed.

(** What no step of a handler touches, no handler touches; what only the
    closes, the store of line 198 or the assignment of line 182 move, moves
    as they move it. *)
Lemma gw_step_grows {B} (R : B -> B -> Prop) (f : state -> B) (pc : gw_pc) :
  PreOrder R -> io_frame f -> writer_frame f ->
  (forall c, grows R f (closeConn c)) ->
  (forall id c, grows R f (defaultDialer_setProxyConn id c)) ->
  (forall c, pc = ProxyNew c -> grows R f (gw_step pc)) ->
  grows R f (gw_step pc).
Proof.
  intros HR Hf Hw Hc Hs Hnew.
  assert (Hret : forall A (a : A), grows R f (ret a))
    by (intros; apply preserves_grows; [apply HR | apply preserves_ret]).
  assert (Hbind : forall A A' (m : M A) (k : A -> M A'),
            grows R f m -> (forall a, grows R f (k a)) -> grows R f (bind m k))
    by (intros; apply grows_bind; [apply HR | assumption ..]).
  assert (Hkeep : forall A (m : M A), preserves f m -> grows R f m)
    by (intros; apply preserves_grows; [apply HR | assumption]).
  destruct pc as [c|c|c|c id|c|c|c d|c rconn|c rconn|c|]; simpl.
  - apply Hbind; [apply Hkeep, (preserves_read_global f) |]. intros [d|]; apply Hret.
  - now apply (Hnew c).
  - unfold bufio.NewReader. apply Hbind; [now apply Hkeep, preserves_ReadString |].
    intros [line [e|]]; [apply Hret |]. destruct (strconv.Atoi (chop line)); apply Hret.
  - apply Hbind; [apply Hs | intros; apply Hret].
  - apply Hbind; [now apply Hkeep, preserves_Write | intros; apply Hret].
  - apply Hbind; [apply Hkeep, (preserves_read_global f) |]. intros [d|]; [| apply Hret].
    apply Hbind; [apply Hkeep, (preserves_read_global f) | intros; apply Hret].
  - apply Hbind; [now apply Hkeep, preserves_dial_step |].
    intros [addr|k|k j line|k j [rconn|e]]; try apply Hret.
    apply Hbind; [now apply Hkeep, preserves_go | intros; apply Hret].
  - apply Hbind; [now apply Hkeep, preserves_copyWithError | intros; apply Hret].
  - apply Hbind; [apply Hc | intros; apply Hret].
  - apply Hbind; [apply Hc | intros; apply Hret].
  - apply Hret.
Qed.

Lemma table_io_frame : io_frame table.
Proof. intros s s' (_ & _ & Hd & _). unfold table. now rewrite Hd. Qed.

Lemma table_writer_frame : writer_frame table.
Proof. intros w s. apply keeps_put_writer. Qed.

Lemma keeps_keys_preorder : PreOrder keeps_keys.
Proof. split; unfold keeps_keys; [intros t | intros t1 t2 t3]; set_solver. Qed.

(** The store of line 198 inserts or overwrites. *)
Lemma setProxyConn_keeps_keys (id : Z) (c : conn) :
  grows keeps_keys table (defaultDialer_setProxyConn id c).
Proof.
  intros s. unfold defaultDialer_setProxyConn, modify, table, keeps_keys. simpl.
  destruct (defaultDialer s) as [d|] eqn:Hd; simpl; [| now rewrite Hd].
  rewrite dom_insert_L. set_solver.
Qed.

(** Every step but the assignment of line 182 keeps every entry of the
    table. *)
Lemma gw_step_table (pc : gw_pc) (s : state) :
  past_election pc -> keeps_keys (table s) (table (snd (gw_step pc s))).
Proof.
  intros Hpc. revert s. apply gw_step_grows.
  - apply keeps_keys_preorder.
  - apply table_io_frame.
  - apply table_writer_frame.
  - intros c s. apply keeps_keys_preorder.
  - apply setProxyConn_keeps_keys.
  - intros c ->. destruct Hpc.
Qed.

Lemma control_store_frame (id : Z) (c : conn) :
  preserves control_of (defaultDialer_setProxyConn id c).
Proof.
  intros s. unfold defaultDialer_setProxyConn, modify, control_of. simpl.
  destruct (defaultDialer s) as [d|] eqn:Hd; simpl; [reflexivity | now rewrite Hd].
Qed.

(** No step but the assignment of line 182 touches the dialer's connection
    and reader. *)
Lemma gw_step_control (pc : gw_pc) (s : state) :
  past_election pc -> control_of (snd (gw_step pc s)) = control_of s.
Proof.
  intros Hpc. symmetry. revert s. apply (gw_step_grows eq control_of).
  - split; [intros x; reflexivity | intros x y z; apply eq_trans].
  - apply control_io_frame.
  - apply control_writer_frame.
  - intros c s. reflexivity.
  - intros id c s. symmetry. apply control_store_frame.
  - intros c ->. destruct Hpc.
Qed.

(** With a dialer installed, the nil test of line 181 sends no handler to
    line 182. *)
Lemma gw_step_election (pc : gw_pc) (s : state) :
  defaultDialer s <> None -> past_election pc -> past_election (fst (gw_step pc s)).
Proof.
  intros Hd Hpc.
  destruct pc as [c|c|c|c id|c|c|c d|c rconn|c rconn|c|]; simpl; unfold bind, get_dialer, ret.
  - destruct (defaultDialer s); [exact I | contradiction].
  - destruct Hpc.
  - destruct (bufio.ReadString (bufio.NewReader c) s) as [[line [e|]] s1]; [exact I |].
    destruct (strconv.Atoi (chop line)); exact I.
  - destruct (defaultDialer_setProxyConn (int32 id) c s). exact I.
  - destruct (net.Write c ("ok" +:+ LF) s). exact I.
  - destruct (defaultDialer s); exact I.
  - destruct (dial_step d s) as [[addr|k|k j line|k j [rconn|e]] s1]; exact I.
  - destruct (copyWithError rconn c s). exact I.
  - destruct (closeConn rconn s). exact I.
  - destruct (closeConn c s). exact I.
  - exact I.
Qed.

Lemma control_of_dialer (s s' : state) :
  control_of s' = control_of s -> defaultDialer s <> None -> defaultDialer s' <> None.
Proof.
  unfold control_of. destruct (defaultDialer s), (defaultDialer s'); congruence.
Qed.

(** Once the dialer is installed and no handler is about to install
    another, every interleaving of the handlers keeps it so, keeps the
    control connection and keeps every entry of the table. *)
Lemma gw_run_settled (sched : list nat) :
  forall pool s, settled pool s ->
  settled (fst (gw_run sched pool s)) (snd (gw_run sched pool s)) /\
  control_of (snd (gw_run sched pool s)) = control_of s /\
  keeps_keys (table s) (table (snd (gw_run sched pool s))).
Proof.
  induction sched as [|t sched IH]; intros pool s [Hd Hpool]; simpl.
  - split; [now split |]. split; [reflexivity | apply keeps_keys_preorder].
  - destruct (pool !! t) as [pc|] eqn:Ht; [| now apply IH].
    assert (Hpc : past_election pc) by (rewrite Forall_lookup in Hpool; eauto).
    unfold bind.
    pose proof (gw_step_control pc s Hpc) as Hctl.
    pose proof (gw_step_table pc s Hpc) as Htbl.
    pose proof (gw_step_election pc s Hd Hpc) as Hel.
    destruct (gw_step pc s) as [pc1 s1]. simpl in Hctl, Htbl, Hel.
    destruct (IH (<[t := pc1]> pool) s1) as (Hset & Hc & Hk).
    { split; [now apply control_of_dialer with s |]. now apply Forall_insert. }
    split; [exact Hset |]. split; [congruence |].
    destruct keeps_keys_preorder as [_ Htrans]. exact (Htrans _ _ _ Htbl Hk).
Qed.

(** C9 (as the code has it): there is no release.  [Dial] leaves the table
    as it found it, whether it returns a connection or an error;
    [setProxyConn] inserts or overwrites; no step of a handler deletes an
    entry.  The table is lost only as a whole, when the assignment of line
    182 installs a new dialer; once a dialer is installed and no handler is
    between the nil test of line 181 and that assignment, every ID that is
    in the table stays in it under every interleaving of the handlers. *)
Theorem C9_table_entries_are_never_removed :
  (forall addr s, table (snd (Dial addr s)) = table s) /\
  (forall d id c, dom (conns d) ⊆ dom (conns (setProxyConn d id c))) /\
  (forall pc s, past_election pc ->
     dom (table s) ⊆ dom (table (snd (gw_step pc s)))) /\
  (forall c s, table (snd (gw_step (ProxyNew c) s)) = ∅) /\
  (forall sched pool s, settled pool s ->
     dom (table s) ⊆ dom (table (snd (gw_run sched pool s)))).
Proof.
  split; [exact keeps_Dial |].
  split; [intros d id c; simpl; rewrite dom_insert_L; set_solver |].
  split; [exact gw_step_table |].
  split; [reflexivity |].
  intros sched pool s Hset. apply (gw_run_settled sched pool s Hset).
Qed.

(** ** Concurrent dials (C8) *)

(** Three steps of one caller, run without interruption, are [Dial]. *)
Lemma Dial_in_steps (addr : string) (s : state) :
  exists req rsp,
    (let* pc1 := dial_step (DialStart addr) in
     let* pc2 := dial_step pc1 in
     dial_step pc2) s
    = (DialDone req rsp (fst (Dial addr s)), snd (Dial addr s)).
Proof.
  unfold Dial, bind, dial_step, requests_written, responses_read, bind, ret.
  destruct (Dial_send addr s) as [[e|] s1]; simpl.
  - now exists None, None.
  - destruct (Dial_recv s1) as [[line [e|]] s2]; simpl.
    + eexists _, None. reflexivity.
    + destruct (Dial_lookup line s2) as [res s3]. simpl. eexists _, _. reflexivity.
Qed.

Lemma filter_length_app {A} (f : A -> bool) (l1 l2 : list A) :
  length (List.filter f (l1 ++ l2)) =
  length (List.filter f l1) + length (List.filter f l2).
Proof. now rewrite List.filter_app, length_app. Qed.

(** A caller that runs alone, on a control connection with no response
    outstanding, reads the response to its own request. *)
Lemma dial_alone_reads_own_response (addr : string) (s s' : state)
    (req rsp : nat) (res : result conn) :
  fst (requests_written s) = fst (responses_read s) ->
  (let* pc1 := dial_step (DialStart addr) in
   let* pc2 := dial_step pc1 in
   dial_step pc2) s = (DialDone (Some req) (Some rsp) res, s') ->
  req = rsp.
Proof.
  intros Hbal. unfold bind at 1 2. simpl.
  unfold bind at 1, requests_written at 1. unfold bind at 1.
  destruct (Dial_send addr s) as [err s1] eqn:Hsend.
  destruct (defaultDialer s) as [[dc [w|] dr tbl]|] eqn:Hd.
  2,3: unfold Dial_send, bind, get_dialer in Hsend; rewrite Hd in Hsend;
       injection Hsend as <- <-; simpl; intros [=].
  destruct (Dial_send_effect addr s _ w Hd eq_refl err s1 Hsend)
    as (ctl & w1 & Hresp & -> & Ht1 & Hd1 & _ & _).
  destruct (w_err w) as [e|]; [simpl; intros [=] |].
  unfold ret at 1. simpl. unfold bind at 1, responses_read at 1. unfold bind at 1.
  destruct (Dial_recv s1) as [[line [e|]] s2]; [simpl; intros [=] |].
  unfold ret at 1. simpl. unfold bind.
  destruct (Dial_lookup line s2) as [res' s3]. intros [= <- <- _ _].
  unfold requests_written, responses_read in Hbal. cbn [fst] in Hbal.
  etrans; [exact Hbal |].
  unfold control_conn. rewrite Hd1, Hd, Ht1. simpl.
  rewrite filter_length_app.
  replace (length (List.filter _ ctl)) with 0; [lia |].
  destruct Hresp; reflexivity.
Qed.

(** C8 fails on the code: two callers of [Dial] whose phases interleave.
    Caller 0 writes its request first and caller 1 second; the Relay answers
    in that order (ID 1, then ID 2).  Caller 1 reads first: it takes the
    response to caller 0's request and receives data connection 11, and
    caller 0 is left with the response and the connection of caller 1. *)
Theorem C8_interleaved_dials_swap_responses :
  let run := run_schedule [0; 1; 1; 1; 0; 0]
               [DialStart "a.example:80"; DialStart "b.example:80"] gateway_paired in
  fst run = [DialDone (Some 0) (Some 1) (Ok 12); DialDone (Some 1) (Some 0) (Ok 11)] /\
  trace (snd run) =
    [EvWrite 0 (dial_request "a.example:80") true;
     EvWrite 0 (dial_request "b.example:80") true;
     EvRead 0 (id_line 1) None; EvRead 0 (id_line 2) None] /\
  fst (run_schedule [0; 0; 0; 1; 1; 1]
         [DialStart "a.example:80"; DialStart "b.example:80"] gateway_paired) =
    [DialDone (Some 0) (Some 0) (Ok 11); DialDone (Some 1) (Some 1) (Ok 12)].
Proof. vm_compute. repeat split. Qed.

(** ** The claims that fail as stated: counterexamples *)

(** C1, as stated, is false: [Dial] fails at once with "can't get conn"
    although the data connection for the ID it read registers right
    afterwards, well within any deadline; the blocking lookup of the
    specification would have returned that connection. *)
Lemma C1_counterexample_Dial_does_not_wait :
  fst (Dial "www.qq.com:80" gateway_early) = Err ErrCantGetConn /\
  table (snd (handleClientProxyConn 5 (snd (Dial "www.qq.com:80" gateway_early))))
    !! 1%Z = Some 5 /\
  await_spec (table gateway_early) 1 [(1, 1%Z, 5)] 10 = Resolved 5 /\
  ~ agrees (fst (Dial "www.qq.com:80" gateway_early))
           (await_spec (table gateway_early) 1 [(1, 1%Z, 5)] 10).
Proof. vm_compute. repeat split. intros []. Qed.

(** C9, as stated, is false: after [Dial] has returned the connection
    registered under ID 1, the entry is still in the table; the table is not
    the one a [release(1)] would have left. *)
Lemma C9_counterexample_entry_stays :
  fst (Dial "www.qq.com:80" gateway_paired) = Ok 11 /\
  table (snd (Dial "www.qq.com:80" gateway_paired)) !! 1%Z = Some 11 /\
  release_spec (table gateway_paired) 1 !! 1%Z = None /\
  table (snd (Dial "www.qq.com:80" gateway_paired)) <> release_spec (table gateway_paired) 1.
Proof.
  assert (H1 : table (snd (Dial "www.qq.com:80" gateway_paired)) !! 1%Z = Some 11)
    by (vm_compute; reflexivity).
  assert (H2 : release_spec (table gateway_paired) 1 !! 1%Z = None)
    by (vm_compute; reflexivity).
  split; [vm_compute; reflexivity |].
  split; [exact H1 |]. split; [exact H2 |].
  intros Heq. rewrite Heq in H1. congruence.
Qed.

(** ** Well-formed states along a run of the Relay *)

Lemma trace_below_mono (n m : conn) (tr : list event) :
  n <= m -> trace_below n tr -> trace_below m tr.
Proof.
  intros Hle H. unfold trace_below in *.
  eapply Forall_impl; [exact H |]. simpl. intros e He.
  eapply Forall_impl; [exact He |]. simpl. intros c Hc. lia.
Qed.

Lemma trace_below_app (n : conn) (tr evs : list event) :
  trace_below n tr -> trace_below n evs -> trace_below n (tr ++ evs).
Proof. unfold trace_below. intros. now apply Forall_app. Qed.

Lemma responded_below (w : Writer) (rsp : string) (ctl : list event) (w' : Writer)
    (n : conn) :
  responded w rsp ctl w' -> w_conn w < n -> trace_below n ctl /\ w_conn w' = w_conn w.
Proof.
  intros [] Hn; (split; [| reflexivity]); unfold trace_below;
    repeat (constructor; simpl); assumption.
Qed.

Ltac below := unfold trace_below; repeat (constructor; simpl); lia.

Lemma handleOneProxy_wf (r : conn) (w : Writer) (s : state) (w' : Writer) (s' : state) :
  wf_state s -> r < next_conn s -> w_conn w < next_conn s ->
  handleOneProxy r w s = (w', s') ->
  wf_state s' /\ next_conn s <= next_conn s' /\ w_conn w' = w_conn w.
Proof.
  intros [Hbelow Hclosed] Hr Hw Hrun. apply handleOneProxy_handled in Hrun.
  assert (Hgrow : forall evs, next_conn s <= next_conn s' ->
            trace s' = trace s ++ evs -> closed s' = closed s ->
            trace_below (next_conn s') evs -> wf_state s').
  { intros evs Hle Ht Hc Hevs. split.
    - rewrite Ht. apply trace_below_app; [| exact Hevs].
      now apply trace_below_mono with (next_conn s).
    - intros c. rewrite Hc. intros Hin%Hclosed. lia. }
  inversion Hrun as [part e s1 _ Ht Hc Hn _ | l s1 _ _ Ht Hc Hn _ | l s1 _ _ Ht Hc Hn _
                    | l pc s1 _ _ Hpc Ht Hc Hn _
                    | l pc rc id ok part e s1 _ _ Hpc Hrc _ Ht Hc Hn _
                    | l pc rc id ok ack ctl w1 s1 _ _ Hpc Hrc _ Hresp Ht Hc Hn _];
    subst.
  1-5: split; [| split; [lia | reflexivity]];
       (eapply Hgrow; [lia | exact Ht | exact Hc | rewrite Hn; below]).
  destruct (responded_below _ _ _ _ (next_conn s') Hresp) as [Hctl Hw']; [lia |].
  split; [| split; [lia | exact Hw']].
  eapply Hgrow; [lia | exact Ht | exact Hc |].
  apply trace_below_app; [rewrite Hn; below |].
  apply trace_below_app; [exact Hctl | rewrite Hn; below].
Qed.

Lemma relay_inv_init (paddr raddr : string) (script : gmap string (list (option string))) :
  relay_inv AtServeProxy (init_state paddr raddr script).
Proof.
  split; [| exact I]. split; simpl.
  - constructor.
  - intros c Hc. set_solver.
Qed.

Lemma relay_step_inv (pc : relay_pc) (s : state) (pc' : relay_pc) (s' : state) :
  relay_inv pc s -> relay_step pc s = (pc', s') -> relay_inv pc' s'.
Proof.
  intros [Hwf Hpc]. destruct pc as [|c w]; simpl; unfold bind, ret.
  - destruct (net.Dial (PAddr s) s) as [[c|] s1] eqn:Hd; intros [= <- <-];
      apply Dial_effect in Hd as (Ht & _ & _ & _ & _ & Hc & _ & Hn);
      destruct Hwf as [Hbelow Hclosed].
    + destruct Hn as [-> Hn]. split; [split |].
      * rewrite Ht, Hn. apply trace_below_app; [| below].
        apply trace_below_mono with (next_conn s); [lia | exact Hbelow].
      * intros c. rewrite Hc, Hn. intros Hin%Hclosed. lia.
      * simpl. lia.
    + split; [split | exact I].
      * rewrite Ht, Hn. apply trace_below_app; [exact Hbelow | below].
      * intros c. rewrite Hc, Hn. apply Hclosed.
  - destruct Hpc as [Hc Hw].
    destruct (handleOneProxy (bufio.NewReader c) w s) as [w1 s1] eqn:Hrun.
    intros [= <- <-].
    apply handleOneProxy_wf in Hrun as (Hwf1 & Hle & Hw1);
      [| exact Hwf | exact Hc | lia].
    split; [exact Hwf1 |]. split; [lia | congruence].
Qed.

Lemma relay_run_inv (n : nat) :
  forall pc s pc' s', relay_inv pc s -> relay_run n pc s = (pc', s') -> relay_inv pc' s'.
Proof.
  induction n as [|n IH]; intros pc s pc' s' Hinv; simpl.
  - now intros [= <- <-].
  - unfold bind. destruct (relay_step pc s) as [pc1 s1] eqn:Hstep.
    apply IH. now apply relay_step_inv with pc s.
Qed.

(** ** The theorems at concrete inputs *)

Lemma nothing_closed (c : conn) : c ∉ (∅ : gset nat).
Proof. apply not_elem_of_empty. Defined.

Lemma closed_below_empty (n : conn) : forall c, c ∈ (∅ : gset nat) -> c < n.
Proof. intros c Hc. destruct (not_elem_of_empty c Hc). Defined.

(** A request line that does not start with [dial:] is accepted. *)
Lemma C10_witness_unchecked_prefix :
  parse_request ("GET /" +:+ "x" +:+ LF) = Some ("x" +:+ LF).
Proof.
  exact (proj1 (proj2 (proj2 C10_request_valid_iff_longer_than_five)) "GET /" "x" eq_refl).
Defined.

(** The default target of the Gateway comes out with a line feed at its end. *)
Lemma C2_witness_default_target :
  no_LF "www.qq.com:80" = true /\
  parse_request (dial_request "www.qq.com:80") = Some ("www.qq.com:80" +:+ LF).
Proof.
  split; [reflexivity |].
  exact (proj1 (proj2 (C2_decoded_address_keeps_line_terminator "www.qq.com:80" eq_refl))).
Defined.

(** The target is unreachable: the data connection (handle 1) stays open. *)
Lemma C3_witness_unreachable_target :
  trace (snd (handleOneProxy 0 (bufio.NewWriter 0) relay_unreachable)) =
    [EvRead 0 (dial_request "www.qq.com:80") None;
     EvDial "127.0.0.1:7002" (Some 1);
     EvDial ("www.qq.com:80" +:+ LF) None] /\
  forall addr c,
    In (EvDial addr (Some c))
       [EvRead 0 (dial_request "www.qq.com:80") None;
        EvDial "127.0.0.1:7002" (Some 1);
        EvDial ("www.qq.com:80" +:+ LF) None] ->
    c ∉ closed (snd (handleOneProxy 0 (bufio.NewWriter 0) relay_unreachable)).
Proof.
  split; [vm_compute; reflexivity |].
  refine (proj2 (proj2 (C3_abandoned_request_closes_nothing
            0 (bufio.NewWriter 0) relay_unreachable
            (fst (handleOneProxy 0 (bufio.NewWriter 0) relay_unreachable))
            (snd (handleOneProxy 0 (bufio.NewWriter 0) relay_unreachable))
            _ (closed_below_empty 1) _ _ _ _ _))).
  - simpl. lia.
  - apply surjective_pairing.
  - vm_compute. reflexivity.
  - exists "127.0.0.1:7002", 1. simpl. right. left. reflexivity.
  - intros t H. simpl in H. intuition discriminate.
Defined.


(** Two requests served one after the other: the IDs 1 and 2. *)
Lemma C6_witness_two_ids :
  (ids_of (since relay_two_requests
       (snd (relay_run 2 (InHandleProxy 0 (bufio.NewWriter 0)) relay_two_requests))) = [1%Z; 2%Z] /\
   written_off 0 (since relay_two_requests
       (snd (relay_run 2 (InHandleProxy 0 (bufio.NewWriter 0)) relay_two_requests))) = ["1" +:+ LF; "2" +:+ LF]) /\
  (trace (snd (relay_run 2 (InHandleProxy 0 (bufio.NewWriter 0)) relay_two_requests)) =
     trace relay_two_requests ++ (since relay_two_requests
       (snd (relay_run 2 (InHandleProxy 0 (bufio.NewWriter 0)) relay_two_requests))) /\
   ids_of (since relay_two_requests
       (snd (relay_run 2 (InHandleProxy 0 (bufio.NewWriter 0)) relay_two_requests))) =
     count_up (proxyConnID relay_two_requests) (length (ids_of (since relay_two_requests
       (snd (relay_run 2 (InHandleProxy 0 (bufio.NewWriter 0)) relay_two_requests))))) /\
   proxyConnID (snd (relay_run 2 (InHandleProxy 0 (bufio.NewWriter 0)) relay_two_requests)) =
     (proxyConnID relay_two_requests + Z.of_nat (length (ids_of (since relay_two_requests
       (snd (relay_run 2 (InHandleProxy 0 (bufio.NewWriter 0)) relay_two_requests))))))%Z /\
   written_off 0 (since relay_two_requests
       (snd (relay_run 2 (InHandleProxy 0 (bufio.NewWriter 0)) relay_two_requests))) =
     map id_line (ids_of (since relay_two_requests
       (snd (relay_run 2 (InHandleProxy 0 (bufio.NewWriter 0)) relay_two_requests)))) /\
   StronglySorted Z.lt (ids_of (since relay_two_requests
       (snd (relay_run 2 (InHandleProxy 0 (bufio.NewWriter 0)) relay_two_requests)))) /\
   NoDup (ids_of (since relay_two_requests
       (snd (relay_run 2 (InHandleProxy 0 (bufio.NewWriter 0)) relay_two_requests)))) /\
   NoDup (written_off 0 (since relay_two_requests
       (snd (relay_run 2 (InHandleProxy 0 (bufio.NewWriter 0)) relay_two_requests)))) /\
   Forall (fun id => (0 <= proxyConnID relay_two_requests < id)%Z /\ (id <= maxInt32)%Z)
          (ids_of (since relay_two_requests
       (snd (relay_run 2 (InHandleProxy 0 (bufio.NewWriter 0)) relay_two_requests))))).
Proof.
  split; [split; vm_compute; reflexivity |].
  apply (C6_connection_ids_strictly_increase 2 0 (bufio.NewWriter 0) relay_two_requests
           (fst (relay_run 2 (InHandleProxy 0 (bufio.NewWriter 0)) relay_two_requests))
           (snd (relay_run 2 (InHandleProxy 0 (bufio.NewWriter 0)) relay_two_requests))).
  - simpl. lia.
  - unfold maxInt32. simpl. lia.
  - simpl. lia.
  - reflexivity.
  - apply surjective_pairing.
Defined.

(** Three iterations on a dead control connection: three failed reads. *)
Lemma C7_witness_three_polls :
  exists s' evs,
    relay_run 3 (InHandleProxy 0 (bufio.NewWriter 0)) relay_dead =
      (InHandleProxy 0 (bufio.NewWriter 0), s') /\
    trace s' = trace relay_dead ++ evs /\ length evs = 3 /\
    Forall (fun e => exists part, e = EvRead 0 part (Some EOF)) evs /\
    closed s' = closed relay_dead /\ (0 ∉ closed s') /\
    next_conn s' = next_conn relay_dead.
Proof.
  apply (C7_dead_control_link_is_polled_forever 3 0 (bufio.NewWriter 0) relay_dead).
  - apply nothing_closed.
  - reflexivity.
Defined.

(** Data connection 5 announces ID 1 to a Gateway that has its dialer. *)
Lemma C4_witness_registration :
  exists s1 s2 s3 ok,
    gw_step (ProxyTest 5) gateway_early = (ProxyRead 5, gateway_early) /\
    gw_step (ProxyRead 5) gateway_early = (ProxyStore 5 1, s1) /\
    trace s1 = trace gateway_early ++ [EvRead 5 ("1" +:+ LF) None] /\
    defaultDialer s1 =
      Some (mkDialer (Some 0) (Some (bufio.NewWriter 0)) (Some (bufio.NewReader 0)) ∅) /\
    gw_step (ProxyStore 5 1) s1 = (ProxyReply 5, s2) /\
    defaultDialer s2 =
      Some (setProxyConn
              (mkDialer (Some 0) (Some (bufio.NewWriter 0)) (Some (bufio.NewReader 0)) ∅)
              (int32 1) 5) /\
    table s2 !! int32 1 = Some 5 /\
    trace s2 = trace s1 /\
    gw_step (ProxyReply 5) s2 = (GwDone, s3) /\
    s3 = emit (EvWrite 5 ("ok" +:+ LF) ok) s2 /\
    handleClientProxyConn 5 gateway_early = (tt, s3) /\
    ((minInt32 <= 1 <= maxInt32)%Z -> int32 1 = 1%Z).
Proof.
  apply (C4_rendezvous_connection_classified 5 gateway_early "1" "" 1%Z).
  - apply nothing_closed.
  - vm_compute. reflexivity.
  - reflexivity.
  - reflexivity.
Defined.

(** Whatever a data connection and an application connection do to a
    Gateway whose table holds the IDs 1 and 2, both IDs stay. *)
Lemma C9_witness_interleaved_handlers :
  dom (table gateway_paired) ⊆
  dom (table (snd (gw_run [0; 1; 1; 0; 1; 0; 0; 1; 1; 1] [ProxyTest 5; ClientTest 7]
                     gateway_paired))).
Proof.
  apply (proj2 (proj2 (proj2 (proj2 C9_table_entries_are_never_removed)))
           [0; 1; 1; 0; 1; 0; 0; 1; 1; 1] [ProxyTest 5; ClientTest 7] gateway_paired).
  split; [discriminate | repeat constructor].
Defined.

(** [Dial] on a Gateway whose table holds ID 1 returns connection 11. *)
Lemma C1_witness_registered_id :
  exists s' ok,
    Dial "www.qq.com:80" gateway_paired =
      (match ({[ 1%Z := 11; 2%Z := 12 ]} : gmap Z nat) !! int32 1 with
       | Some c => Ok c
       | None => Err ErrCantGetConn
       end, s') /\
    trace s' = trace gateway_paired ++
               [EvWrite 0 ("" +:+ dial_request "www.qq.com:80") ok;
                EvRead 0 ("1" +:+ LF) None] /\
    table s' = {[ 1%Z := 11; 2%Z := 12 ]}.
Proof.
  destruct (C1_Dial_looks_the_connection_up_once "www.qq.com:80" gateway_paired
           (mkDialer (Some 0) (Some (bufio.NewWriter 0)) (Some (bufio.NewReader 0))
                     {[ 1%Z := 11; 2%Z := 12 ]})
           (bufio.NewWriter 0) 0 "1" (id_line 2) 1%Z)
    as (s' & ok & Hrun & Htrace & Htable).
  - reflexivity.
  - reflexivity.
  - reflexivity.
  - reflexivity.
  - apply nothing_closed.
  - vm_compute. reflexivity.
  - reflexivity.
  - reflexivity.
  - exists s', ok. split; [exact Hrun |]. split; [exact Htrace | exact Htable].
Defined.

(** ** Registration after the round trip *)

(** A data connection that announces the ID line the Relay wrote is
    registered under that very ID. *)
Lemma announced_id_is_registered (c : conn) (s : state) (d : Dialer) (id : Z)
    (rest : string) :
  defaultDialer s = Some d -> c ∉ closed s ->
  rx s !! c = Some (id_line id +:+ rest) ->
  (minInt32 <= id <= maxInt32)%Z ->
  table (snd (handleClientProxyConn c s)) = <[id := c]> (table s).
Proof.
  intros Hd Hc Hrx Hid.
  destruct (Atoi_id_line id Hid) as [Hatoi H32].
  unfold id_line in Hatoi. rewrite chop_line in Hatoi.
  rewrite (handleClientProxyConn_registers c s d (fmt.Sprintd id) rest id Hd Hc);
    [| now unfold id_line in Hrx; rewrite append_assoc in Hrx
     | apply no_LF_Sprintd | exact Hatoi].
  simpl. rewrite keeps_Write. unfold table. simpl. rewrite Hd, H32. reflexivity.
Qed.

(** The success path does close what it opened: [pipeRemote] closes both
    connections once the copy has returned. *)
Lemma pipeRemote_closes_both (rconn proxyConn : conn) (s : state) :
  closed (snd (pipeRemote rconn proxyConn s)) = {[rconn]} ∪ ({[proxyConn]} ∪ closed s).
Proof.
  unfold pipeRemote, bind, go, modify, copyWithError, closeConn, net.Close. simpl.
  destruct (decide (rconn ∈ closed s)); simpl; [reflexivity |].
  destruct (default "" (rx s !! rconn)); simpl; [reflexivity |].
  unfold net.Write. simpl.
  destruct (decide (proxyConn ∈ closed s ∨ proxyConn ∈ wfail s)); reflexivity.
Qed.

(** * Further properties of the code *)

(** ** [Dial], phase by phase *)

Lemma Write_ok (c : conn) (data : string) (s : state) (ok : bool) (s' : state) :
  net.Write c data s = (ok, s') ->
  (ok = true <-> ~ (c ∈ closed s \/ c ∈ wfail s)).
Proof.
  unfold net.Write. destruct (decide (c ∈ closed s ∨ c ∈ wfail s));
    intros [= <- <-]; split; auto; try discriminate; intros H; contradiction.
Qed.

(** The request phase on a writer without error: one write of the buffered
    bytes and the request; a failed write is kept in the writer and not
    reported. *)
Lemma Dial_send_healthy (addr : string) (s : state) (d : Dialer) (w : Writer) :
  defaultDialer s = Some d -> d_writer d = Some w -> w_err w = None ->
  exists ok w1 s1,
    Dial_send addr s = (None, s1) /\
    trace s1 = trace s ++ [EvWrite (w_conn w) (w_buf w +:+ dial_request addr) ok] /\
    defaultDialer s1 = Some (mkDialer (d_conn d) (Some w1) (d_reader d) (conns d)) /\
    rx s1 = rx s /\ closed s1 = closed s /\ wfail s1 = wfail s /\
    (ok = true <-> ~ (w_conn w ∈ closed s \/ w_conn w ∈ wfail s)) /\
    w1 = (if ok then mkWriter (w_conn w) "" None
          else mkWriter (w_conn w) (w_buf w +:+ dial_request addr) (Some ErrWrite)).
Proof.
  intros Hd Hw Hwe. destruct d as [dc dw dr tbl]. simpl in Hw. subst dw.
  assert (Hrun : forall ok s1,
            net.Write (w_conn w) (w_buf w +:+ dial_request addr)
              (set_defaultDialer
                 (Some (mkDialer dc
                          (Some (mkWriter (w_conn w) (w_buf w +:+ dial_request addr) None))
                          dr tbl)) s) = (ok, s1) ->
            Dial_send addr s =
              (None,
               set_defaultDialer
                 (Some (mkDialer dc
                          (Some (if ok then mkWriter (w_conn w) "" None
                                 else mkWriter (w_conn w) (w_buf w +:+ dial_request addr)
                                                (Some ErrWrite)))
                          dr tbl)) s1)).
  { intros ok s1 HW.
    unfold Dial_send, bind, get_dialer. rewrite Hd.
    unfold bufio.WriteString. rewrite Hwe.
    unfold put_writer at 1, modify at 1. rewrite Hd.
    unfold bufio.Flush. simpl w_err. simpl w_buf. cbv iota.
    destruct (w_buf w +:+ dial_request addr) as [|ch buf] eqn:Hbuf.
    { destruct (w_buf w); discriminate. }
    unfold bind. simpl. simpl in HW. rewrite HW.
    pose proof (Write_effect _ _ _ _ _ HW) as ->.
    destruct ok; reflexivity. }
  destruct (net.Write (w_conn w) (w_buf w +:+ dial_request addr)
              (set_defaultDialer
                 (Some (mkDialer dc
                          (Some (mkWriter (w_conn w) (w_buf w +:+ dial_request addr) None))
                          dr tbl)) s)) as [ok s1] eqn:HW.
  pose proof (Write_ok _ _ _ _ _ HW) as Hok.
  pose proof (Write_effect _ _ _ _ _ HW) as Hs1.
  eexists ok, _, _. split; [exact (Hrun ok s1 eq_refl) |].
  subst s1. simpl. repeat split; try apply Hok; auto.
Qed.

(** A call of [Dial] that finds a writer without error and a terminated
    line on the control connection: the outcome is decided by that line
    alone. *)
Lemma Dial_reads_response (addr : string) (s : state) (d : Dialer) (w : Writer)
    (r : conn) (body rest : string) :
  defaultDialer s = Some d -> d_writer d = Some w -> w_err w = None ->
  d_reader d = Some r -> r ∉ closed s ->
  rx s !! r = Some (body +:+ LF +:+ rest) -> no_LF body = true ->
  exists ok w1 s',
    Dial addr s =
      (match strconv.Atoi body with
       | Err e => Err e
       | Ok id =>
           match conns d !! int32 id with
           | Some c => Ok c
           | None => Err ErrCantGetConn
           end
       end, s') /\
    trace s' = trace s ++ [EvWrite (w_conn w) (w_buf w +:+ dial_request addr) ok;
                           EvRead r (body +:+ LF) None] /\
    defaultDialer s' = Some (mkDialer (d_conn d) (Some w1) (Some r) (conns d)) /\
    rx s' = <[r := rest]> (rx s) /\ closed s' = closed s /\ wfail s' = wfail s /\
    (ok = true <-> ~ (w_conn w ∈ closed s \/ w_conn w ∈ wfail s)) /\
    w1 = (if ok then mkWriter (w_conn w) "" None
          else mkWriter (w_conn w) (w_buf w +:+ dial_request addr) (Some ErrWrite)).
Proof.
  intros Hd Hw Hwe Hr Hc Hrx Hno.
  destruct (Dial_send_healthy addr s d w Hd Hw Hwe)
    as (ok & w1 & s1 & Hsend & Ht1 & Hd1 & Hrx1 & Hc1 & Hf1 & Hok & Hw1).
  unfold Dial, bind at 1. rewrite Hsend.
  unfold bind at 1, Dial_recv, bind at 1, get_dialer. rewrite Hd1, Hr.
  rewrite (ReadString_line r s1 (body +:+ LF +:+ rest) (body +:+ LF) rest);
    [| now rewrite Hc1 | now rewrite Hrx1 | now apply split_line_append].
  set (s2 := emit _ _).
  assert (Hd2 : defaultDialer s2 = Some (mkDialer (d_conn d) (Some w1) (Some r) (conns d)))
    by (subst s2; simpl; now rewrite Hd1, Hr).
  exists ok, w1, s2. split.
  - unfold Dial_lookup. rewrite chop_line.
    destruct (strconv.Atoi body) as [id|e]; [| reflexivity].
    unfold bind, get_dialer. rewrite Hd2. simpl.
    destruct (conns d !! int32 id); reflexivity.
  - subst s2. simpl. rewrite Ht1, Hrx1, Hc1, Hf1, <- app_assoc.
    repeat split; try assumption; apply Hok.
Qed.

(** ** The ID line, printed and parsed *)

(** X1: the line the Relay prints for a connection ID (line 129) is read
    back as one line, whatever follows it, and parsing it without its
    terminator (lines 193 and 236) gives the ID that was printed, for every
    value an int32 can take, negative ones included. *)
Theorem X1_id_line_round_trip (id : Z) (rest : string) :
  (minInt32 <= id <= maxInt32)%Z ->
  split_line (id_line id +:+ rest) = (id_line id, Some rest) /\
  strconv.Atoi (chop (id_line id)) = Ok id /\
  int32 id = id.
Proof.
  intros H. split.
  - unfold id_line. rewrite append_assoc.
    apply split_line_append, no_LF_Sprintd.
  - now apply Atoi_id_line.
Qed.

(** ** Registration of data connections *)

Lemma int64_of_int32 (n : Z) :
  (minInt32 <= n <= maxInt32)%Z -> (strconv.minInt <= n <= strconv.maxInt)%Z.
Proof. unfold minInt32, maxInt32, strconv.minInt, strconv.maxInt. lia. Qed.

(** X2: a rendezvous connection that announces a decimal number [n] is
    stored under [int32(n)], replacing whatever was stored under that key;
    every other entry stays, no connection is closed (a replaced one
    neither), and the handler's last action is the [ok] line on the new
    connection. *)
Theorem X2_announced_connection_replaces_entry
    (c : conn) (s : state) (d : Dialer) (n : Z) (rest : string) :
  defaultDialer s = Some d -> c ∉ closed s ->
  rx s !! c = Some (id_line n +:+ rest) ->
  (strconv.minInt <= n <= strconv.maxInt)%Z ->
  table (snd (handleClientProxyConn c s)) = <[int32 n := c]> (table s) /\
  (forall k, k <> int32 n ->
     table (snd (handleClientProxyConn c s)) !! k = table s !! k) /\
  closed (snd (handleClientProxyConn c s)) = closed s /\
  exists ok, trace (snd (handleClientProxyConn c s)) =
             trace s ++ [EvRead c (id_line n) None; EvWrite c ("ok" +:+ LF) ok].
Proof.
  intros Hd Hc Hrx Hn.
  rewrite (handleClientProxyConn_registers c s d (fmt.Sprintd n) rest n Hd Hc);
    [| now unfold id_line in Hrx; rewrite append_assoc in Hrx
     | apply no_LF_Sprintd | now apply Atoi_Sprintd].
  cbv zeta. set (s1 := set_defaultDialer _ _).
  destruct (net.Write c ("ok" +:+ LF) s1) as [ok s2] eqn:Hw.
  apply Write_effect in Hw. subst s2. simpl.
  assert (Ht : table (emit (EvWrite c ("ok" +:+ LF) ok) s1) = <[int32 n := c]> (table s)).
  { unfold table. subst s1. simpl. now rewrite Hd. }
  rewrite Ht. split; [reflexivity |].
  split; [intros k Hk; now apply lookup_insert_ne |].
  split; [reflexivity |].
  exists ok. subst s1. simpl. rewrite <- app_assoc. reflexivity.
Qed.

(** X3: when the announcement does not arrive as a line, or is not a
    decimal number that fits an int, the handler does one read and returns:
    the dialer and its table are unchanged, nothing is written, and the
    connection is not closed. *)
Theorem X3_bad_announcement_is_dropped (c : conn) (s : state) (d : Dialer) :
  defaultDialer s = Some d ->
  (forall line, fst (bufio.ReadString c s) = (line, None) ->
                exists e, strconv.Atoi (chop line) = Err e) ->
  exists data err,
    trace (snd (handleClientProxyConn c s)) = trace s ++ [EvRead c data err] /\
    defaultDialer (snd (handleClientProxyConn c s)) = Some d /\
    closed (snd (handleClientProxyConn c s)) = closed s.
Proof.
  intros Hd Hbad. unfold handleClientProxyConn, bind, get_dialer. rewrite Hd.
  unfold bufio.NewReader.
  destruct (bufio.ReadString c s) as [[line err] s1] eqn:Hread.
  pose proof (ReadString_effect c s line err s1 Hread)
    as (Ht & _ & _ & Hd1 & _ & Hc1 & _).
  exists line, err. destruct err as [e|]; simpl.
  - repeat split; congruence.
  - destruct (Hbad line eq_refl) as [e ->]. simpl. repeat split; congruence.
Qed.

(** X4: registration and lookup compose.  After a data connection has
    announced the number [n], a call of [Dial] whose response line carries a
    number [m] with the same 32-bit value returns that very connection; both
    numbers are cut to int32 before they reach the table. *)
Theorem X4_registered_connection_is_dialled
    (addr : string) (c r : conn) (s : state) (d : Dialer) (w : Writer)
    (n m : Z) (rest_c rest_r : string) :
  defaultDialer s = Some d -> d_writer d = Some w -> w_err w = None ->
  d_reader d = Some r -> r <> c -> r ∉ closed s -> c ∉ closed s ->
  rx s !! c = Some (id_line n +:+ rest_c) ->
  rx s !! r = Some (id_line m +:+ rest_r) ->
  (strconv.minInt <= n <= strconv.maxInt)%Z ->
  (strconv.minInt <= m <= strconv.maxInt)%Z ->
  int32 n = int32 m ->
  fst (Dial addr (snd (handleClientProxyConn c s))) = Ok c.
Proof.
  intros Hd Hw Hwe Hr Hne Hrc Hcc Hrxc Hrxr Hn Hm Heq.
  rewrite (handleClientProxyConn_registers c s d (fmt.Sprintd n) rest_c n Hd Hcc);
    [| now unfold id_line in Hrxc; rewrite append_assoc in Hrxc
     | apply no_LF_Sprintd | now apply Atoi_Sprintd].
  cbv zeta. set (s1 := set_defaultDialer _ _).
  destruct (net.Write c ("ok" +:+ LF) s1) as [ok s2] eqn:Hwr.
  apply Write_effect in Hwr. subst s2. simpl snd.
  set (s2 := emit _ s1).
  destruct (Dial_reads_response addr s2 (setProxyConn d (int32 n) c) w r
              (fmt.Sprintd m) rest_r)
    as (ok' & w1 & s3 & Hrun & _); try reflexivity; try assumption.
  - subst s2 s1. simpl. rewrite lookup_insert_ne by congruence.
    unfold id_line in Hrxr. now rewrite append_assoc in Hrxr.
  - apply no_LF_Sprintd.
  - rewrite Hrun. simpl. rewrite (Atoi_Sprintd m Hm), <- Heq.
    now rewrite lookup_insert_eq.
Qed.

(** ** The ways [Dial] fails *)

(** X5: when the control connection ends before a whole response line has
    come, [Dial] returns the read error [io.EOF]: it has written its request
    and done one read, and it does not look at the table. *)
Theorem X5_Dial_on_ended_control_link
    (addr : string) (s : state) (d : Dialer) (w : Writer) (r : conn) :
  defaultDialer s = Some d -> d_writer d = Some w -> w_err w = None ->
  d_reader d = Some r -> r ∉ closed s ->
  no_LF (default "" (rx s !! r)) = true ->
  exists ok s',
    Dial addr s = (Err EOF, s') /\
    trace s' = trace s ++ [EvWrite (w_conn w) (w_buf w +:+ dial_request addr) ok;
                           EvRead r (default "" (rx s !! r)) (Some EOF)] /\
    table s' = table s.
Proof.
  intros Hd Hw Hwe Hr Hc Hno.
  destruct (Dial_send_healthy addr s d w Hd Hw Hwe)
    as (ok & w1 & s1 & Hsend & Ht1 & Hd1 & Hrx1 & Hc1 & _).
  unfold Dial, bind at 1. rewrite Hsend.
  unfold bind at 1, Dial_recv, bind at 1, get_dialer. rewrite Hd1, Hr.
  unfold bufio.ReadString. destruct (decide (r ∈ closed s1)) as [Hin|_].
  { rewrite Hc1 in Hin. contradiction. }
  rewrite Hrx1, (split_line_no_LF _ Hno). simpl.
  eexists ok, _. split; [reflexivity |]. simpl. split.
  - rewrite Ht1, <- app_assoc. reflexivity.
  - unfold table. simpl. now rewrite Hd1, Hd.
Qed.

(** X6: a response line that is not a decimal number (or does not fit an
    int) makes [Dial] return the error of [Atoi]; whatever the table holds,
    no connection is returned. *)
Theorem X6_Dial_on_unparsable_response
    (addr : string) (s : state) (d : Dialer) (w : Writer) (r : conn)
    (body rest : string) (e : error) :
  defaultDialer s = Some d -> d_writer d = Some w -> w_err w = None ->
  d_reader d = Some r -> r ∉ closed s ->
  rx s !! r = Some (body +:+ LF +:+ rest) -> no_LF body = true ->
  strconv.Atoi body = Err e ->
  fst (Dial addr s) = Err e /\
  rx (snd (Dial addr s)) !! r = Some rest /\
  table (snd (Dial addr s)) = table s.
Proof.
  intros Hd Hw Hwe Hr Hc Hrx Hno He.
  destruct (Dial_reads_response addr s d w r body rest Hd Hw Hwe Hr Hc Hrx Hno)
    as (ok & w1 & s' & Hrun & _ & Hd' & Hrx' & _).
  rewrite Hrun, He. simpl. split; [reflexivity |]. split.
  - rewrite Hrx'. apply lookup_insert_eq.
  - unfold table. now rewrite Hd', Hd.
Qed.

Lemma Dial_failed_writer (addr : string) (s : state) (d : Dialer) (w : Writer)
    (e : error) :
  defaultDialer s = Some d -> d_writer d = Some w -> w_err w = Some e ->
  Dial addr s = (Err e, s).
Proof.
  intros Hd Hw Hwe. destruct d as [dc dw dr tbl]. simpl in Hw. subst dw.
  unfold Dial, bind at 1, Dial_send, bind, get_dialer. rewrite Hd.
  unfold bufio.WriteString. rewrite Hwe.
  unfold put_writer, modify. rewrite Hd. simpl.
  destruct s as [pa ra dd pid rxs cl wf nx ds tr]. simpl in *. subst dd.
  reflexivity.
Qed.

(** X7: on a writer that already carries an error, [Dial] returns that
    error at once: nothing is written, nothing is read, no state changes. *)
Theorem X7_Dial_on_failed_writer
    (addr : string) (s : state) (d : Dialer) (w : Writer) (e : error) :
  defaultDialer s = Some d -> d_writer d = Some w -> w_err w = Some e ->
  Dial addr s = (Err e, s).
Proof. apply Dial_failed_writer. Qed.

(** After a request whose write failed, [Dial] has still read, and the
    dialer's writer carries the error. *)
Lemma Dial_after_failed_flush (addr : string) (s : state) (d : Dialer) (w : Writer)
    (r : conn) :
  defaultDialer s = Some d -> d_writer d = Some w -> w_err w = None ->
  d_reader d = Some r ->
  w_conn w ∈ closed s \/ w_conn w ∈ wfail s ->
  exists data err res s3,
    Dial addr s = (res, s3) /\
    trace s3 = trace s ++ [EvWrite (w_conn w) (w_buf w +:+ dial_request addr) false;
                           EvRead r data err] /\
    defaultDialer s3 =
      Some (mkDialer (d_conn d)
              (Some (mkWriter (w_conn w) (w_buf w +:+ dial_request addr) (Some ErrWrite)))
              (Some r) (conns d)).
Proof.
  intros Hd Hw Hwe Hr Hbad.
  destruct (Dial_send_healthy addr s d w Hd Hw Hwe)
    as (ok & w1 & s1 & Hsend & Ht1 & Hd1 & _ & _ & _ & Hok & Hw1).
  assert (ok = false) as ->.
  { destruct ok; [| reflexivity]. destruct (proj1 Hok eq_refl). exact Hbad. }
  subst w1. rewrite Hr in Hd1.
  unfold Dial, bind at 1. rewrite Hsend.
  unfold bind at 1, Dial_recv, bind at 1, get_dialer. rewrite Hd1.
  destruct (bufio.ReadString r s1) as [[line err] s2] eqn:Hread.
  pose proof (ReadString_effect r s1 line err s2 Hread) as (Ht2 & _ & _ & Hd2 & _).
  assert (Hkeep : forall res s3, (match err with
                                  | Some e0 => ret (Err e0)
                                  | None => Dial_lookup line
                                  end) s2 = (res, s3) -> s3 = s2).
  { intros res s3. destruct err; [now intros [= <- <-] |].
    unfold Dial_lookup. destruct (strconv.Atoi (chop line)); [| now intros [= <- <-]].
    unfold bind, get_dialer. destruct (defaultDialer s2) as [d2|]; [| now intros [= <- <-]].
    destruct (conns d2 !! int32 a); now intros [= <- <-]. }
  destruct ((match err with
             | Some e0 => ret (Err e0)
             | None => Dial_lookup line
             end) s2) as [res s3] eqn:Hres.
  rewrite (Hkeep res s3 eq_refl).
  exists line, err, res, s2. split; [reflexivity |]. split.
  - rewrite Ht2, Ht1, <- app_assoc. reflexivity.
  - now rewrite Hd2, Hd1.
Qed.

(** X8: the error of [Flush] is not checked (line 230).  When the write of
    the request fails, [Dial] still goes on to read a response; the failure
    stays in the writer, and the next call of [Dial] returns it at once,
    without touching the network. *)
Theorem X8_failed_flush_fails_the_next_Dial
    (a1 a2 : string) (s : state) (d : Dialer) (w : Writer) (r : conn) :
  defaultDialer s = Some d -> d_writer d = Some w -> w_err w = None ->
  d_reader d = Some r ->
  w_conn w ∈ closed s \/ w_conn w ∈ wfail s ->
  exists data err,
    trace (snd (Dial a1 s)) =
      trace s ++ [EvWrite (w_conn w) (w_buf w +:+ dial_request a1) false;
                  EvRead r data err] /\
    Dial a2 (snd (Dial a1 s)) = (Err ErrWrite, snd (Dial a1 s)).
Proof.
  intros Hd Hw Hwe Hr Hbad.
  destruct (Dial_after_failed_flush a1 s d w r Hd Hw Hwe Hr Hbad)
    as (data & err & res & s3 & Hrun & Ht & Hd3).
  rewrite Hrun. simpl. exists data, err. split; [exact Ht |].
  eapply Dial_failed_writer; [exact Hd3 | reflexivity | reflexivity].
Qed.

(** X9: calls of [Dial] that do not overlap take the response lines in the
    order in which they arrived, one line per call: on a healthy control
    connection with two lines pending, the first call is decided by the
    first line, the second call by the second, and what follows the two
    lines is left unread. *)
Theorem X9_serial_dials_take_responses_in_order
    (a1 a2 : string) (s : state) (d : Dialer) (w : Writer) (r : conn)
    (b1 b2 rest : string) :
  defaultDialer s = Some d -> d_writer d = Some w -> w_err w = None ->
  d_reader d = Some r -> r ∉ closed s ->
  ~ (w_conn w ∈ closed s \/ w_conn w ∈ wfail s) ->
  rx s !! r = Some (b1 +:+ LF +:+ b2 +:+ LF +:+ rest) ->
  no_LF b1 = true -> no_LF b2 = true ->
  fst (Dial a1 s) = lookup_outcome (conns d) b1 /\
  fst (Dial a2 (snd (Dial a1 s))) = lookup_outcome (conns d) b2 /\
  rx (snd (Dial a2 (snd (Dial a1 s)))) !! r = Some rest.
Proof.
  intros Hd Hw Hwe Hr Hc Hgood Hrx Hn1 Hn2.
  destruct (Dial_reads_response a1 s d w r b1 (b2 +:+ LF +:+ rest)
              Hd Hw Hwe Hr Hc Hrx Hn1)
    as (ok & w1 & s1 & Hrun1 & _ & Hd1 & Hrx1 & Hc1 & Hf1 & Hok & Hw1).
  assert (ok = true) as -> by now apply Hok.
  subst w1. rewrite Hrun1. simpl fst. simpl snd.
  destruct (Dial_reads_response a2 s1 _ (mkWriter (w_conn w) "" None) r b2 rest Hd1)
    as (ok2 & w2 & s2 & Hrun2 & _ & _ & Hrx2 & _); try reflexivity.
  - now rewrite Hc1.
  - rewrite Hrx1. apply lookup_insert_eq.
  - exact Hn2.
  - rewrite Hrun2. simpl. split; [reflexivity |]. split; [reflexivity |].
    rewrite Hrx2. apply lookup_insert_eq.
Qed.

(** ** The Gateway's handlers *)

(** X10: the control connection is replaced only through the unlocked
    test-and-set of lines 181-183.  Once a dialer is installed and no
    rendezvous handler is between its nil test and its assignment, no
    interleaving of the handlers, on either port, changes the dialer's
    connection and reader: [setConn] is not called again.  A rendezvous
    handler that tests and assigns with no other handler in between installs
    its connection for good.  But the window is open: of two rendezvous
    handlers that both test before either assigns, each installs a dialer of
    its own, the later assignment wins, and the connection installed first
    is then neither the control connection nor closed. *)
Theorem X10_control_connection_replaced_only_by_race :
  (forall sched pool s, settled pool s ->
     control_of (snd (gw_run sched pool s)) = control_of s /\
     settled (fst (gw_run sched pool s)) (snd (gw_run sched pool s))) /\
  (forall c rest sched s, defaultDialer s = None -> Forall past_election rest ->
     control_of (snd (gw_run (0 :: 0 :: sched) (ProxyTest c :: rest) s))
       = Some (Some c, Some c)) /\
  (forall c1 c2 s, defaultDialer s = None ->
     fst (gw_run [0; 1; 0; 1] [ProxyTest c1; ProxyTest c2] s) = [GwDone; GwDone] /\
     control_of (snd (gw_run [0; 1; 0; 1] [ProxyTest c1; ProxyTest c2] s))
       = Some (Some c2, Some c2) /\
     closed (snd (gw_run [0; 1; 0; 1] [ProxyTest c1; ProxyTest c2] s)) = closed s /\
     trace (snd (gw_run [0; 1; 0; 1] [ProxyTest c1; ProxyTest c2] s)) = trace s).
Proof.
  split; [| split].
  - intros sched pool s Hset.
    destruct (gw_run_settled sched pool s Hset) as (Hs & Hc & _). now split.
  - intros c rest sched s Hnil Hrest.
    cbn [gw_run lookup list_lookup insert list_insert gw_step].
    unfold bind at 1, bind at 1, get_dialer. rewrite Hnil. unfold ret at 1.
    cbn [lookup list_lookup insert list_insert gw_step].
    unfold bind at 1, bind at 1, bind at 1, NewDialer, setConn. simpl d_conn. cbv iota.
    unfold bind at 1, ret at 1 2. unfold modify at 1. unfold ret at 1.
    cbn [insert list_insert].
    match goal with
    | |- control_of (snd (gw_run sched ?pool ?s1)) = _ =>
        destruct (gw_run_settled sched pool s1) as (_ & Hc & _)
    end.
    { split; [discriminate |]. constructor; [exact I | exact Hrest]. }
    rewrite Hc. reflexivity.
  - intros c1 c2 s Hnil.
    cbn [gw_run lookup list_lookup insert list_insert gw_step].
    unfold bind, get_dialer, ret, NewDialer, setConn, modify. rewrite Hnil.
    cbn. rewrite Hnil. cbn. repeat split.
Qed.







(** ** The Relay's loop *)

Lemma relay_step_closed (pc : relay_pc) (s : state) :
  closed (snd (relay_step pc s)) = closed s.
Proof.
  destruct pc as [|c w]; simpl; unfold bind, ret.
  - destruct (net.Dial (PAddr s) s) as [[c|] s1] eqn:Hd;
      apply Dial_effect in Hd as (_ & _ & _ & _ & _ & Hc & _); exact Hc.
  - destruct (handleOneProxy (bufio.NewReader c) w s) as [w1 s1] eqn:Hrun.
    apply handleOneProxy_handled in Hrun. simpl. inversion Hrun; assumption.
Qed.

Lemma relay_step_no_close (pc : relay_pc) (s : state) :
  exists evs, trace (snd (relay_step pc s)) = trace s ++ evs /\
              forall c, ~ In (EvClose c) evs.
Proof.
  destruct pc as [|c0 w]; simpl; unfold bind, ret.
  - destruct (net.Dial (PAddr s) s) as [[c1|] s2] eqn:Hd;
      apply Dial_effect in Hd as (Ht1 & _); eexists; (split; [exact Ht1 |]);
      intros c [H | []]; discriminate.
  - destruct (handleOneProxy (bufio.NewReader c0) w s) as [w1 s2] eqn:Hrun.
    apply handleOneProxy_handled in Hrun. simpl.
    inversion Hrun; subst; eexists; (split; [eassumption |]);
      intros c Hin; in_events.
    match goal with
    | H : responded _ _ _ _ |- _ =>
        apply (responded_on_writer _ _ _ _ H) in Hin as [? ?]; discriminate
    end.
Qed.

Lemma relay_run_no_close (n : nat) :
  forall pc s,
  exists evs, trace (snd (relay_run n pc s)) = trace s ++ evs /\
              forall c, ~ In (EvClose c) evs.
Proof.
  induction n as [|n IH]; intros pc s; simpl.
  - exists []. rewrite app_nil_r. split; [reflexivity | intros c []].
  - unfold bind. destruct (relay_step_no_close pc s) as (e1 & Ht1 & Hn1).
    destruct (relay_step pc s) as [pc1 s1]. simpl in Ht1.
    destruct (IH pc1 s1) as (e2 & Ht2 & Hn2).
    exists (e1 ++ e2). rewrite Ht2, Ht1, app_assoc. split; [reflexivity |].
    intros c Hin. apply in_app_or in Hin as [Hin | Hin]; [now apply (Hn1 c) | now apply (Hn2 c)].
Qed.

(** X12: the Relay's own loop never closes a connection.  Whatever
    [serveProxy], [handleProxy] and [handleOneProxy] do in any number of
    iterations, the set of closed connections is the one they started with
    and no close happens on the way: closing is left to the [pipeRemote]
    goroutines of served requests. *)
Theorem X12_relay_loop_closes_nothing (n : nat) (pc : relay_pc) (s : state) :
  closed (snd (relay_run n pc s)) = closed s /\
  exists evs, trace (snd (relay_run n pc s)) = trace s ++ evs /\
              forall c, ~ In (EvClose c) evs.
Proof.
  split; [| apply relay_run_no_close].
  revert pc s. induction n as [|n IH]; intros pc s; simpl; [reflexivity |].
  unfold bind. pose proof (relay_step_closed pc s) as Hc.
  destruct (relay_step pc s) as [pc1 s1]. simpl in Hc. now rewrite IH.
Qed.

Lemma handleOneProxy_writes (r : conn) (w : Writer) (s : state) (w' : Writer) (s' : state) :
  writer_clean w -> handleOneProxy r w s = (w', s') ->
  writer_clean w' /\
  exists evs, trace s' = trace s ++ evs /\
    forall x data ok, In (EvWrite x data ok) evs ->
      exists id, data = id_line id /\ In (EvAdd id) evs.
Proof.
  intros Hclean Hrun. apply handleOneProxy_handled in Hrun.
  inversion Hrun as [part e s1 _ Ht | l s1 _ _ Ht | l s1 _ _ Ht | l pc s1 _ _ Hpc Ht
                    | l pc rc id ok part e s1 _ _ Hpc Hrc Hid Ht
                    | l pc rc id ok ack ctl w1 s1 _ _ Hpc Hrc Hid Hresp Ht];
    subst.
  1-4: split; [exact Hclean |]; eexists; (split; [exact Ht |]);
       intros x data ok0 Hin; in_events.
  - split; [exact Hclean |]. eexists. split; [exact Ht |].
    intros x data ok0 Hin. in_events. injection Hin as <- <- <-.
    eexists. split; [reflexivity |]. simpl. auto.
  - split.
    + destruct Hresp; [exact Hclean | intros _; reflexivity | discriminate].
    + eexists. split; [exact Ht |].
      intros x data ok0 Hin. in_events.
      * injection Hin as <- <- <-. eexists. split; [reflexivity |]. simpl. auto.
      * exists (int32 (proxyConnID s + 1)). split; [| simpl; auto].
        destruct Hresp as [e He | He | He]; simpl in Hin; try contradiction;
          destruct Hin as [Hin | []]; injection Hin as <- <- <-;
          rewrite (Hclean He); reflexivity.
Qed.

Lemma relay_step_writes (pc : relay_pc) (s : state) :
  pc_clean pc ->
  pc_clean (fst (relay_step pc s)) /\
  exists evs, trace (snd (relay_step pc s)) = trace s ++ evs /\
    forall x data ok, In (EvWrite x data ok) evs ->
      exists id, data = id_line id /\ In (EvAdd id) evs.
Proof.
  intros Hclean. destruct pc as [|c w]; simpl; unfold bind, ret.
  - destruct (net.Dial (PAddr s) s) as [[c|] s1] eqn:Hd;
      apply Dial_effect in Hd as (Ht & _); simpl;
      (split; [first [exact I | intros _; reflexivity] |]);
      eexists; (split; [exact Ht |]); intros x data ok Hin; in_events.
  - destruct (handleOneProxy (bufio.NewReader c) w s) as [w1 s1] eqn:Hrun.
    simpl. now apply handleOneProxy_writes with (bufio.NewReader c) w.
Qed.

(** X14: the Relay writes nothing but ID lines.  Started with an empty
    writer, in any number of iterations of its loop every write it performs,
    on the control connection and on data connections alike, is exactly
    the line of a connection ID it has taken from the counter in that run. *)
Theorem X14_relay_writes_only_id_lines (n : nat) (pc : relay_pc) (s : state) :
  pc_clean pc ->
  pc_clean (fst (relay_run n pc s)) /\
  exists evs, trace (snd (relay_run n pc s)) = trace s ++ evs /\
    forall x data ok, In (EvWrite x data ok) evs ->
      exists id, data = id_line id /\ In (EvAdd id) evs.
Proof.
  revert pc s. induction n as [|n IH]; intros pc s Hclean; simpl.
  - split; [exact Hclean |]. exists []. rewrite app_nil_r.
    split; [reflexivity | intros x data ok []].
  - unfold bind. destruct (relay_step_writes pc s Hclean) as (Hc1 & e1 & Ht1 & Hw1).
    destruct (relay_step pc s) as [pc1 s1]. simpl in Hc1, Ht1.
    destruct (IH pc1 s1 Hc1) as (Hc2 & e2 & Ht2 & Hw2).
    split; [exact Hc2 |]. exists (e1 ++ e2).
    rewrite Ht2, Ht1, app_assoc. split; [reflexivity |].
    intros x data ok Hin. apply in_app_or in Hin as [Hin | Hin].
    + destruct (Hw1 x data ok Hin) as (id & -> & Hid).
      exists id. split; [reflexivity | apply in_or_app; now left].
    + destruct (Hw2 x data ok Hin) as (id & -> & Hid).
      exists id. split; [reflexivity | apply in_or_app; now right].
Qed.

Lemma Dial_connects (addr : string) (s : state) (bytes : string)
    (ps : list (option string)) :
  dial_script s !! addr = Some (Some bytes :: ps) ->
  exists s2,
    net.Dial addr s = (Some (next_conn s), s2) /\
    trace s2 = trace s ++ [EvDial addr (Some (next_conn s))] /\
    rx s2 = <[next_conn s := bytes]> (rx s) /\
    dial_script s2 = <[addr := ps]> (dial_script s) /\
    next_conn s2 = S (next_conn s) /\
    PAddr s2 = PAddr s /\ proxyConnID s2 = proxyConnID s /\ closed s2 = closed s.
Proof.
  intros H. unfold net.Dial. rewrite H. eexists. split; [reflexivity |].
  repeat split.
Qed.

Lemma ReadString_line_effect (c : conn) (s : state) (bytes line rest : string) :
  c ∉ closed s -> rx s !! c = Some bytes -> split_line bytes = (line, Some rest) ->
  exists s1,
    bufio.ReadString c s = ((line, None), s1) /\
    trace s1 = trace s ++ [EvRead c line None] /\
    rx s1 = <[c := rest]> (rx s) /\ io_only s s1.
Proof.
  intros Hc Hrx Hsplit. rewrite (ReadString_line c s bytes line rest Hc Hrx Hsplit).
  eexists. split; [reflexivity |]. repeat split.
Qed.

(** X15: the acknowledgement is not looked at.  When a request line longer
    than five bytes is pending, the Gateway accepts the data connection, the
    target accepts, and any terminated line at all comes back on the data
    connection, [handleOneProxy] serves the request: it reads that line,
    whatever it says, and goes on to answer on the control connection and
    to start [pipeRemote]. *)
Theorem X15_any_line_acknowledges
    (r : conn) (w : Writer) (s : state) (bytes line rest ack more target : string)
    (ps ts : list (option string)) :
  r ∉ closed s -> rx s !! r = Some bytes ->
  split_line bytes = (line, Some rest) -> 5 < String.length line ->
  dial_script s !! PAddr s = Some (Some (ack +:+ LF +:+ more) :: ps) ->
  no_LF ack = true ->
  str_drop 5 line <> PAddr s ->
  dial_script s !! str_drop 5 line = Some (Some target :: ts) ->
  next_conn s ∉ closed s ->
  exists ok ctl,
    responded w (id_line (int32 (proxyConnID s + 1))) ctl
              (fst (handleOneProxy r w s)) /\
    trace (snd (handleOneProxy r w s)) =
      trace s ++ [EvRead r line None; EvDial (PAddr s) (Some (next_conn s));
                  EvDial (str_drop 5 line) (Some (S (next_conn s)));
                  EvAdd (int32 (proxyConnID s + 1));
                  EvWrite (next_conn s) (id_line (int32 (proxyConnID s + 1))) ok;
                  EvRead (next_conn s) (ack +:+ LF) None]
              ++ ctl ++ [EvGo (PipeRemote (S (next_conn s)) (next_conn s))].
Proof.
  intros Hc Hrx Hsplit Hlen Hgw Hno Hne Htg Hfresh.
  destruct (ReadString_line_effect r s bytes line rest Hc Hrx Hsplit)
    as (s1 & Hread & Ht1 & Hrx1 & HP1 & _ & _ & Hid1 & Hc1 & _ & Hn1 & Hs1).
  destruct (Dial_connects (PAddr s1) s1 (ack +:+ LF +:+ more) ps)
    as (s2 & Hd1 & Ht2 & Hrx2 & Hs2 & Hn2 & HP2 & Hid2 & Hc2).
  { now rewrite HP1, Hs1. }
  destruct (Dial_connects (str_drop 5 line) s2 target ts)
    as (s3 & Hd2 & Ht3 & Hrx3 & Hs3 & Hn3 & HP3 & Hid3 & Hc3).
  { rewrite Hs2, Hs1, HP1. rewrite lookup_insert_ne by congruence. exact Htg. }
  set (id := int32 (proxyConnID s + 1)).
  set (s4 := emit (EvAdd id) (set_proxyConnID id s3)).
  destruct (net.Write (next_conn s) (id_line id) s4) as [ok s5] eqn:Hw.
  pose proof (Write_effect _ _ _ _ _ Hw) as Hs5.
  destruct (ReadString_line_effect (next_conn s) s5 (ack +:+ LF +:+ more)
              (ack +:+ LF) more)
    as (s6 & Hack & Ht6 & _ & _).
  { rewrite Hs5. simpl. now rewrite Hc3, Hc2, Hc1. }
  { rewrite Hs5. simpl. rewrite Hrx3, Hn2, Hn1, Hrx2, Hn1.
    rewrite lookup_insert_ne by lia. apply lookup_insert_eq. }
  { now apply split_line_append. }
  destruct (bufio.WriteString w (id_line id)) as [w1 e1] eqn:Hws.
  destruct (bufio.Flush w1 s6) as [[w2 e2] s7] eqn:Hfl.
  destruct (Flush_responded w (id_line id) s6 (id_line_nonempty id)
              w1 e1 w2 e2 s7 Hws Hfl) as (ctl & Hresp & Ht7 & _).
  assert (Hrun : handleOneProxy r w s = (w2, emit (EvGo (PipeRemote (S (next_conn s)) (next_conn s))) s7)).
  { unfold handleOneProxy, bind. rewrite Hread.
    unfold parse_request.
    destruct (Nat.leb_spec (String.length line) 5) as [Hle|_]; [lia |].
    rewrite Hd1, Hn1, Hd2, Hn2, Hn1.
    unfold atomic.AddInt32_proxyConnID. rewrite Hid3, Hid2, Hid1.
    fold id. fold s4. rewrite Hw. unfold bufio.NewReader. rewrite Hack, Hws, Hfl.
    reflexivity. }
  rewrite Hrun. simpl fst. simpl snd.
  exists ok, ctl. split; [exact Hresp |].
  cbn [trace emit]. rewrite Ht7, Ht6, Hs5. cbn [trace emit]. subst s4. cbn [trace emit set_proxyConnID].
  rewrite Ht3, Hn2, Hn1, Ht2, Hn1, HP1, Ht1, <- !app_assoc. reflexivity.
Qed.

(** ** One request line per call *)

Lemma Dial_rx (addr : string) (s : state) (r : conn) :
  r < next_conn s ->
  forall res s', net.Dial addr s = (res, s') ->
  rx s' !! r = rx s !! r /\ next_conn s <= next_conn s'.
Proof.
  intros Hr res s'. unfold net.Dial.
  destruct (dial_script s !! addr) as [[|[bytes|] rest]|];
    intros [= <- <-]; simpl; try (split; [reflexivity | lia]).
  split; [| lia]. apply lookup_insert_ne. lia.
Qed.

Lemma ReadString_rx (c r : conn) (s : state) :
  c <> r -> rx (snd (bufio.ReadString c s)) !! r = rx s !! r.
Proof.
  intros Hne. unfold bufio.ReadString.
  destruct (decide (c ∈ closed s)); [reflexivity |].
  destruct (split_line (default "" (rx s !! c))) as [l [rest|]]; simpl;
    now apply lookup_insert_ne.
Qed.

(** X16: every call of [handleOneProxy] that reads a request line takes
    exactly that line off the control connection, whether the request is then
    refused, given up or served; what follows the line is still pending for
    the next call.  A failed request neither swallows nor replays the one
    behind it. *)
Theorem X16_one_request_line_per_call
    (r : conn) (w : Writer) (s : state) (bytes line rest : string) :
  r < next_conn s -> r ∉ closed s ->
  rx s !! r = Some bytes -> split_line bytes = (line, Some rest) ->
  rx (snd (handleOneProxy r w s)) !! r = Some rest.
Proof.
  intros Hr Hc Hrx Hsplit.
  destruct (ReadString_line_effect r s bytes line rest Hc Hrx Hsplit)
    as (s1 & Hread & _ & Hrx1 & _ & _ & _ & _ & _ & _ & Hn1 & _).
  assert (H1 : rx s1 !! r = Some rest) by (rewrite Hrx1; apply lookup_insert_eq).
  unfold handleOneProxy, bind. rewrite Hread.
  destruct (parse_request line) as [raddr|]; [| exact H1].
  destruct (net.Dial (PAddr s1) s1) as [[pc|] s2] eqn:Hd1;
    pose proof (Dial_rx (PAddr s1) s1 r ltac:(lia) _ _ Hd1) as [Hrx2 Hle2];
    pose proof (Dial_effect _ _ _ _ Hd1) as (_ & _ & _ & _ & _ & _ & _ & Hpc);
    [| simpl; congruence].
  destruct Hpc as [Hpc Hn2].
  destruct (net.Dial raddr s2) as [[rc|] s3] eqn:Hd2;
    pose proof (Dial_rx raddr s2 r ltac:(lia) _ _ Hd2) as [Hrx3 Hle3];
    [| simpl; congruence].
  unfold atomic.AddInt32_proxyConnID.
  set (s4 := emit _ (set_proxyConnID _ s3)).
  destruct (net.Write pc (id_line (int32 (proxyConnID s3 + 1))) s4) as [ok s5] eqn:Hw.
  apply Write_effect in Hw.
  assert (H5 : rx s5 !! r = Some rest) by (subst s5 s4; simpl; congruence).
  unfold bufio.NewReader.
  pose proof (ReadString_rx pc r s5 ltac:(lia)) as Hrx6.
  destruct (bufio.ReadString pc s5) as [[ack err] s6]. simpl in Hrx6.
  destruct err; [simpl; congruence |].
  destruct (bufio.WriteString w (id_line (int32 (proxyConnID s3 + 1)))) as [w1 e1] eqn:Hws.
  destruct (bufio.Flush w1 s6) as [[w2 e2] s7] eqn:Hfl.
  destruct (Flush_responded w _ s6 (id_line_nonempty _) w1 e1 w2 e2 s7 Hws Hfl)
    as (ctl & _ & _ & _ & Hrx7).
  unfold go, modify. simpl. congruence.
Qed.

(** ** Taking an ID *)

(** A request for which both dials succeed takes an ID and announces it on
    the data connection; only then does it look for the acknowledgement. *)
Lemma handleOneProxy_takes_id (r : conn) (w : Writer) (s : state)
    (bytes line rest pbytes target : string) (ps ts : list (option string)) :
  r ∉ closed s -> rx s !! r = Some bytes ->
  split_line bytes = (line, Some rest) -> 5 < String.length line ->
  dial_script s !! PAddr s = Some (Some pbytes :: ps) ->
  str_drop 5 line <> PAddr s ->
  dial_script s !! str_drop 5 line = Some (Some target :: ts) ->
  exists ok s5,
    trace s5 = trace s ++ [EvRead r line None; EvDial (PAddr s) (Some (next_conn s));
                           EvDial (str_drop 5 line) (Some (S (next_conn s)));
                           EvAdd (int32 (proxyConnID s + 1));
                           EvWrite (next_conn s) (id_line (int32 (proxyConnID s + 1))) ok] /\
    proxyConnID s5 = int32 (proxyConnID s + 1) /\
    closed s5 = closed s /\
    rx s5 !! next_conn s = Some pbytes /\
    handleOneProxy r w s =
      (let* (_, err) := bufio.ReadString (next_conn s) in
       match err with
       | Some _ => ret w
       | None =>
           let (w, _) := bufio.WriteString w (id_line (int32 (proxyConnID s + 1))) in
           let* (w, _) := bufio.Flush w in
           go (PipeRemote (S (next_conn s)) (next_conn s)) ;;
           ret w
       end) s5.
Proof.
  intros Hc Hrx Hsplit Hlen Hgw Hne Htg.
  destruct (ReadString_line_effect r s bytes line rest Hc Hrx Hsplit)
    as (s1 & Hread & Ht1 & Hrx1 & HP1 & _ & _ & Hid1 & Hc1 & _ & Hn1 & Hs1).
  destruct (Dial_connects (PAddr s1) s1 pbytes ps)
    as (s2 & Hd1 & Ht2 & Hrx2 & Hs2 & Hn2 & HP2 & Hid2 & Hc2).
  { now rewrite HP1, Hs1. }
  destruct (Dial_connects (str_drop 5 line) s2 target ts)
    as (s3 & Hd2 & Ht3 & Hrx3 & Hs3 & Hn3 & HP3 & Hid3 & Hc3).
  { rewrite Hs2, Hs1, HP1. rewrite lookup_insert_ne by congruence. exact Htg. }
  set (id := int32 (proxyConnID s + 1)).
  set (s4 := emit (EvAdd id) (set_proxyConnID id s3)).
  destruct (net.Write (next_conn s) (id_line id) s4) as [ok s5] eqn:Hw.
  pose proof (Write_effect _ _ _ _ _ Hw) as Hs5.
  exists ok, s5.
  split.
  { rewrite Hs5. cbn [trace emit]. subst s4. cbn [trace emit set_proxyConnID].
    rewrite Ht3, Hn2, Hn1, Ht2, Hn1, HP1, Ht1, <- !app_assoc. reflexivity. }
  split; [rewrite Hs5; reflexivity |].
  split; [rewrite Hs5; simpl; now rewrite Hc3, Hc2, Hc1 |].
  split.
  { rewrite Hs5. simpl. rewrite Hrx3, Hn2, Hn1, Hrx2, Hn1.
    rewrite lookup_insert_ne by lia. apply lookup_insert_eq. }
  unfold handleOneProxy, bind at 1. rewrite Hread.
  unfold parse_request.
  destruct (Nat.leb_spec (String.length line) 5) as [Hle|_]; [lia |].
  unfold bind at 1 2. rewrite Hd1, Hn1.
  unfold bind at 1. rewrite Hd2, Hn2, Hn1.
  unfold bind at 1, atomic.AddInt32_proxyConnID. rewrite Hid3, Hid2, Hid1.
  fold id. fold s4. unfold bind at 1. rewrite Hw. unfold bufio.NewReader.
  reflexivity.
Qed.

(** What follows the announcement adds events and leaves the counter. *)
Lemma handleOneProxy_after_id (x : conn) (w : Writer) (rsp : string) (t : task) (s5 : state) :
  rsp <> "" ->
  forall w' s',
    (let* (_, err) := bufio.ReadString x in
     match err with
     | Some _ => ret w
     | None =>
         let (w, _) := bufio.WriteString w rsp in
         let* (w, _) := bufio.Flush w in
         go t ;;
         ret w
     end) s5 = (w', s') ->
  exists tail, trace s' = trace s5 ++ tail /\ proxyConnID s' = proxyConnID s5.
Proof.
  intros Hne w' s'. unfold bind at 1.
  destruct (bufio.ReadString x s5) as [[ack err] s6] eqn:Hack.
  apply ReadString_effect in Hack as (Ht6 & _ & _ & _ & Hid6 & _).
  destruct err as [e|].
  { intros [= <- <-]. exists [EvRead x ack (Some e)]. split; [exact Ht6 | exact Hid6]. }
  destruct (bufio.WriteString w rsp) as [w1 e1] eqn:Hws.
  unfold bind at 1.
  destruct (bufio.Flush w1 s6) as [[w2 e2] s7] eqn:Hfl.
  destruct (Flush_responded w rsp s6 Hne w1 e1 w2 e2 s7 Hws Hfl)
    as (ctl & _ & Ht7 & (_ & _ & _ & Hid7 & _) & _).
  unfold bind, go, modify, ret. intros [= <- <-]. simpl.
  exists (EvRead x ack None :: ctl ++ [EvGo t]).
  split; [| congruence].
  rewrite Ht7, Ht6, <- !app_assoc. reflexivity.
Qed.

(** In one call of [handleOneProxy] the counter either stays as it was, or
    moves by exactly one (wrapped to 32 bits); it moves only in calls where
    no dial failed and both connections were opened. *)
Lemma id_taken_only_after_both_dials
    (r : conn) (w : Writer) (s : state) (w' : Writer) (s' : state) (evs : list event) :
  handleOneProxy r w s = (w', s') ->
  trace s' = trace s ++ evs ->
  (proxyConnID s' = proxyConnID s /\ ids_of evs = []) \/
  (proxyConnID s' = int32 (proxyConnID s + 1) /\
   ids_of evs = [int32 (proxyConnID s + 1)] /\
   (forall addr, ~ In (EvDial addr None) evs) /\
   exists line,
     In (EvDial (PAddr s) (Some (next_conn s))) evs /\
     In (EvDial (str_drop 5 line) (Some (S (next_conn s)))) evs).
Proof.
  intros Hrun Hevs. apply handleOneProxy_handled in Hrun.
  inversion Hrun as [part e s1 _ Ht | l s1 _ _ Ht | l s1 _ _ Ht | l pc s1 _ _ Hpc Ht
                    | l pc rc id ok part e s1 _ _ Hpc Hrc Hid Ht
                    | l pc rc id ok ack ctl w1 s1 _ _ Hpc Hrc Hid Hresp Ht];
    subst; same_trace.
  1-4: left; split; [assumption | reflexivity].
  - right. split; [assumption |]. split; [reflexivity |]. split.
    + intros addr Hin. in_events.
    + exists l. split; simpl; auto.
  - right. split; [assumption |]. split.
    + rewrite !ids_of_app, (responded_no_id _ _ _ _ Hresp). reflexivity.
    + split.
      * intros addr Hin. in_events.
        apply (responded_on_writer _ _ _ _ Hresp) in Hin as [? ?]. discriminate.
      * exists l. split; simpl; auto.
Qed.


(** X13: a connection ID is taken when, and only when, both connections
    are open, and it is not given back.  In one call of [handleOneProxy] the
    counter moves only if no dial failed and both the data connection and the
    target connection were opened.  When both dials succeed and the data
    connection then ends without an acknowledgement line, the request is given
    up with its ID used up: the counter has moved by one, the ID has been
    announced on the data connection, nothing has been written on the control
    connection, and nothing has been closed. *)
Theorem X13_abandoned_request_uses_up_its_id :
  (forall r w s w' s' evs,
     handleOneProxy r w s = (w', s') ->
     trace s' = trace s ++ evs ->
     (proxyConnID s' = proxyConnID s /\ ids_of evs = []) \/
     (proxyConnID s' = int32 (proxyConnID s + 1) /\
      ids_of evs = [int32 (proxyConnID s + 1)] /\
      (forall addr, ~ In (EvDial addr None) evs) /\
      exists line,
        In (EvDial (PAddr s) (Some (next_conn s))) evs /\
        In (EvDial (str_drop 5 line) (Some (S (next_conn s)))) evs)) /\
  (forall r w s bytes line rest part target ps ts,
     r ∉ closed s -> rx s !! r = Some bytes ->
     split_line bytes = (line, Some rest) -> 5 < String.length line ->
     dial_script s !! PAddr s = Some (Some part :: ps) -> no_LF part = true ->
     str_drop 5 line <> PAddr s ->
     dial_script s !! str_drop 5 line = Some (Some target :: ts) ->
     next_conn s ∉ closed s ->
     exists ok,
       fst (handleOneProxy r w s) = w /\
       proxyConnID (snd (handleOneProxy r w s)) = int32 (proxyConnID s + 1) /\
       trace (snd (handleOneProxy r w s)) =
         trace s ++ [EvRead r line None; EvDial (PAddr s) (Some (next_conn s));
                     EvDial (str_drop 5 line) (Some (S (next_conn s)));
                     EvAdd (int32 (proxyConnID s + 1));
                     EvWrite (next_conn s) (id_line (int32 (proxyConnID s + 1))) ok;
                     EvRead (next_conn s) part (Some EOF)] /\
       closed (snd (handleOneProxy r w s)) = closed s).
Proof.
  split; [exact id_taken_only_after_both_dials |].
  intros r w s bytes line rest part target ps ts Hc Hrx Hsplit Hlen Hgw Hno Hne Htg Hfresh.
  destruct (handleOneProxy_takes_id r w s bytes line rest part target ps ts
              Hc Hrx Hsplit Hlen Hgw Hne Htg)
    as (ok & s5 & Ht5 & Hid5 & Hc5 & Hrx5 & Hrun).
  exists ok. rewrite Hrun. unfold bind, bufio.ReadString.
  destruct (decide (next_conn s ∈ closed s5)) as [Hin|_];
    [rewrite Hc5 in Hin; contradiction |].
  rewrite Hrx5. simpl default. rewrite (split_line_no_LF part Hno). simpl.
  split; [reflexivity |]. split; [exact Hid5 |].
  split; [rewrite Ht5, <- app_assoc; reflexivity | exact Hc5].
Qed.

(** X17: there is no check at the 32-bit limit.  When the counter stands at
    2^31 - 1 and a request gets both its connections, the counter wraps: the
    call leaves it at -2^31 and announces the ID -2147483648 on the data
    connection, whatever the acknowledgement.  In a call that takes no ID the
    counter stays where it was. *)
Theorem X17_counter_wraps_at_the_limit :
  (forall r w s bytes line rest pbytes target ps ts,
     proxyConnID s = maxInt32 ->
     r ∉ closed s -> rx s !! r = Some bytes ->
     split_line bytes = (line, Some rest) -> 5 < String.length line ->
     dial_script s !! PAddr s = Some (Some pbytes :: ps) ->
     str_drop 5 line <> PAddr s ->
     dial_script s !! str_drop 5 line = Some (Some target :: ts) ->
     proxyConnID (snd (handleOneProxy r w s)) = minInt32 /\
     exists ok tail,
       trace (snd (handleOneProxy r w s)) =
         trace s ++ [EvRead r line None; EvDial (PAddr s) (Some (next_conn s));
                     EvDial (str_drop 5 line) (Some (S (next_conn s)));
                     EvAdd minInt32;
                     EvWrite (next_conn s) ("-2147483648" +:+ LF) ok] ++ tail) /\
  (forall r w s w' s' evs,
     proxyConnID s = maxInt32 ->
     handleOneProxy r w s = (w', s') -> trace s' = trace s ++ evs ->
     ids_of evs = [] -> proxyConnID s' = maxInt32).
Proof.
  split.
  - intros r w s bytes line rest pbytes target ps ts Hmax Hc Hrx Hsplit Hlen Hgw Hne Htg.
    destruct (handleOneProxy_takes_id r w s bytes line rest pbytes target ps ts
                Hc Hrx Hsplit Hlen Hgw Hne Htg)
      as (ok & s5 & Ht5 & Hid5 & _ & _ & Hrun).
    rewrite Hmax in *. change (int32 (maxInt32 + 1)) with minInt32 in *.
    rewrite Hrun.
    match goal with
    | |- context [snd (?k s5)] => destruct (k s5) as [w' s'] eqn:Hk
    end.
    apply handleOneProxy_after_id in Hk as (tail & Ht & Hid); [| apply id_line_nonempty].
    cbn [snd]. split; [congruence |].
    exists ok, tail. rewrite Ht, Ht5, <- app_assoc. reflexivity.
  - intros r w s w' s' evs Hmax Hrun Hevs Hids.
    destruct (id_taken_only_after_both_dials r w s w' s' evs Hrun Hevs)
      as [[Hsame _] | (_ & Hsome & _)]; [congruence |].
    rewrite Hids in Hsome. discriminate.
Qed.

(** ** The further properties at concrete inputs *)

(** The line of a negative ID. *)
Lemma X1_witness_negative_id :
  split_line (id_line (-7) +:+ "next") = (id_line (-7), Some "next") /\
  strconv.Atoi (chop (id_line (-7))) = Ok (-7)%Z /\
  int32 (-7) = (-7)%Z.
Proof.
  apply (X1_id_line_round_trip (-7) "next"). unfold minInt32, maxInt32. lia.
Defined.

(** ID 1 is announced a second time: connection 5 takes the place of 11. *)
Lemma X2_witness_second_announcement :
  table (snd (handleClientProxyConn 5 gateway_duplicate)) !! 1%Z = Some 5 /\
  table (snd (handleClientProxyConn 5 gateway_duplicate)) !! 2%Z = Some 12 /\
  closed (snd (handleClientProxyConn 5 gateway_duplicate)) = ∅.
Proof.
  destruct (X2_announced_connection_replaces_entry 5 gateway_duplicate
              (mkDialer (Some 0) (Some (bufio.NewWriter 0)) (Some (bufio.NewReader 0))
                        {[ 1%Z := 11; 2%Z := 12 ]})
              1 "") as (Htable & Hother & Hclosed & _).
  - reflexivity.
  - apply nothing_closed.
  - vm_compute. reflexivity.
  - unfold strconv.minInt, strconv.maxInt. lia.
  - split; [| split].
    + rewrite Htable. apply lookup_insert_eq.
    + rewrite (Hother 2%Z); [vm_compute; reflexivity | vm_compute; discriminate].
    + exact Hclosed.
Defined.

(** A greeting instead of a number: one read, then nothing. *)
Lemma X3_witness_greeting :
  exists data err,
    trace (snd (handleClientProxyConn 5 gateway_greeted)) =
      trace gateway_greeted ++ [EvRead 5 data err] /\
    defaultDialer (snd (handleClientProxyConn 5 gateway_greeted)) =
      Some (mkDialer (Some 0) (Some (bufio.NewWriter 0)) (Some (bufio.NewReader 0))
                     {[ 1%Z := 11 ]}) /\
    closed (snd (handleClientProxyConn 5 gateway_greeted)) = closed gateway_greeted.
Proof.
  apply (X3_bad_announcement_is_dropped 5 gateway_greeted).
  - reflexivity.
  - intros line H. vm_compute in H. injection H as <-.
    exists ErrSyntax. vm_compute. reflexivity.
Defined.

(** Announced as 1, answered as 2^32 + 1: the same table key. *)
Lemma X4_witness_wide_response :
  fst (Dial "www.qq.com:80" (snd (handleClientProxyConn 5 gateway_wide_id))) = Ok 5.
Proof.
  apply (X4_registered_connection_is_dialled "www.qq.com:80" 5 0 gateway_wide_id
           (mkDialer (Some 0) (Some (bufio.NewWriter 0)) (Some (bufio.NewReader 0)) ∅)
           (bufio.NewWriter 0) 1 4294967297 "" "").
  - reflexivity.
  - reflexivity.
  - reflexivity.
  - reflexivity.
  - discriminate.
  - apply nothing_closed.
  - apply nothing_closed.
  - vm_compute. reflexivity.
  - vm_compute. reflexivity.
  - unfold strconv.minInt, strconv.maxInt. lia.
  - unfold strconv.minInt, strconv.maxInt. lia.
  - reflexivity.
Defined.

(** The Relay is gone: [Dial] comes back with [EOF]. *)
Lemma X5_witness_relay_gone :
  exists ok s',
    Dial "www.qq.com:80" gateway_abandoned = (Err EOF, s') /\
    trace s' = trace gateway_abandoned ++
               [EvWrite 0 ("" +:+ dial_request "www.qq.com:80") ok;
                EvRead 0 (default "" (rx gateway_abandoned !! 0)) (Some EOF)] /\
    table s' = table gateway_abandoned.
Proof.
  apply (X5_Dial_on_ended_control_link "www.qq.com:80" gateway_abandoned
           (mkDialer (Some 0) (Some (bufio.NewWriter 0)) (Some (bufio.NewReader 0))
                     {[ 1%Z := 11 ]})
           (bufio.NewWriter 0) 0).
  - reflexivity.
  - reflexivity.
  - reflexivity.
  - reflexivity.
  - apply nothing_closed.
  - reflexivity.
Defined.

(** The response [oops] is no number; the line after it stays unread. *)
Lemma X6_witness_garbled_response :
  fst (Dial "www.qq.com:80" gateway_garbled) = Err ErrSyntax /\
  rx (snd (Dial "www.qq.com:80" gateway_garbled)) !! 0 = Some (id_line 1) /\
  table (snd (Dial "www.qq.com:80" gateway_garbled)) = table gateway_garbled.
Proof.
  apply (X6_Dial_on_unparsable_response "www.qq.com:80" gateway_garbled
           (mkDialer (Some 0) (Some (bufio.NewWriter 0)) (Some (bufio.NewReader 0))
                     {[ 1%Z := 11 ]})
           (bufio.NewWriter 0) 0 "oops" (id_line 1) ErrSyntax).
  - reflexivity.
  - reflexivity.
  - reflexivity.
  - reflexivity.
  - apply nothing_closed.
  - vm_compute. reflexivity.
  - reflexivity.
  - reflexivity.
Defined.

(** A writer that failed before: the pending response is not even read. *)
Lemma X7_witness_broken_writer :
  Dial "www.qq.com:80" gateway_broken = (Err ErrWrite, gateway_broken).
Proof.
  apply (X7_Dial_on_failed_writer "www.qq.com:80" gateway_broken
           (mkDialer (Some 0) (Some (mkWriter 0 "" (Some ErrWrite)))
                     (Some (bufio.NewReader 0)) {[ 1%Z := 11 ]})
           (mkWriter 0 "" (Some ErrWrite)) ErrWrite); reflexivity.
Defined.

(** The control connection cannot be written: the first call reads all the
    same, the second fails at once. *)
Lemma X8_witness_unwritable_link :
  exists data err,
    trace (snd (Dial "a.example:80" gateway_unwritable)) =
      trace gateway_unwritable ++
      [EvWrite 0 ("" +:+ dial_request "a.example:80") false; EvRead 0 data err] /\
    Dial "b.example:80" (snd (Dial "a.example:80" gateway_unwritable)) =
      (Err ErrWrite, snd (Dial "a.example:80" gateway_unwritable)).
Proof.
  apply (X8_failed_flush_fails_the_next_Dial "a.example:80" "b.example:80"
           gateway_unwritable
           (mkDialer (Some 0) (Some (bufio.NewWriter 0)) (Some (bufio.NewReader 0))
                     {[ 1%Z := 11 ]})
           (bufio.NewWriter 0) 0).
  - reflexivity.
  - reflexivity.
  - reflexivity.
  - reflexivity.
  - right. vm_compute. reflexivity.
Defined.

(** Two calls, one after the other, on the responses 1 and 2. *)
Lemma X9_witness_two_calls :
  fst (Dial "a.example:80" gateway_paired) =
    lookup_outcome {[ 1%Z := 11; 2%Z := 12 ]} "1" /\
  fst (Dial "b.example:80" (snd (Dial "a.example:80" gateway_paired))) =
    lookup_outcome {[ 1%Z := 11; 2%Z := 12 ]} "2" /\
  rx (snd (Dial "b.example:80" (snd (Dial "a.example:80" gateway_paired)))) !! 0
    = Some "".
Proof.
  destruct (X9_serial_dials_take_responses_in_order "a.example:80" "b.example:80"
           gateway_paired
           (mkDialer (Some 0) (Some (bufio.NewWriter 0)) (Some (bufio.NewReader 0))
                     {[ 1%Z := 11; 2%Z := 12 ]})
           (bufio.NewWriter 0) 0 "1" "2" "") as (H1 & H2 & H3).
  - reflexivity.
  - reflexivity.
  - reflexivity.
  - reflexivity.
  - apply nothing_closed.
  - intros [H | H]; exact (nothing_closed 0 H).
  - vm_compute. reflexivity.
  - reflexivity.
  - reflexivity.
  - split; [exact H1 |]. split; [exact H2 | exact H3].
Defined.

(** A data connection and an application connection handled, interleaved,
    by a Gateway that has its dialer; and two rendezvous connections, 3 and
    4, racing for the election on a fresh Gateway. *)
Lemma X10_witness_later_connections_and_race :
  (control_of (snd (gw_run [0; 1; 1; 0; 1; 0; 0; 1; 1; 1] [ProxyTest 5; ClientTest 7]
                      gateway_early)) = control_of gateway_early /\
   settled (fst (gw_run [0; 1; 1; 0; 1; 0; 0; 1; 1; 1] [ProxyTest 5; ClientTest 7]
                   gateway_early))
           (snd (gw_run [0; 1; 1; 0; 1; 0; 0; 1; 1; 1] [ProxyTest 5; ClientTest 7]
                   gateway_early))) /\
  (fst (gw_run [0; 1; 0; 1] [ProxyTest 3; ProxyTest 4] gateway_fresh) = [GwDone; GwDone] /\
   control_of (snd (gw_run [0; 1; 0; 1] [ProxyTest 3; ProxyTest 4] gateway_fresh))
     = Some (Some 4, Some 4) /\
   closed (snd (gw_run [0; 1; 0; 1] [ProxyTest 3; ProxyTest 4] gateway_fresh))
     = closed gateway_fresh /\
   trace (snd (gw_run [0; 1; 0; 1] [ProxyTest 3; ProxyTest 4] gateway_fresh))
     = trace gateway_fresh).
Proof.
  split.
  - apply (proj1 X10_control_connection_replaced_only_by_race
             [0; 1; 1; 0; 1; 0; 0; 1; 1; 1] [ProxyTest 5; ClientTest 7] gateway_early).
    split; [discriminate | repeat constructor].
  - exact (proj2 (proj2 X10_control_connection_replaced_only_by_race)
             3 4 gateway_fresh eq_refl).
Defined.



(** Both connections are opened, the Gateway does not acknowledge: ID 1 is
    gone, and the control connection has seen no response. *)
Lemma X13_witness_missing_acknowledgement :
  exists ok,
    fst (handleOneProxy 0 (bufio.NewWriter 0) relay_no_ack) = bufio.NewWriter 0 /\
    proxyConnID (snd (handleOneProxy 0 (bufio.NewWriter 0) relay_no_ack)) = 1%Z /\
    trace (snd (handleOneProxy 0 (bufio.NewWriter 0) relay_no_ack)) =
      [] ++ [EvRead 0 (dial_request "www.qq.com:80") None;
             EvDial "127.0.0.1:7002" (Some 1);
             EvDial ("www.qq.com:80" +:+ LF) (Some 2);
             EvAdd 1;
             EvWrite 1 ("1" +:+ LF) ok;
             EvRead 1 "" (Some EOF)] /\
    closed (snd (handleOneProxy 0 (bufio.NewWriter 0) relay_no_ack)) = ∅.
Proof.
  apply (proj2 X13_abandoned_request_uses_up_its_id 0 (bufio.NewWriter 0) relay_no_ack
           (dial_request "www.qq.com:80") (dial_request "www.qq.com:80") "" ""
           "" [] []).
  - apply nothing_closed.
  - vm_compute. reflexivity.
  - reflexivity.
  - simpl. lia.
  - vm_compute. reflexivity.
  - reflexivity.
  - vm_compute. discriminate.
  - vm_compute. reflexivity.
  - apply nothing_closed.
Defined.


(** Two iterations on a served request: the writes are lines of ID 1. *)
Lemma X14_witness_served_request :
  pc_clean (fst (relay_run 2 (InHandleProxy 0 (bufio.NewWriter 0)) relay_served)) /\
  exists evs,
    trace (snd (relay_run 2 (InHandleProxy 0 (bufio.NewWriter 0)) relay_served)) =
      trace relay_served ++ evs /\
    forall x data ok, In (EvWrite x data ok) evs ->
      exists id, data = id_line id /\ In (EvAdd id) evs.
Proof.
  apply (X14_relay_writes_only_id_lines 2 (InHandleProxy 0 (bufio.NewWriter 0))
           relay_served).
  intros _. reflexivity.
Defined.

(** The data connection answers [nope]: the request is served all the same. *)
Lemma X15_witness_odd_acknowledgement :
  exists ok ctl,
    responded (bufio.NewWriter 0) (id_line (int32 (proxyConnID relay_odd_ack + 1))) ctl
              (fst (handleOneProxy 0 (bufio.NewWriter 0) relay_odd_ack)) /\
    trace (snd (handleOneProxy 0 (bufio.NewWriter 0) relay_odd_ack)) =
      trace relay_odd_ack ++
      [EvRead 0 (dial_request "www.qq.com:80") None;
       EvDial (PAddr relay_odd_ack) (Some (next_conn relay_odd_ack));
       EvDial (str_drop 5 (dial_request "www.qq.com:80"))
              (Some (S (next_conn relay_odd_ack)));
       EvAdd (int32 (proxyConnID relay_odd_ack + 1));
       EvWrite (next_conn relay_odd_ack)
               (id_line (int32 (proxyConnID relay_odd_ack + 1))) ok;
       EvRead (next_conn relay_odd_ack) ("nope" +:+ LF) None]
      ++ ctl ++ [EvGo (PipeRemote (S (next_conn relay_odd_ack)) (next_conn relay_odd_ack))].
Proof.
  apply (X15_any_line_acknowledges 0 (bufio.NewWriter 0) relay_odd_ack
           (dial_request "www.qq.com:80") (dial_request "www.qq.com:80") ""
           "nope" "" "" [] []).
  - apply nothing_closed.
  - vm_compute. reflexivity.
  - reflexivity.
  - simpl. lia.
  - vm_compute. reflexivity.
  - reflexivity.
  - intros H. vm_compute in H. discriminate H.
  - vm_compute. reflexivity.
  - apply nothing_closed.
Defined.

(** The request was given up; the control connection has nothing left. *)
Lemma X16_witness_abandoned_request :
  rx (snd (handleOneProxy 0 (bufio.NewWriter 0) relay_unreachable)) !! 0 = Some "".
Proof.
  apply (X16_one_request_line_per_call 0 (bufio.NewWriter 0) relay_unreachable
           (dial_request "www.qq.com:80") (dial_request "www.qq.com:80") "").
  - simpl. lia.
  - apply nothing_closed.
  - vm_compute. reflexivity.
  - reflexivity.
Defined.

(** A request served at the limit is announced as -2147483648. *)
Lemma X17_witness_request_at_limit :
  proxyConnID (snd (handleOneProxy 0 (bufio.NewWriter 0) relay_at_limit))
    = (-2147483648)%Z /\
  exists ok tail,
    trace (snd (handleOneProxy 0 (bufio.NewWriter 0) relay_at_limit)) =
      [] ++ [EvRead 0 (dial_request "www.qq.com:80") None;
             EvDial "127.0.0.1:7002" (Some 1);
             EvDial ("www.qq.com:80" +:+ LF) (Some 2);
             EvAdd (-2147483648);
             EvWrite 1 ("-2147483648" +:+ LF) ok] ++ tail.
Proof.
  apply (proj1 X17_counter_wraps_at_the_limit 0 (bufio.NewWriter 0) relay_at_limit
           (dial_request "www.qq.com:80") (dial_request "www.qq.com:80") ""
           ("ok" +:+ LF) "" [] []).
  - reflexivity.
  - apply nothing_closed.
  - vm_compute. reflexivity.
  - reflexivity.
  - simpl. lia.
  - vm_compute. reflexivity.
  - vm_compute. discriminate.
  - vm_compute. reflexivity.
Defined.
